(** * Cloud Functions backend: admin-claim synchronizer, HTTP proxies and
      tag backfill

    A shallow embedding of the functions of [functions/src/index.ts] (the
    compiled [functions/lib/index.js] is the same code), of the script
    that tags news documents and of the script that stores one news item,
    followed by the properties proved of them.

    Conventions.
    - A JavaScript value is a [jsval]; an object used as a dictionary
      (custom claims, a Firestore document, a request body) is a
      [gmap string jsval].
    - A JavaScript string is a Rocq [string], one [ascii] per code unit
      below 256.  Text constants are kept as they stand in the source.
    - The Admin SDK, Firestore, [fetch] and the logger are the outside
      world: a [World] record holds their state and every call leaves an
      [Event] in a trace, so that "no write happened" is a statement about
      the trace and about the final [World].  A call to the outside fails
      where the definitions of [Platform] say so (an unknown uid, a token
      that does not verify, an update of a document that is not there, a
      [fetch] that is rejected) and nowhere else: quotas, permissions and
      the checks of the document store on the data it is given are not
      modelled.
    - [async] code is sequential here: one handler runs from its first
      [await] to its last with no other writer in between.
    - [String(v)] and a template literal throw a [TypeError] on some
      values ([stringifies] says on which); the handlers throw there as
      the code does.
    - An HTTP function is modelled twice: the handler that the source
      passes to [onRequest], under its name in [Functions], and the
      function as exported, behind the CORS layer that [{ cors: true }]
      asks for, under the same name in [Exports]. *)

From stdpp Require Import gmap strings list fin_maps pretty.
From Stdlib Require Import ZArith Ascii.

Set Warnings "-register-all".
#[local] Open Scope string_scope.
#[local] Open Scope Z_scope.

(** ** JavaScript values *)

Module JS.

(** [JNum n] is an integral number, of a size that prints as plain
    digits.  [JDecimal d] is a number that is not integral, given by the
    decimal form that [String] and [JSON.stringify] print for it (so it
    is never zero). *)
Inductive jsval : Type :=
| JUndefined
| JNull
| JBool (b : bool)
| JNum (n : Z)
| JNaN
| JDecimal (digits : string)
| JStr (s : string)
| JArr (l : list jsval)
| JObj (m : gmap string jsval).

(** An object literal [{ k1: v1, ... }]. *)
Definition obj (fields : list (string * jsval)) : jsval :=
  JObj (list_to_map fields).
#[global] Arguments obj : simpl never.

(** [!!v]: ToBoolean. *)
Definition truthy (v : jsval) : bool :=
  match v with
  | JUndefined | JNull | JNaN => false
  | JBool b => b
  | JNum n => negb (n =? 0)
  | JStr s => negb (String.eqb s EmptyString)
  | JDecimal _ | JArr _ | JObj _ => true
  end.

(** [o.k] on a dictionary: a missing key reads as [undefined]. *)
Definition prop (o : gmap string jsval) (k : string) : jsval :=
  default JUndefined (o !! k).

(** [v.k] on any value, for the named keys the handlers read (none of
    them is [length] or another built-in property): only an object can
    have them. *)
Definition get (v : jsval) (k : string) : jsval :=
  match v with
  | JObj m => prop m k
  | _ => JUndefined
  end.

(** [v === true]. *)
Definition is_true (v : jsval) : bool :=
  match v with
  | JBool true => true
  | _ => false
  end.

(** [typeof v === 'object'] (which holds of [null] too). *)
Definition typeof_object (v : jsval) : bool :=
  match v with
  | JNull | JArr _ | JObj _ => true
  | _ => false
  end.

(** Whether [String(v)], or [${v}] in a template literal, gives a string.
    An object is turned into a string by its [toString]; data that comes
    from JSON or from a stored document has no function in it, so an
    object with a property [toString] of its own has a [toString] that
    cannot be called, [valueOf] gives no primitive value either, and the
    conversion throws a [TypeError].  An array joins the strings of its
    elements, and throws when one of them does. *)
Fixpoint stringifies (v : jsval) : bool :=
  match v with
  | JObj m => negb (bool_decide (is_Some (m !! "toString")))
  | JArr l => forallb stringifies l
  | _ => true
  end.

(** [String(v)], also what a template literal does to [${v}], for a
    value that [stringifies]; the handlers go through [ToString] below,
    which throws for the others. *)
Fixpoint String_ (v : jsval) : string :=
  match v with
  | JUndefined => "undefined"
  | JNull => "null"
  | JBool true => "true"
  | JBool false => "false"
  | JNum n => pretty n
  | JNaN => "NaN"
  | JDecimal d => d
  | JStr s => s
  | JArr l =>
      (* Array.prototype.join(','): null and undefined print as empty *)
      (fix join (l : list jsval) : string :=
         match l with
         | [] => EmptyString
         | [x] => match x with JUndefined | JNull => EmptyString | _ => String_ x end
         | x :: r =>
             match x with JUndefined | JNull => EmptyString | _ => String_ x end
             +:+ "," +:+ join r
         end) l
  | JObj _ => "[object Object]"
  end.

(** *** Strings *)

(** The code units below 256 that the regular-expression class [\s] and
    [String.prototype.trim] take for white space: TAB, LF, VT, FF, CR,
    SPACE and NBSP. *)
Definition is_space (c : ascii) : bool :=
  let n := Z.of_N (Ascii.N_of_ascii c) in
  ((9 <=? n) && (n <=? 13)) || (n =? 32) || (n =? 160).

(** The line terminators below 256, which the regular-expression dot does
    not match: LF and CR. *)
Definition is_line_terminator (c : ascii) : bool :=
  let n := Z.of_N (Ascii.N_of_ascii c) in
  (n =? 10) || (n =? 13).

Definition lower_char (c : ascii) : ascii :=
  let n := Z.of_N (Ascii.N_of_ascii c) in
  if ((65 <=? n) && (n <=? 90))
     || ((192 <=? n) && (n <=? 222) && negb (n =? 215))
  then Ascii.ascii_of_N (Z.to_N (n + 32))
  else c.

(** The code units 181, 223 and 255 have their upper case outside one
    code unit below 256; they are left as they are, which no comparison
    with a word of ASCII letters can tell. *)
Definition upper_char (c : ascii) : ascii :=
  let n := Z.of_N (Ascii.N_of_ascii c) in
  if ((97 <=? n) && (n <=? 122))
     || ((224 <=? n) && (n <=? 254) && negb (n =? 247))
  then Ascii.ascii_of_N (Z.to_N (n - 32))
  else c.

(** The one-character string holding a double quote. *)
Definition dquote : string := String (Ascii.ascii_of_N 34) EmptyString.

Fixpoint toLowerCase (s : string) : string :=
  match s with
  | EmptyString => EmptyString
  | String c r => String (lower_char c) (toLowerCase r)
  end.

Fixpoint toUpperCase (s : string) : string :=
  match s with
  | EmptyString => EmptyString
  | String c r => String (upper_char c) (toUpperCase r)
  end.

Fixpoint trimStart (s : string) : string :=
  match s with
  | EmptyString => EmptyString
  | String c r => if is_space c then trimStart r else s
  end.

Fixpoint trimEnd (s : string) : string :=
  match s with
  | EmptyString => EmptyString
  | String c r =>
      match trimEnd r with
      | EmptyString => if is_space c then EmptyString else String c EmptyString
      | r' => String c r'
      end
  end.

Definition trim (s : string) : string := trimEnd (trimStart s).

Fixpoint string_forallb (p : ascii → bool) (s : string) : bool :=
  match s with
  | EmptyString => true
  | String c r => p c && string_forallb p r
  end.

Fixpoint string_drop (n : nat) (s : string) : string :=
  match n, s with
  | O, _ => s
  | S n', String _ r => string_drop n' r
  | S _, EmptyString => EmptyString
  end.

Fixpoint string_take (n : nat) (s : string) : string :=
  match n, s with
  | S n', String c r => String c (string_take n' r)
  | _, _ => EmptyString
  end.

End JS.

Import JS.

(** ** The outside world: Admin SDK, Firestore, network, logger *)

Module Platform.

(** A Firestore document and a custom-claims object are dictionaries. *)
Abbreviation dict := (gmap string jsval).

(** A record of the authentication service.  Only [customClaims] is read
    or written by this code; [undefined] claims are [None]. *)
Record UserRecord : Type := mkUser {
  email : option string;
  customClaims : option dict;
}.

(** What the two HTTP clients can get back from [fetch]. *)
Record FetchResponse : Type := mkFetch {
  fstatus : Z;
  fstatusText : string;
  ftext : option string;   (* [None]: [resp.text()] rejects *)
  fjson : option jsval;    (* [None]: [resp.json()] rejects *)
}.

(** [resp.ok]. *)
Definition fok (r : FetchResponse) : bool :=
  (200 <=? fstatus r) && (fstatus r <=? 299).

Record World : Type := mkWorld {
  (** authentication service: uid to record *)
  auth_users : gmap string UserRecord;
  (** the ID tokens that verify, with the uid they decode to *)
  id_tokens : gmap string string;
  (** Firestore: document path to fields *)
  firestore : gmap string dict;
  (** [process.env] *)
  process_env : gmap string string;
  (** the remote end of [fetch]: URL and JSON body to a response, or
      [None] when the call itself rejects *)
  remote : string → jsval → option FetchResponse;
  (** the identifiers that [collection.doc()] hands out, and how many it
      has handed out so far *)
  auto_id : nat → string;
  auto_id_next : nat;
  (** [new Date().toISOString()] *)
  now_iso : string;
}.

Definition set_auth_users (f : gmap string UserRecord → gmap string UserRecord)
    (w : World) : World :=
  mkWorld (f (auth_users w)) (id_tokens w) (firestore w) (process_env w)
          (remote w) (auto_id w) (auto_id_next w) (now_iso w).

Definition set_firestore (f : gmap string dict → gmap string dict)
    (w : World) : World :=
  mkWorld (auth_users w) (id_tokens w) (f (firestore w)) (process_env w)
          (remote w) (auto_id w) (auto_id_next w) (now_iso w).

Definition bump_auto_id (w : World) : World :=
  mkWorld (auth_users w) (id_tokens w) (firestore w) (process_env w)
          (remote w) (auto_id w) (S (auto_id_next w)) (now_iso w).

(** What can be thrown. *)
Inductive exn : Type :=
| AuthUserNotFound (uid : string)
| AuthInvalidIdToken (token : string)
| FetchRejected (url : string)
| Error (message : string)
| TypeError
| SyntaxError.

Inductive level : Type := Info | Warn | Err.

(** One call to the outside, in the order the calls are made. *)
Inductive Event : Type :=
| AuthGetUser (uid : string)
| AuthSetCustomUserClaims (uid : string) (claims : dict)
| AuthVerifyIdToken (token : string)
| DocGet (path : string)
| DocSetMerge (path : string) (data : dict)
| HttpFetch (url : string) (authorization : option string) (body : jsval)
| Log (l : level) (message : string) (data : jsval) (err : option exn).

Definition is_credential_read (e : Event) : bool :=
  match e with AuthGetUser _ => true | _ => false end.
Definition is_credential_write (e : Event) : bool :=
  match e with AuthSetCustomUserClaims _ _ => true | _ => false end.
Definition is_token_verification (e : Event) : bool :=
  match e with AuthVerifyIdToken _ => true | _ => false end.
Definition is_document_read (e : Event) : bool :=
  match e with DocGet _ => true | _ => false end.
Definition is_document_write (e : Event) : bool :=
  match e with DocSetMerge _ _ => true | _ => false end.
Definition is_outbound_http (e : Event) : bool :=
  match e with HttpFetch _ _ _ => true | _ => false end.
Definition is_error_log (e : Event) : bool :=
  match e with Log Err _ _ _ => true | _ => false end.

(** How many events of a kind a trace holds. *)
Definition count (p : Event → bool) (t : list Event) : nat :=
  length (filter (λ e, p e = true) t).

(** *** The monad of handlers: state, trace and exceptions *)

Inductive outcome (A : Type) : Type :=
| Ok (a : A)
| Throw (e : exn).
Arguments Ok {A} a.
Arguments Throw {A} e.

Record run (A : Type) : Type := mkRun {
  final : World;
  trace : list Event;
  result : outcome A;
}.
Arguments mkRun {A} _ _ _.
Arguments final {A} _.
Arguments trace {A} _.
Arguments result {A} _.

Definition M (A : Type) : Type := World → run A.

Definition ret {A} (a : A) : M A := λ w, mkRun w [] (Ok a).

Definition throw {A} (e : exn) : M A := λ w, mkRun w [] (Throw e).

Definition bind {A B} (m : M A) (k : A → M B) : M B := λ w,
  match m w with
  | mkRun w1 t1 (Ok a) =>
      match k a w1 with
      | mkRun w2 t2 r => mkRun w2 (t1 ++ t2) r
      end
  | mkRun w1 t1 (Throw e) => mkRun w1 t1 (Throw e)
  end.

(** [try { m } catch (e) { h e }] *)
Definition try_catch {A} (m : M A) (h : exn → M A) : M A := λ w,
  match m w with
  | mkRun w1 t1 (Ok a) => mkRun w1 t1 (Ok a)
  | mkRun w1 t1 (Throw e) =>
      match h e w1 with
      | mkRun w2 t2 r => mkRun w2 (t1 ++ t2) r
      end
  end.

Definition emit (e : Event) : M unit := λ w, mkRun w [e] (Ok tt).

Definition world : M World := λ w, mkRun w [] (Ok w).

Definition modify (f : World → World) : M unit := λ w, mkRun (f w) [] (Ok tt).

#[export] Instance M_ret : MRet M := @ret.
#[export] Instance M_bind : MBind M := λ A B k m, bind m k.

(** *** The calls *)

(** [getAuth().getUser(uid)] *)
Definition getUser (uid : string) : M UserRecord :=
  emit (AuthGetUser uid);;
  w ← world;
  match auth_users w !! uid with
  | Some u => ret u
  | None => throw (AuthUserNotFound uid)
  end.

(** [getAuth().setCustomUserClaims(uid, claims)]: replaces the whole
    claims object of the record. *)
Definition setCustomUserClaims (uid : string) (claims : dict) : M unit :=
  emit (AuthSetCustomUserClaims uid claims);;
  w ← world;
  match auth_users w !! uid with
  | Some u =>
      modify (set_auth_users <[uid := mkUser (email u) (Some claims)]>)
  | None => throw (AuthUserNotFound uid)
  end.

(** [getAuth().verifyIdToken(idToken)], giving [decoded.uid]. *)
Definition verifyIdToken (idToken : string) : M string :=
  emit (AuthVerifyIdToken idToken);;
  w ← world;
  match id_tokens w !! idToken with
  | Some uid => ret uid
  | None => throw (AuthInvalidIdToken idToken)
  end.

(** [db.doc(path).get()]: [None] is a snapshot with [exists] false. *)
Definition docGet (path : string) : M (option dict) :=
  emit (DocGet path);;
  w ← world;
  ret (firestore w !! path).

(** [ref.set(data, { merge: true })]: the fields given replace those of
    the same name, the others stay.  The store is taken to be there and
    to accept the data. *)
Definition docSetMerge (path : string) (data : dict) : M unit :=
  emit (DocSetMerge path data);;
  modify (set_firestore (λ fs, <[path := data ∪ default ∅ (fs !! path)]> fs)).

(** [db.collection(c).doc()]: a reference with a fresh identifier. *)
Definition newDocId : M string :=
  w ← world;
  modify bump_auto_id;;
  ret (auto_id w (auto_id_next w)).

(** [fetch(url, { method: 'POST', headers, body: JSON.stringify(body) })],
    where [authorization] is the [Authorization] header, if one is set. *)
Definition fetch (url : string) (authorization : option string) (body : jsval)
    : M FetchResponse :=
  emit (HttpFetch url authorization body);;
  w ← world;
  match remote w url body with
  | Some r => ret r
  | None => throw (FetchRejected url)
  end.

Definition logger_info (message : string) (data : jsval) : M unit :=
  emit (Log Info message data None).
Definition logger_error (message : string) (data : jsval) (e : option exn)
    : M unit :=
  emit (Log Err message data e).

(** [String(v)] or [${v}] where the code has it: a [TypeError] for a
    value that does not turn into a string. *)
Definition ToString (v : jsval) : M string :=
  if stringifies v then ret (String_ v) else throw TypeError.

(** [process.env[n]]; an unset variable reads as the empty string, which
    is as falsy as [undefined]. *)
Definition getenv (n : string) : M string :=
  w ← world; ret (default EmptyString (process_env w !! n)).

End Platform.

Import Platform.

(** ** functions/src/index.ts *)

Module Functions.

Record Request : Type := mkRequest {
  method : string;
  authorization : option string;   (* [req.headers.authorization] *)
  body : jsval;                    (* [req.body], [JUndefined] if none *)
}.

Inductive Payload : Type :=
| Send (text : string)             (* [res.send(text)] *)
| Json (v : jsval)                 (* [res.json(v)] *)
| Ended.                           (* [res.end()], no body *)

Record Response : Type := mkResponse {
  status : Z;
  payload : Payload;
}.

(** [envAny(names, fallback)] over a given [process.env]. *)
Fixpoint envAny_in (env : gmap string string) (names : list string)
    (fallback : string) : string :=
  match names with
  | [] => fallback
  | n :: rest =>
      let v := default EmptyString (env !! n) in
      if negb (String.eqb v EmptyString) then v else envAny_in env rest fallback
  end.

Definition envAny (names : list string) (fallback : string) : M string :=
  w ← world; ret (envAny_in (process_env w) names fallback).

(** [v ?? {}] *)
Definition or_empty_object (v : jsval) : jsval :=
  match v with
  | JUndefined | JNull => JObj ∅
  | _ => v
  end.

(** The expression both OpenAI callers use on the parsed body:
    [data && Array.isArray(data.choices) ? data.choices[0] : undefined],
    then [firstChoice && firstChoice.message &&
    typeof firstChoice.message.content === 'string'
    ? firstChoice.message.content : '']. *)
Definition choice_content (data : jsval) : string :=
  let firstChoice :=
    if truthy data then
      match get data "choices" with
      | JArr l => default JUndefined (head l)
      | _ => JUndefined
      end
    else JUndefined in
  if truthy firstChoice && truthy (get firstChoice "message") then
    match get (get firstChoice "message") "content" with
    | JStr s => s
    | _ => EmptyString
    end
  else EmptyString.

Definition openai_url : string := "https://api.openai.com/v1/chat/completions".
Definition emailjs_url : string := "https://api.emailjs.com/api/v1.0/email/send".

(** The handler of [upsertNewsWithAiSummary]. *)
Definition upsertNewsWithAiSummary (req : Request) : M Response :=
  if negb (String.eqb (method req) "POST") then
    ret (mkResponse 405 (Send "Method Not Allowed"))
  else
    try_catch
      (let b := or_empty_object (body req) in
       let title := get b "title" in
       let url := get b "url" in
       let source := get b "source" in
       let region :=
         match get b "region" with
         | JUndefined => JStr "nacional"
         | v => v
         end in
       if negb (truthy title) || negb (truthy url) || negb (truthy source) then
         ret (mkResponse 400
                (Json (obj [("error", JStr "Missing title, url or source")])))
       else
         openaiKey ← envAny ["OPENAI_API_KEY"] EmptyString;
         openaiModel ← envAny ["OPENAI_MODEL"] "gpt-4o-mini";
         summary ←
           (if negb (String.eqb openaiKey EmptyString) then
              try_catch
                (title_text ← ToString title;
                 url_text ← ToString url;
                 let prompt :=
                   "Redige um resumo curto (2-3 frases, em português de Portugal) para esta notícia, de forma neutra e informativa, sem copiar texto literal. Título: "
                   +:+ dquote +:+ title_text +:+ dquote
                   +:+ ". URL: " +:+ url_text +:+ "." in
                 resp ← fetch openai_url (Some ("Bearer " +:+ openaiKey))
                   (obj [("model", JStr openaiModel);
                         ("messages",
                          JArr [obj [("role", JStr "system");
                                     ("content", JStr "Escreves sempre em português de Portugal.")];
                                obj [("role", JStr "user");
                                     ("content", JStr prompt)]]);
                         ("temperature", JDecimal "0.4")]);
                 if negb (fok resp) then
                   let txt := default EmptyString (ftext resp) in
                   throw (Error ("OpenAI error: " +:+ pretty (fstatus resp)
                                 +:+ " " +:+ fstatusText resp +:+ " " +:+ txt))
                 else
                   let data := default (JObj ∅) (fjson resp) in
                   ret (trim (choice_content data)))
                (λ e,
                   logger_error
                     "[upsertNewsWithAiSummary] AI call failed, falling back to empty summary"
                     JUndefined (Some e);;
                   ret EmptyString)
            else ret EmptyString);
         id ← newDocId;
         w ← world;
         let nowIso := now_iso w in
         docSetMerge ("news/" +:+ id)
           (list_to_map [("title", title); ("url", url); ("source", source);
                         ("region", region); ("summary", JStr summary);
                         ("publishedAt", JStr nowIso)]);;
         ret (mkResponse 200
                (Json (obj [("ok", JBool true); ("id", JStr id);
                            ("summary", JStr summary)]))))
      (λ e,
         logger_error "[upsertNewsWithAiSummary] Unexpected error"
           JUndefined (Some e);;
         ret (mkResponse 500 (Json (obj [("error", JStr "Internal Server Error")])))).

(** The handler of [sendContactEmail]. *)
Definition sendContactEmail (req : Request) : M Response :=
  if negb (String.eqb (method req) "POST") then
    ret (mkResponse 405 (Send "Method Not Allowed"))
  else
    try_catch
      (let b := or_empty_object (body req) in
       let service_id := get b "service_id" in
       let template_id := get b "template_id" in
       let user_id := get b "user_id" in
       let template_params := get b "template_params" in
       if negb (truthy service_id) || negb (truthy template_id)
          || negb (truthy user_id) || negb (truthy template_params)
          || negb (typeof_object template_params) then
         ret (mkResponse 400 (Json (obj [("error", JStr "Missing required fields")])))
       else
         r ← fetch emailjs_url None
           (obj [("service_id", service_id); ("template_id", template_id);
                 ("user_id", user_id); ("template_params", template_params)]);
         let txt := default EmptyString (ftext r) in
         if negb (fok r) then
           logger_error "[sendContactEmail] EmailJS error"
             (obj [("status", JNum (fstatus r));
                   ("statusText", JStr (fstatusText r));
                   ("body", JStr txt)]) None;;
           ret (mkResponse (fstatus r)
                  (Send (if negb (String.eqb txt EmptyString) then txt else fstatusText r)))
         else
           ret (mkResponse 200 (Json (obj [("ok", JBool true)]))))
      (λ e,
         logger_error "[sendContactEmail] Unexpected error" JUndefined (Some e);;
         ret (mkResponse 500 (Json (obj [("error", JStr "Internal Server Error")])))).

(** *** Admin claims management *)

(** [setAdminClaim(uid, isAdmin)] *)
Definition setAdminClaim (uid : string) (isAdmin : bool) : M unit :=
  try_catch
    (user ← getUser uid;
     let existing : dict := default ∅ (customClaims user) in
     let nextClaims : dict :=
       if isAdmin then <["admin" := JBool true]> existing
       else if truthy (prop existing "admin") then delete "admin" existing
       else existing in
     setCustomUserClaims uid nextClaims;;
     logger_info "[setAdminClaim] Updated claims"
       (obj [("uid", JStr uid); ("isAdmin", JBool isAdmin)]))
    (λ e,
       logger_error "[setAdminClaim] Failed to update claims"
         (obj [("uid", JStr uid); ("isAdmin", JBool isAdmin)]) (Some e);;
       throw e).

(** The event [onDocumentCreated('admins/{uid}')] carries. *)
Definition onAdminDocCreated (uid : string) : M unit :=
  setAdminClaim uid true.

(** The event [onDocumentDeleted('admins/{uid}')] carries. *)
Definition onAdminDocDeleted (uid : string) : M unit :=
  setAdminClaim uid false.

(** [onDocumentUpdated('users/{uid}')]: [before] and [after] are
    [event.data?.before?.data()] and [event.data?.after?.data()], [None]
    when there is none. *)
Definition onUserIsAdminUpdated (uid : string) (before after : option dict)
    : M unit :=
  let before := default ∅ before in
  let after := default ∅ after in
  let prev := truthy (prop before "isAdmin") in
  let next := truthy (prop after "isAdmin") in
  if negb (Bool.eqb prev next) then setAdminClaim uid next else ret tt.

(** [authHeader.match(re)] for the header pattern of [syncAdminClaims],
    giving the captured group [m[1]].  The pattern is anchored at both
    ends and ignores case: the word Bearer, one or more white-space
    characters, then a group of any characters but line terminators up to
    the end.  The white-space part takes the whole run of white space that
    follows the word: giving some of it back would only lengthen what the
    group has to match up to the end of the string. *)
Definition bearer_match (authHeader : string) : option string :=
  if String.eqb (toLowerCase (string_take 6 authHeader)) "bearer" then
    match string_drop 6 authHeader with
    | String c r =>
        if is_space c then
          let token := trimStart r in
          if string_forallb (λ c, negb (is_line_terminator c)) token
          then Some token else None
        else None
    | EmptyString => None
    end
  else None.

(** The handler of [syncAdminClaims].  It does not look at the method
    of the request. *)
Definition syncAdminClaims (req : Request) : M Response :=
  try_catch
    (let authHeader := default EmptyString (authorization req) in
     match bearer_match authHeader with
     | None =>
         ret (mkResponse 401
                (Json (obj [("error", JStr "Missing Authorization: Bearer <ID_TOKEN>")])))
     | Some idToken =>
         uid ← verifyIdToken idToken;
         adminDoc ← docGet ("admins/" +:+ uid);
         userDoc ← docGet ("users/" +:+ uid);
         let isAdmin :=
           bool_decide (is_Some adminDoc)
           || match userDoc with
              | Some d => is_true (prop d "isAdmin")
              | None => false
              end in
         setAdminClaim uid isAdmin;;
         ret (mkResponse 200
                (Json (obj [("ok", JBool true); ("uid", JStr uid);
                            ("isAdmin", JBool isAdmin)])))
     end)
    (λ e,
       logger_error "[syncAdminClaims] error" JUndefined (Some e);;
       ret (mkResponse 500 (Json (obj [("error", JStr "Internal Server Error")])))).

End Functions.

Import Functions.

(** ** The HTTP functions as exported *)

Module Exports.

(** The three HTTP functions are exported as [onRequest({ cors: true },
    handler)].  With that option the platform puts its CORS middleware
    before the handler.  The middleware takes a request whose method, in
    upper case, is OPTIONS for the preflight of a cross-origin call: it
    answers 204 with no body and does not call the handler.  Any other
    request goes on to the handler; the headers that the middleware adds
    to the response are not modelled. *)
Definition is_preflight (req : Request) : bool :=
  String.eqb (toUpperCase (method req)) "OPTIONS".

Definition preflight_answer : Response := mkResponse 204 Ended.

Definition onRequest_cors (handler : Request → M Response) (req : Request)
    : M Response :=
  if is_preflight req then ret preflight_answer else handler req.

(** [export const upsertNewsWithAiSummary = onRequest({ cors: true }, ...)] *)
Definition upsertNewsWithAiSummary : Request → M Response :=
  onRequest_cors Functions.upsertNewsWithAiSummary.

(** [export const sendContactEmail = onRequest({ cors: true }, ...)] *)
Definition sendContactEmail : Request → M Response :=
  onRequest_cors Functions.sendContactEmail.

(** [export const syncAdminClaims = onRequest({ cors: true }, ...)] *)
Definition syncAdminClaims : Request → M Response :=
  onRequest_cors Functions.syncAdminClaims.

End Exports.

(** ** The tag-backfill script *)

Module TagBackfill.

Definition ALLOWED_TAGS : list string :=
  [ "auto"; "vida"; "saude"; "habitacao"; "empresas"; "rc-profissional";
    "condominio"; "multirriscos-empresarial"; "frota"; "acidentes-trabalho";
    "fiscalidade"; "sinistros"; "economia"; "ambiente"; "infraestruturas";
    "local"; "nacional" ].

(** [ALLOWED_TAGS.includes(t)] *)
Definition allowed (t : string) : bool :=
  bool_decide (t ∈ ALLOWED_TAGS).

(** [env(name, fallback)]: [process.env[name] || fallback] *)
Definition env (name fallback : string) : M string :=
  v ← getenv name;
  ret (if negb (String.eqb v EmptyString) then v else fallback).

(** [v || ''] *)
Definition or_empty_string (v : jsval) : jsval :=
  if truthy v then v else JStr EmptyString.

(** [a.join(sep)] on strings. *)
Fixpoint join (sep : string) (l : list string) : string :=
  match l with
  | [] => EmptyString
  | [x] => x
  | x :: r => x +:+ sep +:+ join sep r
  end.

(** *** The regular expressions on the model's answer *)

Definition is_letter (c : ascii) : bool :=
  let n := Z.of_N (Ascii.N_of_ascii c) in
  ((65 <=? n) && (n <=? 90)) || ((97 <=? n) && (n <=? 122)).

Definition fence : string := "```".

Fixpoint starts_with (p s : string) : bool :=
  match p, s with
  | EmptyString, _ => true
  | String a p', String b s' => Ascii.eqb a b && starts_with p' s'
  | String _ _, EmptyString => false
  end.

(** Where [p] first occurs in [s]: what is before it and what is after. *)
Fixpoint split_at_first (p s : string) : option (string * string) :=
  if starts_with p s then Some (EmptyString, string_drop (String.length p) s)
  else
    match s with
    | EmptyString => None
    | String c r =>
        match split_at_first p r with
        | Some (before, after) => Some (String c before, after)
        | None => None
        end
    end.

(** [content.match(re)[0]] for the pattern of a fenced block: a fence,
    letters, then as few characters as possible up to the next fence.
    The leftmost match starts at the first fence and ends with the first
    fence that begins three or more characters later. *)
Definition fence_match (content : string) : option string :=
  match split_at_first fence content with
  | Some (_, rest) =>
      match split_at_first fence rest with
      | Some (inner, _) => Some (fence +:+ inner +:+ fence)
      | None => None
      end
  | None => None
  end.

Fixpoint drop_letters (s : string) : string :=
  match s with
  | EmptyString => EmptyString
  | String c r => if is_letter c then drop_letters r else s
  end.

(** [s.replace(re, '')] for: at the start, a fence, letters, white space. *)
Definition strip_open_fence (s : string) : string :=
  if starts_with fence s then trimStart (drop_letters (string_drop 3 s))
  else s.

(** [s.replace(re, '')] for: a fence, then white space up to the end.
    The leftmost such fence and all after it go. *)
Fixpoint strip_close_fence (s : string) : string :=
  if starts_with fence s && string_forallb is_space (string_drop 3 s)
  then EmptyString
  else
    match s with
    | EmptyString => EmptyString
    | String c r => String c (strip_close_fence r)
    end.

(** [s.replace(re, '')] with the global flag for: a fence, then as few
    letters as possible (so none); and for a fence alone. *)
Fixpoint remove_fences (s : string) : string :=
  match s with
  | String "`" (String "`" (String "`" r)) => remove_fences r
  | String c r => String c (remove_fences r)
  | EmptyString => EmptyString
  end.

(** [s.replace(re, '')] for: at the start, the word json without case,
    white space, a colon. *)
Definition strip_json_label (s : string) : string :=
  if String.eqb (toLowerCase (string_take 4 s)) "json" then
    match trimStart (string_drop 4 s) with
    | String ":" r => r
    | _ => s
    end
  else s.

(** [parsed.map((t) => String(t).toLowerCase().trim())
          .filter((t) => ALLOWED_TAGS.includes(t))], for values that all
    turn into strings; [tags_of_content] below sees to the others. *)
Definition normalize (t : jsval) : string := trim (toLowerCase (String_ t)).

Definition keep_allowed (values : list jsval) : list string :=
  List.filter allowed (List.map normalize values).

Record QueryDoc : Type := mkDoc {
  doc_id : string;
  doc_data : dict;
}.

Definition console_log (message : string) : M unit :=
  emit (Log Info message JUndefined None).
Definition console_warn (message : string) : M unit :=
  emit (Log Warn message JUndefined None).
Definition console_error (message : string) (e : exn) : M unit :=
  emit (Log Err message JUndefined (Some e)).

(** The prompt of [generateTagsForDoc], from the title, the summary and,
    when the document has one, the region, each turned into a string. *)
Definition tags_prompt (title summary : string) (region : option string)
    : string :=
  let nl := String (Ascii.ascii_of_N 10) EmptyString in
  "Tens de responder apenas em JSON." +:+ nl
  +:+ "Campos obrigatórios:" +:+ nl
  +:+ "- tags: array com 2-4 etiquetas em minúsculas, escolhidas apenas de entre esta lista: "
  +:+ join ", " ALLOWED_TAGS +:+ "." +:+ nl
  +:+ "Não inventes etiquetas fora desta lista." +:+ nl +:+ nl
  +:+ "Notícia para classificar:" +:+ nl
  +:+ "Título: " +:+ dquote +:+ title +:+ dquote +:+ nl
  +:+ "Resumo: " +:+ dquote +:+ summary +:+ dquote +:+ nl
  +:+ match region with
      | Some region => "Região: " +:+ dquote +:+ region +:+ dquote +:+ nl
      | None => EmptyString
      end.

(** The body it posts. *)
Definition tags_request (model prompt : string) : jsval :=
  obj [("model", JStr model);
       ("messages",
        JArr [obj [("role", JStr "system");
                   ("content",
                    JStr ("Escreves sempre em português de Portugal e respondes apenas com JSON válido com uma propriedade "
                          +:+ dquote +:+ "tags" +:+ dquote +:+ "."))];
              obj [("role", JStr "user"); ("content", JStr prompt)]]);
       ("temperature", JDecimal "0.2")].

Section Generator.

(** [JSON.parse], [None] when it throws. *)
Variable JSON_parse : string → option jsval.

(** The answer after the fenced block, if any, has been unwrapped. *)
Definition unfenced (content : string) : string :=
  match fence_match content with
  | Some m => trim (strip_close_fence (strip_open_fence m))
  | None => content
  end.

(** The [catch] branch: clean, parse again, take a bare array.  A value
    of the array that does not turn into a string makes [String(t)]
    throw in the [map]; the inner [catch] then leaves no tags. *)
Definition tags_fallback (content : string) : list string :=
  let cleaned :=
    trim (strip_json_label (remove_fences (remove_fences content))) in
  match JSON_parse cleaned with
  | Some (JArr values) =>
      if forallb stringifies values then keep_allowed values else []
  | _ => []
  end.

(** The [try] block on the unwrapped answer.  Reading [.tags] of [null]
    throws, and so does [String(t)] in the [map] for a value that does
    not turn into a string; the same [catch] takes both. *)
Definition tags_of_content (content : string) : list string :=
  match JSON_parse content with
  | Some JNull | Some JUndefined | None => tags_fallback content
  | Some parsed =>
      match get parsed "tags" with
      | JArr values =>
          if forallb stringifies values then keep_allowed values
          else tags_fallback content
      | _ => []
      end
  end.

(** [generateTagsForDoc(openaiKey, model, doc)]; [None] is [null]. *)
Definition generateTagsForDoc (openaiKey model : string) (doc : QueryDoc)
    : M (option (list string)) :=
  let data := doc_data doc in
  let title := or_empty_string (prop data "title") in
  let summary := or_empty_string (prop data "summary") in
  let region := or_empty_string (prop data "region") in
  if negb (truthy title) && negb (truthy summary) then
    console_warn ("Skipping doc " +:+ doc_id doc
                  +:+ " because it has no title/summary");;
    ret None
  else
    title_text ← ToString title;
    summary_text ← ToString summary;
    region_text ←
      (if truthy region then text ← ToString region; ret (Some text)
       else ret None);
    let prompt := tags_prompt title_text summary_text region_text in
    resp ← fetch openai_url (Some ("Bearer " +:+ openaiKey))
      (tags_request model prompt);
    if negb (fok resp) then
      let txt := default EmptyString (ftext resp) in
      throw (Error ("OpenAI error: " +:+ pretty (fstatus resp)
                    +:+ " " +:+ fstatusText resp +:+ " " +:+ txt))
    else
      let dataResp := default (JObj ∅) (fjson resp) in
      let content := unfenced (choice_content dataResp) in
      let tags := tags_of_content content in
      match tags with
      | [] =>
          console_warn ("No valid tags generated for doc " +:+ doc_id doc);;
          ret None
      | _ => ret (Some tags)
      end.

(** [{ tags }] *)
Definition tags_field (tags : list string) : dict :=
  {[ "tags" := JArr (JStr <$> tags) ]}.

(** The body of the [for] loop of [main] for one document: [true] when
    the document was processed rather than skipped, and [true] when it
    was updated.  The line that announces the document is printed before
    the [try]: a title that does not turn into a string makes the loop,
    and [main], throw. *)
Definition process_doc (openaiKey openaiModel : string) (doc : QueryDoc)
    : M (bool * bool) :=
  let data := doc_data doc in
  match prop data "tags" with
  | JArr (_ :: _) => ret (false, false)
  | _ =>
      shown ← ToString (if truthy (prop data "title")
                        then prop data "title"
                        else JStr "sem título");
      console_log ("Processing doc " +:+ doc_id doc +:+ " ("
                   +:+ shown +:+ ")...");;
      updated ←
        try_catch
          (tags ← generateTagsForDoc openaiKey openaiModel doc;
           match tags with
           | Some ((_ :: _) as tags) =>
               docSetMerge ("news/" +:+ doc_id doc) (tags_field tags);;
               console_log ("Updated doc " +:+ doc_id doc +:+ " with tags: "
                            +:+ join ", " tags);;
               ret true
           | _ => ret false
           end)
          (λ err,
             console_error ("Error processing doc " +:+ doc_id doc +:+ ":") err;;
             ret false);
      ret (true, updated)
  end.

Fixpoint main_loop (openaiKey openaiModel : string) (docs : list QueryDoc)
    (processed updated : Z) : M (Z * Z) :=
  match docs with
  | [] => ret (processed, updated)
  | doc :: rest =>
      '(was_processed, was_updated) ← process_doc openaiKey openaiModel doc;
      main_loop openaiKey openaiModel rest
        (if was_processed : bool then processed + 1 else processed)
        (if was_updated : bool then updated + 1 else updated)
  end.

(** [main()], from the snapshot [snap.docs] that the query on the [news]
    collection has returned. *)
Definition main (snap : list QueryDoc) : M unit :=
  openaiKey ← env "OPENAI_API_KEY" EmptyString;
  openaiModel ← env "OPENAI_MODEL" "gpt-4o-mini";
  match snap with
  | [] => console_log "No news documents found."
  | _ =>
      '(processed, updated) ← main_loop openaiKey openaiModel snap 0 0;
      emit (Log Info EmptyString
              (obj [("ok", JBool true);
                    ("checked", JNum (Z.of_nat (length snap)));
                    ("processed", JNum processed);
                    ("updated", JNum updated)]) None)
  end.

End Generator.

End TagBackfill.

Import TagBackfill.

(** ** The rest of functions/src/index.ts *)

Module Escaping.

(** [s.replaceAll(c, by)] for a pattern of one character. *)
Fixpoint replaceAll_char (c : ascii) (replacement s : string) : string :=
  match s with
  | EmptyString => EmptyString
  | String x r =>
      if Ascii.eqb x c then replacement +:+ replaceAll_char c replacement r
      else String x (replaceAll_char c replacement r)
  end.

(** [htmlEscape(s)]: three passes, the ampersand first. *)
Definition htmlEscape (s : string) : string :=
  replaceAll_char ">" "&gt;"
    (replaceAll_char "<" "&lt;"
       (replaceAll_char "&" "&amp;" s)).

End Escaping.

Import Escaping.

Module Notifier.

(** [emailjsCfg], read from the environment when the module loads. *)
Record EmailjsCfg : Type := mkCfg {
  serviceId : string;
  templateId : string;
  publicKey : string;
  adminTo : string;
  siteBase : string;
}.

Definition emailjsCfg (env : gmap string string) : EmailjsCfg :=
  mkCfg (envAny_in env ["EMAILJS_SERVICE_ID"] "service_4ltybjl")
        (envAny_in env ["EMAILJS_TEMPLATE_ID"] "template_k0tx9hp")
        (envAny_in env ["EMAILJS_PUBLIC_KEY"; "EMAILJS_USER_ID"] EmptyString)
        (envAny_in env ["ADMIN_TO"] EmptyString)
        (envAny_in env ["SITE_BASE_URL"] "https://ansiao.pt").

(** [notificationsEnabled] *)
Definition notificationsEnabled (env : gmap string string) : bool :=
  String.eqb
    (envAny_in env ["EMAIL_NOTIFICATIONS_ENABLED"; "MAIL_NOTIFICATIONS_ENABLED"]
       "false")
    "true".

(** [v || fallback] with a string to fall back on. *)
Definition or_string (v : jsval) (fallback : string) : jsval :=
  if truthy v then v else JStr fallback.

(** [v !== 'user'] *)
Definition is_not_user (v : jsval) : bool :=
  match v with
  | JStr s => negb (String.eqb s "user")
  | _ => true
  end.

(** [ref.update(data)]: the fields given are set on a document that
    exists, and the call fails on one that does not.  The trace records
    it as the merge write it amounts to. *)
Definition docUpdate (path : string) (data : dict) : M unit :=
  emit (DocSetMerge path data);;
  w ← world;
  match firestore w !! path with
  | Some old => modify (set_firestore <[path := data ∪ old]>)
  | None => throw (Error "NOT_FOUND")
  end.

(** The body that the trigger posts to the mail service. *)
Definition notification_body (cfg : EmailjsCfg) (name : jsval) (text : string)
    : jsval :=
  let nl := String (Ascii.ascii_of_N 10) EmptyString in
  let inboxUrl := siteBase cfg +:+ "/pt/admin/inbox" in
  obj [("service_id", JStr (serviceId cfg));
       ("template_id", JStr (templateId cfg));
       ("user_id", JStr (publicKey cfg));
       ("template_params",
        obj [("to_email", JStr (adminTo cfg));
             ("name", name);
             ("message",
              JStr ("Primeira mensagem: " +:+ text +:+ nl +:+ nl
                    +:+ "Abrir inbox: " +:+ inboxUrl))])].

(** [notifyOnFirstUserMessage], the trigger on
    [chats/{chatId}/messages/{messageId}] that is kept out of the exports.
    [message] is [event.data.data()], [None] when the event has no
    snapshot or the snapshot no data.  The text of the message and the
    subject line, which is built and not used, are made before anything
    is sent or written, outside any [try]: a text or a chat name that
    does not turn into a string makes the trigger throw there. *)
Definition notifyOnFirstUserMessage (message : option dict) (chatId : string)
    : M unit :=
  match message with
  | None => ret tt
  | Some data =>
      if is_not_user (prop data "authorRole") then ret tt
      else
        let chatPath := "chats/" +:+ chatId in
        chatSnap ← docGet chatPath;
        match chatSnap with
        | None => ret tt
        | Some chat =>
            if truthy (prop chat "firstNotified") then ret tt
            else
              let name := or_string (prop chat "name") "(anónimo)" in
              text ← ToString (or_string (prop data "text") EmptyString);
              name_text ← ToString name;
              let subject := "Novo chat iniciado — " +:+ name_text in
              w ← world;
              let cfg := emailjsCfg (process_env w) in
              let enabled := notificationsEnabled (process_env w) in
              (if negb enabled
                  || String.eqb (adminTo cfg) EmptyString
                  || String.eqb (serviceId cfg) EmptyString
                  || String.eqb (templateId cfg) EmptyString
                  || String.eqb (publicKey cfg) EmptyString
               then
                 logger_info
                   "[notifyOnFirstUserMessage] EmailJS disabled or missing configuration; skipping send."
                   (obj [("enabled", JBool enabled)])
               else
                 try_catch
                   (res ← fetch emailjs_url None (notification_body cfg name text);
                    if negb (fok res) then
                      let txt := default EmptyString (ftext res) in
                      throw (Error ("EmailJS send failed: " +:+ pretty (fstatus res)
                                    +:+ " " +:+ fstatusText res +:+ " " +:+ txt))
                    else
                      logger_info "[notifyOnFirstUserMessage] EmailJS send OK"
                        JUndefined)
                   (λ e,
                      logger_error "[notifyOnFirstUserMessage] EmailJS send error"
                        JUndefined (Some e)));;
              docUpdate chatPath {[ "firstNotified" := JBool true ]}
        end
  end.

End Notifier.

Import Notifier.

(** ** The script that stores one news item *)

Module NewsScript.

(** How a script ends: [process.exit(code)], or by running to its end. *)
Inductive ending : Type :=
| Exit (code : Z)
| Finished.

(** [process.argv[i]] from the third on, [undefined] past the end. *)
Definition arg (argv : list string) (i : nat) : option string := argv !! i.

(** [!a] for an argument. *)
Definition arg_missing (a : option string) : bool :=
  match a with
  | Some s => String.eqb s EmptyString
  | None => true
  end.

(** [main()] of the script, on the arguments that follow the script name:
    title, url, source and, optionally, region.  The module calls it once
    its checks at load, that the completion key and the service account
    are in the environment, have passed. *)
Definition main_body (argv : list string) : M ending :=
  let title := arg argv 0 in
  let url := arg argv 1 in
  let source := arg argv 2 in
  let regionArg := arg argv 3 in
  if arg_missing title || arg_missing url || arg_missing source then
    emit (Log Err
            ("Usage: node upsertNewsWithAi.mjs " +:+ dquote +:+ "title" +:+ dquote
             +:+ " " +:+ dquote +:+ "url" +:+ dquote +:+ " " +:+ dquote
             +:+ "source" +:+ dquote +:+ " [region]")
            JUndefined None);;
    ret (Exit 1)
  else
    let title := default EmptyString title in
    let url := default EmptyString url in
    let source := default EmptyString source in
    let region :=
      if arg_missing regionArg then "nacional"
      else default EmptyString regionArg in
    openaiKey ← TagBackfill.env "OPENAI_API_KEY" EmptyString;
    openaiModel ← TagBackfill.env "OPENAI_MODEL" "gpt-4o-mini";
    summary ←
      (if negb (String.eqb openaiKey EmptyString) then
         let prompt :=
           "Redige um resumo curto (2-3 frases, em português de Portugal) para esta notícia, de forma neutra e informativa, sem copiar texto literal. Título: "
           +:+ dquote +:+ title +:+ dquote
           +:+ ". URL: " +:+ url +:+ "." in
         resp ← fetch openai_url (Some ("Bearer " +:+ openaiKey))
           (obj [("model", JStr openaiModel);
                 ("messages",
                  JArr [obj [("role", JStr "system");
                             ("content", JStr "Escreves sempre em português de Portugal.")];
                        obj [("role", JStr "user");
                             ("content", JStr prompt)]]);
                 ("temperature", JDecimal "0.4")]);
         if negb (fok resp) then
           let txt := default EmptyString (ftext resp) in
           throw (Error ("OpenAI error: " +:+ pretty (fstatus resp)
                         +:+ " " +:+ fstatusText resp +:+ " " +:+ txt))
         else
           let data := default (JObj ∅) (fjson resp) in
           ret (trim (choice_content data))
       else ret EmptyString);
    id ← newDocId;
    w ← world;
    let nowIso := now_iso w in
    docSetMerge ("news/" +:+ id)
      (list_to_map [("title", JStr title); ("url", JStr url);
                    ("source", JStr source); ("region", JStr region);
                    ("summary", JStr summary);
                    ("publishedAt", JStr nowIso)]);;
    emit (Log Info EmptyString
            (obj [("ok", JBool true); ("id", JStr id);
                  ("summary", JStr summary)]) None);;
    ret Finished.

(** [main().catch((err) => { console.error(err); process.exit(1); })] *)
Definition main (argv : list string) : M ending :=
  try_catch (main_body argv)
    (λ err, emit (Log Err EmptyString JUndefined (Some err));; ret (Exit 1)).

End NewsScript.

(** ** Vocabulary of the specification *)

(** The four entry points of the claim synchronizer. *)
Inductive SyncOp : Type :=
| OnAuthorizationCreated (uid : string)
| OnAuthorizationDeleted (uid : string)
| OnProfileUpdated (uid : string) (before after : option dict)
| SyncNow (req : Request).

(** The custom claims of a record, absent read as empty. *)
Definition claims_of (w : World) (uid : string) : dict :=
  match auth_users w !! uid with
  | Some u => default ∅ (customClaims u)
  | None => ∅
  end.

(** The claim [admin] is present and truthy on the record of [uid]. *)
Definition admin_claim (w : World) (uid : string) : bool :=
  truthy (prop (claims_of w uid) "admin").

(** An Authorization Document exists for [uid]. *)
Definition authorization_exists (w : World) (uid : string) : bool :=
  bool_decide (is_Some (firestore w !! ("admins/" +:+ uid))).

(** The profile document of [uid] exists and its [isAdmin] is [true]. *)
Definition profile_is_admin (w : World) (uid : string) : bool :=
  match firestore w !! ("users/" +:+ uid) with
  | Some d =>
      match d !! "isAdmin" with
      | Some (JBool true) => true
      | _ => false
      end
  | None => false
  end.

(** [isAdmin] of a profile coerced to a boolean, absent read as false. *)
Definition coerced_isAdmin (profile : option dict) : bool :=
  match profile with
  | Some d => match d !! "isAdmin" with Some v => truthy v | None => false end
  | None => false
  end.

(** The operation ran to its end: a trigger returned without throwing,
    [sync-now] answered 200. *)
Definition completes (op : SyncOp) (w : World) : Prop :=
  match op with
  | OnAuthorizationCreated uid => result (onAdminDocCreated uid w) = Ok tt
  | OnAuthorizationDeleted uid => result (onAdminDocDeleted uid w) = Ok tt
  | OnProfileUpdated uid before after =>
      result (onUserIsAdminUpdated uid before after w) = Ok tt
  | SyncNow req =>
      ∃ p, result (syncAdminClaims req w) = Ok (mkResponse 200 p)
  end.

(** The world it leaves. *)
Definition world_after (op : SyncOp) (w : World) : World :=
  match op with
  | OnAuthorizationCreated uid => final (onAdminDocCreated uid w)
  | OnAuthorizationDeleted uid => final (onAdminDocDeleted uid w)
  | OnProfileUpdated uid before after =>
      final (onUserIsAdminUpdated uid before after w)
  | SyncNow req => final (syncAdminClaims req w)
  end.

(** The calls it makes. *)
Definition trace_after (op : SyncOp) (w : World) : list Event :=
  match op with
  | OnAuthorizationCreated uid => trace (onAdminDocCreated uid w)
  | OnAuthorizationDeleted uid => trace (onAdminDocDeleted uid w)
  | OnProfileUpdated uid before after =>
      trace (onUserIsAdminUpdated uid before after w)
  | SyncNow req => trace (syncAdminClaims req w)
  end.

(** The three entry points that are triggers of the document store. *)
Definition is_trigger (op : SyncOp) : bool :=
  match op with
  | SyncNow _ => false
  | _ => true
  end.

(** The user it is about: the uid of the event, or the one the bearer
    token of the request decodes to. *)
Definition subject (op : SyncOp) (w : World) : option string :=
  match op with
  | OnAuthorizationCreated uid
  | OnAuthorizationDeleted uid
  | OnProfileUpdated uid _ _ => Some uid
  | SyncNow req =>
      token ← bearer_match (default EmptyString (authorization req));
      id_tokens w !! token
  end.

(** What the code makes of the claim, entry point by entry point: the
    triggers go by their own event alone, [sync-now] by both documents. *)
Definition claim_after (op : SyncOp) (w : World) (uid : string) : bool :=
  match op with
  | OnAuthorizationCreated _ => true
  | OnAuthorizationDeleted _ => false
  | OnProfileUpdated _ before after =>
      if bool_decide (coerced_isAdmin before = coerced_isAdmin after)
      then admin_claim w uid
      else coerced_isAdmin after
  | SyncNow _ => authorization_exists w uid || profile_is_admin w uid
  end.

(** A handler answered 405 and touched nothing: no outbound call, no
    write to the document store, the world as it was. *)
Definition answers_405_untouched (r : run Response) (w : World) : Prop :=
  result r = Ok (mkResponse 405 (Send "Method Not Allowed"))
  ∧ count is_outbound_http (trace r) = 0%nat
  ∧ count is_document_write (trace r) = 0%nat
  ∧ trace r = []
  ∧ final r = w.

(** The CORS layer answered a preflight request and touched nothing:
    204 with no body, no call at all, the world as it was. *)
Definition answers_preflight_untouched (r : run Response) (w : World) : Prop :=
  result r = Ok (mkResponse 204 Ended)
  ∧ count is_outbound_http (trace r) = 0%nat
  ∧ count is_document_write (trace r) = 0%nat
  ∧ trace r = []
  ∧ final r = w.

(** The header pattern in words: the word Bearer in any case, white
    space, and a token free of line terminators, that is all of the
    header.  The token can be empty. *)
Definition bearer_pattern (header token : string) : Prop :=
  ∃ word spaces : string,
    header = word +:+ spaces +:+ token
    ∧ toLowerCase word = "bearer"
    ∧ spaces ≠ EmptyString
    ∧ string_forallb is_space spaces = true
    ∧ string_forallb (λ c, negb (is_line_terminator c)) token = true.

(** The header of a request is of the shape of the pattern, with a
    token that can be empty. *)
Definition has_bearer (req : Request) : Prop :=
  ∃ header token,
    authorization req = Some header ∧ bearer_pattern header token.

(** The header of a request is of the shape of the pattern and does
    carry a token: what is left of it once the white space is passed is
    not empty. *)
Definition has_bearer_token (req : Request) : Prop :=
  ∃ header token,
    authorization req = Some header ∧ bearer_pattern header token
    ∧ trimStart token ≠ EmptyString.

(** [sync-now] answered 401 after no call at all. *)
Definition answers_401_untouched (r : run Response) (w : World) : Prop :=
  result r = Ok (mkResponse 401
                   (Json (obj [("error", JStr "Missing Authorization: Bearer <ID_TOKEN>")])))
  ∧ trace r = []
  ∧ count is_credential_write (trace r) = 0%nat
  ∧ count is_token_verification (trace r) = 0%nat
  ∧ count is_document_read (trace r) = 0%nat
  ∧ final r = w.

(** The request of [generateTagsForDoc] for a document. *)
Definition tags_request_of (model : string) (doc : QueryDoc) : jsval :=
  tags_request model
    (tags_prompt
       (String_ (or_empty_string (prop (doc_data doc) "title")))
       (String_ (or_empty_string (prop (doc_data doc) "summary")))
       (if truthy (or_empty_string (prop (doc_data doc) "region"))
        then Some (String_ (or_empty_string (prop (doc_data doc) "region")))
        else None)).

(** The unwrapped text of the model's answer. *)
Definition answer_text (resp : FetchResponse) : string :=
  unfenced (choice_content (default (JObj ∅) (fjson resp))).

Section ResponseValues.

Variable JSON_parse : string → option jsval.

(** The bare array that the cleaned answer parses to, when each of its
    values turns into a string. *)
Definition cleaned_values (content : string) : option (list jsval) :=
  match JSON_parse
          (trim (strip_json_label (remove_fences (remove_fences content))))
  with
  | Some (JArr values) =>
      if forallb stringifies values then Some values else None
  | _ => None
  end.

(** The values of the model's answer: the array under [tags] when the
    unwrapped answer parses to an object and each value of the array
    turns into a string, or the bare array that the cleaned answer parses
    to when the first attempt fails (the parse fails or gives [null], or
    a value under [tags] does not turn into a string).  An answer that
    parses at once to anything else has none. *)
Definition response_values (content : string) : option (list jsval) :=
  match JSON_parse content with
  | Some (JObj o) =>
      match o !! "tags" with
      | Some (JArr values) =>
          if forallb stringifies values then Some values
          else cleaned_values content
      | _ => None
      end
  | Some JNull | Some JUndefined | None => cleaned_values content
  | Some _ => None
  end.

End ResponseValues.

(** What [setAdminClaim] writes over the claims it has read. *)
Definition next_claims (isAdmin : bool) (existing : dict) : dict :=
  if isAdmin then <["admin" := JBool true]> existing
  else if truthy (prop existing "admin") then delete "admin" existing
  else existing.

(** ** Sample worlds *)

(** No response from the network, identifiers [doc-n]. *)
Definition quiet_world (users : gmap string UserRecord)
    (tokens : gmap string string) (docs : gmap string dict) : World :=
  mkWorld users tokens docs ∅ (λ _ _, None) (λ n, "doc-" +:+ pretty n) 0
          "2024-01-01T00:00:00.000Z".

(** One user, [ana], whose claims are [{ admin: false, plan: "pro" }]. *)
Definition ana_false_admin : World :=
  quiet_world
    {[ "ana" := mkUser (Some "ana@example.org")
                  (Some {[ "admin" := JBool false; "plan" := JStr "pro" ]}) ]}
    {[ "ana-token" := "ana" ]} ∅.

(** [ana] holds the claim, her profile says [isAdmin: true], and there is
    no Authorization Document for her. *)
Definition ana_profile_admin : World :=
  quiet_world
    {[ "ana" := mkUser (Some "ana@example.org")
                  (Some {[ "admin" := JBool true ]}) ]}
    {[ "ana-token" := "ana" ]}
    {[ "users/ana" := {[ "isAdmin" := JBool true ]} ]}.

(** [ana] has no claims yet; there is an Authorization Document for her
    and her profile says [isAdmin: false]. *)
Definition ana_authorized : World :=
  quiet_world
    {[ "ana" := mkUser (Some "ana@example.org") None ]}
    {[ "ana-token" := "ana" ]}
    {[ "admins/ana" := ∅; "users/ana" := {[ "isAdmin" := JBool false ]} ]}.


(** The preflight request that a browser sends before a cross-origin
    call: its method is OPTIONS and it carries no Authorization header. *)
Definition preflight_request : Request := mkRequest "OPTIONS" None JUndefined.

(** A header with the word Bearer, white space and no token.  The white
    space is a no-break space, code unit 160: a space or a tab at the end
    of the value of a header does not reach a handler, since the HTTP
    parser of the platform trims them; a no-break space does reach it. *)
Definition empty_bearer_header : string :=
  "Bearer" +:+ String (Ascii.ascii_of_N 160) EmptyString.

Definition empty_bearer_request : Request :=
  mkRequest "POST" (Some empty_bearer_header) JUndefined.

(** The answer [{"tags":["auto"]}] of a model that returns one tag. *)
Definition one_tag_answer : string :=
  "{" +:+ dquote +:+ "tags" +:+ dquote +:+ ":[" +:+ dquote +:+ "auto"
  +:+ dquote +:+ "]}".

(** [JSON.parse] where it matters for that answer. *)
Definition parse_one_tag (text : string) : option jsval :=
  if String.eqb text one_tag_answer
  then Some (obj [("tags", JArr [JStr "auto"])])
  else None.

(** A world whose completion endpoint gives that answer. *)
Definition one_tag_world : World :=
  mkWorld ∅ ∅ {[ "news/n1" := {[ "title" := JStr "Seguro auto mais caro em 2025" ]} ]}
    {[ "OPENAI_API_KEY" := "sk-test" ]}
    (λ _ _,
       Some (mkFetch 200 "OK" None
               (Some (obj [("choices",
                            JArr [obj [("message",
                                        obj [("role", JStr "assistant");
                                             ("content", JStr one_tag_answer)])]])]))))
    (λ n, "doc-" +:+ pretty n) 0 "2024-01-01T00:00:00.000Z".

Definition news_n1 : QueryDoc :=
  mkDoc "n1" {[ "title" := JStr "Seguro auto mais caro em 2025" ]}.

(** ** Vocabulary of the further properties *)

(** A variable that [envAny] passes over: unset, or set to the empty
    string. *)
Definition env_unset (env : gmap string string) (n : string) : Prop :=
  default EmptyString (env !! n) = EmptyString.

(** Escaping one character at a time. *)
Definition escape_char (c : ascii) : string :=
  if Ascii.eqb c "&" then "&amp;"
  else if Ascii.eqb c "<" then "&lt;"
  else if Ascii.eqb c ">" then "&gt;"
  else String c EmptyString.

Fixpoint escape_each (s : string) : string :=
  match s with
  | EmptyString => EmptyString
  | String c r => escape_char c +:+ escape_each r
  end.

(** The calls to the credential store in a trace. *)
Definition credential_calls (t : list Event) : list Event :=
  filter (λ e, is_credential_read e || is_credential_write e = true) t.

(** What [upsertNewsWithAiSummary] reads from the body of a request. *)
Definition news_field (req : Request) (k : string) : jsval :=
  get (or_empty_object (body req)) k.

Definition news_region (req : Request) : jsval :=
  match news_field req "region" with
  | JUndefined => JStr "nacional"
  | v => v
  end.

(** The request has the three fields that are required. *)
Definition news_fields_given (req : Request) : bool :=
  truthy (news_field req "title") && truthy (news_field req "url")
  && truthy (news_field req "source").

(** The completion key and model of a world. *)
Definition openai_key (w : World) : string :=
  envAny_in (process_env w) ["OPENAI_API_KEY"] EmptyString.

Definition openai_model (w : World) : string :=
  envAny_in (process_env w) ["OPENAI_MODEL"] "gpt-4o-mini".

(** The body that the endpoint posts for a summary, once the title and
    the url have been turned into strings. *)
Definition summary_request (model : string) (title url : jsval) : jsval :=
  obj [("model", JStr model);
       ("messages",
        JArr [obj [("role", JStr "system");
                   ("content", JStr "Escreves sempre em português de Portugal.")];
              obj [("role", JStr "user");
                   ("content",
                    JStr ("Redige um resumo curto (2-3 frases, em português de Portugal) para esta notícia, de forma neutra e informativa, sem copiar texto literal. Título: "
                          +:+ dquote +:+ String_ title +:+ dquote
                          +:+ ". URL: " +:+ String_ url +:+ "."))]]);
       ("temperature", JDecimal "0.4")].

(** The document stored for a news item. *)
Definition news_document (title url source region : jsval)
    (summary nowIso : string) : dict :=
  list_to_map [("title", title); ("url", url); ("source", source);
               ("region", region); ("summary", JStr summary);
               ("publishedAt", JStr nowIso)].

(** The next identifier of the store, and the path of a news item. *)
Definition next_id (w : World) : string := auto_id w (auto_id_next w).

Definition news_path (id : string) : string := "news/" +:+ id.

(** The world after a news document has been stored under a fresh
    identifier. *)
Definition with_news (w : World) (d : dict) : World :=
  set_firestore
    (λ fs, <[news_path (next_id w) := d ∪ default ∅ (fs !! news_path (next_id w))]> fs)
    (bump_auto_id w).

(** The prompt for a summary can be built: the title and the url of the
    request turn into strings. *)
Definition summary_prompt_builds (req : Request) : bool :=
  stringifies (news_field req "title") && stringifies (news_field req "url").

(** The call for a summary, and the log of its failure. *)
Definition summary_call (req : Request) (w : World) : Event :=
  HttpFetch openai_url (Some ("Bearer " +:+ openai_key w))
    (summary_request (openai_model w) (news_field req "title")
       (news_field req "url")).

Definition summary_failed (e : exn) : Event :=
  Log Err "[upsertNewsWithAiSummary] AI call failed, falling back to empty summary"
    JUndefined (Some e).

(** The document that a request is stored as, with a given summary. *)
Definition news_document_of (req : Request) (w : World) (summary : string) : dict :=
  news_document (news_field req "title") (news_field req "url")
    (news_field req "source") (news_region req) summary (now_iso w).

(** The answer to a news item stored. *)
Definition news_stored (id summary : string) : Response :=
  mkResponse 200
    (Json (obj [("ok", JBool true); ("id", JStr id); ("summary", JStr summary)])).

(** The run that stores a request with a summary, after the events
    [pre]. *)
Definition stored_run (req : Request) (w : World) (summary : string)
    (pre : list Event) : run Response :=
  mkRun (with_news w (news_document_of req w summary))
    (pre ++ [DocSetMerge (news_path (next_id w)) (news_document_of req w summary)])
    (Ok (news_stored (next_id w) summary)).

(** A world with a completion key whose endpoint answers 503. *)
Definition failing_ai_world : World :=
  mkWorld ∅ ∅ ∅ {[ "OPENAI_API_KEY" := "sk-test" ]}
    (λ _ _, Some (mkFetch 503 "Service Unavailable" (Some "busy") None))
    (λ n, "doc-" +:+ pretty n) 0 "2024-01-01T00:00:00.000Z".

(** A news item with its three fields. *)
Definition news_request : Request :=
  mkRequest "POST" None
    (obj [("title", JStr "X"); ("url", JStr "http://y"); ("source", JStr "Z")]).

(** A news item whose title is the object [{ toString: 1 }], which does
    not turn into a string. *)
Definition odd_title_request : Request :=
  mkRequest "POST" None
    (obj [("title", obj [("toString", JNum 1)]); ("url", JStr "http://y");
          ("source", JStr "Z")]).

(** What [sendContactEmail] reads from the body of a request. *)
Definition contact_field (req : Request) (k : string) : jsval :=
  get (or_empty_object (body req)) k.

(** The request has the four fields, and [template_params] is an object
    or an array. *)
Definition contact_fields_given (req : Request) : bool :=
  truthy (contact_field req "service_id")
  && truthy (contact_field req "template_id")
  && truthy (contact_field req "user_id")
  && truthy (contact_field req "template_params")
  && typeof_object (contact_field req "template_params").

(** The body that the proxy forwards: the four fields and no other. *)
Definition contact_body (req : Request) : jsval :=
  obj [("service_id", contact_field req "service_id");
       ("template_id", contact_field req "template_id");
       ("user_id", contact_field req "user_id");
       ("template_params", contact_field req "template_params")].

(** A world whose mail service answers 412 with a text. *)
Definition refusing_mail_world : World :=
  mkWorld ∅ ∅ ∅ ∅
    (λ _ _, Some (mkFetch 412 "Precondition Failed" (Some "domain not allowed") None))
    (λ n, "doc-" +:+ pretty n) 0 "2024-01-01T00:00:00.000Z".

(** A contact form with its four fields, and one more. *)
Definition contact_request : Request :=
  mkRequest "POST" None
    (obj [("service_id", JStr "s"); ("template_id", JStr "t");
          ("user_id", JStr "u");
          ("template_params", obj [("message", JStr "hello")]);
          ("extra", JStr "dropped")]).

(** A string without a backtick. *)
Definition no_backtick (s : string) : bool :=
  string_forallb (λ c, negb (Ascii.eqb c "`")) s.

(** A string that does not begin with a letter. *)
Definition no_leading_letter (s : string) : bool :=
  match s with
  | String c _ => negb (is_letter c)
  | EmptyString => true
  end.

(** The title of a snapshot document turns into a string, so that the
    line that announces the document can be printed. *)
Definition title_prints (doc : QueryDoc) : bool :=
  stringifies (prop (doc_data doc) "title").

(** What that line shows for the title. *)
Definition shown_title (doc : QueryDoc) : jsval :=
  if truthy (prop (doc_data doc) "title") then prop (doc_data doc) "title"
  else JStr "sem título".

(** The line that announces a document. *)
Definition started (doc : QueryDoc) : Event :=
  Log Info ("Processing doc " +:+ doc_id doc +:+ " ("
            +:+ String_ (shown_title doc) +:+ ")...") JUndefined None.

(** The three conversions of the prompt: they go through when the title,
    the summary and, if there is one, the region turn into strings. *)
Definition prompt_builds (doc : QueryDoc) : bool :=
  stringifies (or_empty_string (prop (doc_data doc) "title"))
  && stringifies (or_empty_string (prop (doc_data doc) "summary"))
  && (negb (truthy (or_empty_string (prop (doc_data doc) "region")))
      || stringifies (or_empty_string (prop (doc_data doc) "region"))).

(** A snapshot document that the backfill takes up: its [tags] is not a
    non-empty array. *)
Definition lacks_tags (doc : QueryDoc) : bool :=
  match prop (doc_data doc) "tags" with
  | JArr (_ :: _) => false
  | _ => true
  end.

(** A contact form whose [template_params] is a text, not an object. *)
Definition contact_text_params : Request :=
  mkRequest "POST" None
    (obj [("service_id", JStr "s"); ("template_id", JStr "t");
          ("user_id", JStr "u"); ("template_params", JStr "text")]).

(** A fenced answer, as a model gives it. *)
Definition fenced_sample : string :=
  let nl := String (Ascii.ascii_of_N 10) EmptyString in
  "Aqui tens: " +:+ fence +:+ "json" +:+ (nl +:+ "{x}" +:+ nl) +:+ fence
  +:+ " e mais nada.".

(** A world whose completion endpoint answers 500, and one where the call
    is rejected. *)
Definition broken_ai_world : World :=
  mkWorld ∅ ∅ {[ "news/n1" := {[ "title" := JStr "Seguro auto mais caro em 2025" ]} ]}
    {[ "OPENAI_API_KEY" := "sk-test" ]}
    (λ _ _, Some (mkFetch 500 "Internal Server Error" None None))
    (λ n, "doc-" +:+ pretty n) 0 "2024-01-01T00:00:00.000Z".

(** A document of the snapshot that has tags already, and one that has
    neither title nor summary. *)
Definition news_tagged : QueryDoc :=
  mkDoc "n2" {[ "title" := JStr "Frota"; "tags" := JArr [JStr "frota"] ]}.

Definition news_blank : QueryDoc :=
  mkDoc "n3" {[ "region" := JStr "local" ]}.

(** A document whose title is the object [{ toString: 1 }], as the
    endpoint stores it when it is sent one. *)
Definition news_odd_title : QueryDoc :=
  mkDoc "n4" {[ "title" := obj [("toString", JNum 1)]; "url" := JStr "http://y" ]}.

(** [JSON.parse] that takes every text for a bare array of two tags. *)
Definition parse_bare_array (text : string) : option jsval :=
  Some (JArr [JStr "auto"; JStr "vida"]).

(** The trigger would send: notifications are enabled and the four
    settings of the mail service are there. *)
Definition notifier_sends (env : gmap string string) : bool :=
  negb (negb (notificationsEnabled env)
        || String.eqb (adminTo (emailjsCfg env)) EmptyString
        || String.eqb (serviceId (emailjsCfg env)) EmptyString
        || String.eqb (templateId (emailjsCfg env)) EmptyString
        || String.eqb (publicKey (emailjsCfg env)) EmptyString).

(** The document of a chat. *)
Definition chat_path (chatId : string) : string := "chats/" +:+ chatId.

(** The message of an event is one that the trigger takes up on a chat
    that is there and not yet notified. *)
Definition first_user_message (message : option dict) (chatId : string)
    (w : World) : bool :=
  match message with
  | Some data =>
      negb (is_not_user (prop data "authorRole"))
      && match firestore w !! chat_path chatId with
         | Some chat => negb (truthy (prop chat "firstNotified"))
         | None => false
         end
  | None => false
  end.

(** The text of a message and the name of a chat, as the trigger takes
    them. *)
Definition message_text (data : dict) : jsval :=
  or_string (prop data "text") EmptyString.

Definition chat_name (chat : dict) : jsval :=
  or_string (prop chat "name") "(anónimo)".

(** The mark that the trigger leaves. *)
Definition notified_mark : dict := {[ "firstNotified" := JBool true ]}.

(** A world with a chat and a mail service that is configured and
    refuses. *)
Definition chat_world : World :=
  mkWorld ∅ ∅
    {[ "chats/c1" := {[ "name" := JStr "Rui"; "email" := JStr "rui@example.org" ]} ]}
    {[ "EMAIL_NOTIFICATIONS_ENABLED" := "true"; "ADMIN_TO" := "admin@example.org";
       "EMAILJS_PUBLIC_KEY" := "pk" ]}
    (λ _ _, Some (mkFetch 412 "Precondition Failed" (Some "domain not allowed") None))
    (λ n, "doc-" +:+ pretty n) 0 "2024-01-01T00:00:00.000Z".

Definition user_message : option dict :=
  Some {[ "authorRole" := JStr "user"; "text" := JStr "Bom dia" ]}.

(** A message whose text is the object [{ toString: 1 }]. *)
Definition odd_text_message : option dict :=
  Some {[ "authorRole" := JStr "user"; "text" := obj [("toString", JNum 1)] ]}.

(** The request that carries the arguments of the script to the
    endpoint. *)
Definition cli_request (title url source : string) (region : option string)
    : Request :=
  mkRequest "POST" None
    (JObj (match region with
           | Some r => <["region" := JStr r]>
           | None => λ m, m
           end
             (<["title" := JStr title]>
                (<["url" := JStr url]> (<["source" := JStr source]> ∅))))).

(** The arguments of the script. *)
Definition cli_args (title url source : string) (region : option string)
    : list string :=
  [title; url; source] ++ match region with Some r => [r] | None => [] end.

(** A world with a completion key whose endpoint answers with a summary. *)
Definition summary_world : World :=
  mkWorld ∅ ∅ ∅ {[ "OPENAI_API_KEY" := "sk-test" ]}
    (λ _ _,
       Some (mkFetch 200 "OK" None
               (Some (obj [("choices",
                            JArr [obj [("message",
                                        obj [("role", JStr "assistant");
                                             ("content", JStr " Um resumo. ")])]])]))))
    (λ n, "doc-" +:+ pretty n) 0 "2024-01-01T00:00:00.000Z".

(** The document that the script stores. *)
Definition cli_document (title url source : string) (region : option string)
    (w : World) (summary : string) : dict :=
  news_document (JStr title) (JStr url) (JStr source)
    (JStr (default "nacional" region)) summary (now_iso w).

(** The call of the script for a summary. *)
Definition cli_call (title url : string) (w : World) : Event :=
  HttpFetch openai_url (Some ("Bearer " +:+ openai_key w))
    (summary_request (openai_model w) (JStr title) (JStr url)).

(** The run of the script that stores the item, and the one that gives
    up after the call. *)
Definition script_stored (title url source : string) (region : option string)
    (w : World) (summary : string) (pre : list Event) : run NewsScript.ending :=
  mkRun (with_news w (cli_document title url source region w summary))
    (pre ++ [DocSetMerge (news_path (next_id w))
               (cli_document title url source region w summary);
             Log Info EmptyString
               (obj [("ok", JBool true); ("id", JStr (next_id w));
                     ("summary", JStr summary)]) None])
    (Ok NewsScript.Finished).

Definition script_gave_up (title url : string) (w : World) (e : exn)
    : run NewsScript.ending :=
  mkRun w [cli_call title url w; Log Err EmptyString JUndefined (Some e)]
    (Ok (NewsScript.Exit 1)).

(** The arguments are all there: title, url and source are not empty,
    and neither is the region if one is given. *)
Definition cli_args_given (title url source : string) (region : option string)
    : bool :=
  negb (String.eqb title EmptyString) && negb (String.eqb url EmptyString)
  && negb (String.eqb source EmptyString)
  && match region with
     | Some r => negb (String.eqb r EmptyString)
     | None => true
     end.

(** ** Running the handlers *)

Ltac run_unfold :=
  unfold logger_info, logger_error in *;
  unfold mbind, M_bind, bind, try_catch, emit, world, modify, ret, throw in *;
  cbn.

Lemma bind_run {A B} (m : M A) (k : A → M B) (w : World) :
  (m ≫= k) w =
    match result (m w) with
    | Ok a =>
        mkRun (final (k a (final (m w))))
              (trace (m w) ++ trace (k a (final (m w))))
              (result (k a (final (m w))))
    | Throw e => mkRun (final (m w)) (trace (m w)) (Throw e)
    end.
Proof.
  unfold mbind, M_bind, bind. destruct (m w) as [w1 t1 [a|e]]; cbn; [|done].
  by destruct (k a w1).
Qed.

Lemma set_auth_users_id (w : World) (f : gmap string UserRecord → gmap string UserRecord) :
  f (auth_users w) = auth_users w → set_auth_users f w = w.
Proof. destruct w; unfold set_auth_users; simpl. by intros ->. Qed.

Lemma setAdminClaim_found uid isAdmin w u :
  auth_users w !! uid = Some u →
  setAdminClaim uid isAdmin w =
    let next := next_claims isAdmin (default ∅ (customClaims u)) in
    mkRun (set_auth_users <[uid := mkUser (email u) (Some next)]> w)
          [AuthGetUser uid; AuthSetCustomUserClaims uid next;
           Log Info "[setAdminClaim] Updated claims"
             (obj [("uid", JStr uid); ("isAdmin", JBool isAdmin)]) None]
          (Ok tt).
Proof.
  intros Hu. unfold setAdminClaim, getUser, setCustomUserClaims.
  run_unfold. rewrite Hu; cbn. rewrite Hu; cbn. reflexivity.
Qed.

Lemma setAdminClaim_missing uid isAdmin w :
  auth_users w !! uid = None →
  setAdminClaim uid isAdmin w =
    mkRun w
          [AuthGetUser uid;
           Log Err "[setAdminClaim] Failed to update claims"
             (obj [("uid", JStr uid); ("isAdmin", JBool isAdmin)])
             (Some (AuthUserNotFound uid))]
          (Throw (AuthUserNotFound uid)).
Proof.
  intros Hu. unfold setAdminClaim, getUser. run_unfold. rewrite Hu; cbn.
  reflexivity.
Qed.

Lemma setAdminClaim_ok uid isAdmin w :
  result (setAdminClaim uid isAdmin w) = Ok tt →
  ∃ u, auth_users w !! uid = Some u.
Proof.
  destruct (auth_users w !! uid) as [u|] eqn:Hu; [eauto|].
  rewrite (setAdminClaim_missing _ _ _ Hu). discriminate.
Qed.

Lemma next_claims_idempotent (isAdmin : bool) (existing : dict) :
  next_claims isAdmin (next_claims isAdmin existing) = next_claims isAdmin existing.
Proof.
  unfold next_claims. destruct isAdmin.
  - apply insert_insert_eq.
  - destruct (truthy (prop existing "admin")) eqn:Hadmin.
    + unfold prop. rewrite lookup_delete_eq. reflexivity.
    + rewrite Hadmin. reflexivity.
Qed.

Lemma next_claims_other (isAdmin : bool) (existing : dict) (k : string) :
  k ≠ "admin" → next_claims isAdmin existing !! k = existing !! k.
Proof.
  intros Hk. unfold next_claims. destruct isAdmin.
  - by rewrite lookup_insert_ne.
  - destruct (truthy (prop existing "admin")); [|done].
    by rewrite lookup_delete_ne.
Qed.

(** After a write the claim is truthy exactly when it was granted. *)
Lemma next_claims_truthy (isAdmin : bool) (existing : dict) :
  truthy (prop (next_claims isAdmin existing) "admin") = isAdmin.
Proof.
  unfold next_claims, prop. destruct isAdmin.
  - by rewrite lookup_insert_eq.
  - destruct (truthy (default JUndefined (existing !! "admin"))) eqn:Hadmin.
    + by rewrite lookup_delete_eq.
    + exact Hadmin.
Qed.

Lemma claims_of_written (w : World) (uid : string) (e : option string) (c : dict) :
  claims_of (set_auth_users <[uid := mkUser e (Some c)]> w) uid = c.
Proof.
  unfold claims_of. destruct w; cbn. by rewrite lookup_insert_eq.
Qed.

Lemma claims_of_found (w : World) (uid : string) (u : UserRecord) :
  auth_users w !! uid = Some u → claims_of w uid = default ∅ (customClaims u).
Proof. unfold claims_of. by intros ->. Qed.

Lemma coerced_isAdmin_code (profile : option dict) :
  truthy (prop (default ∅ profile) "isAdmin") = coerced_isAdmin profile.
Proof.
  unfold coerced_isAdmin, prop. destruct profile as [d|]; cbn.
  - by destruct (d !! "isAdmin").
  - by rewrite lookup_empty.
Qed.

(** ** The claim synchronizer *)

(** C3: when [setAdminClaim(uid, true)] returns, the claims it has written
    to the record are the prior ones (none read as empty) with [admin]
    bound to [true] and every other key as it was; the record then has
    [admin = true].  [onAdminDocCreated] is this call. *)
Theorem grant_binds_admin_true (uid : string) (w : World) :
  result (setAdminClaim uid true w) = Ok tt →
  let prior := claims_of w uid in
  let written := <["admin" := JBool true]> prior in
  filter (λ e, is_credential_write e = true) (trace (setAdminClaim uid true w))
    = [AuthSetCustomUserClaims uid written]
  ∧ claims_of (final (setAdminClaim uid true w)) uid = written
  ∧ written !! "admin" = Some (JBool true)
  ∧ (∀ k : string, k ≠ "admin" → written !! k = prior !! k)
  ∧ onAdminDocCreated uid w = setAdminClaim uid true w.
Proof.
  intros Hok. destruct (setAdminClaim_ok _ _ _ Hok) as [u Hu].
  rewrite (setAdminClaim_found _ _ _ _ Hu), (claims_of_found _ _ _ Hu).
  cbn -[insert]. rewrite claims_of_written.
  split; [reflexivity|]. split; [reflexivity|]. split; [|split].
  - apply lookup_insert_eq.
  - intros k Hk. by rewrite lookup_insert_ne.
  - unfold onAdminDocCreated. by rewrite (setAdminClaim_found _ _ _ _ Hu).
Qed.

Lemma grant_binds_admin_true_witness :
  result (setAdminClaim "ana" true ana_false_admin) = Ok tt
  ∧ claims_of (final (setAdminClaim "ana" true ana_false_admin)) "ana"
    = <["admin" := JBool true]> (claims_of ana_false_admin "ana").
Proof.
  assert (H : result (setAdminClaim "ana" true ana_false_admin) = Ok tt)
    by reflexivity.
  split; [exact H|].
  exact (proj1 (proj2 (grant_binds_admin_true "ana" ana_false_admin H))).
Defined.

(** C2, at the input that breaks it: the record of [ana] holds
    [{ admin: false, plan: "pro" }]; [setAdminClaim("ana", false)]
    returns, and the claims it has written still have the key [admin],
    bound to [false]. *)
Theorem revoke_keeps_falsy_admin_key :
  let r := setAdminClaim "ana" false ana_false_admin in
  result r = Ok tt
  ∧ filter (λ e, is_credential_write e = true) (trace r)
    = [AuthSetCustomUserClaims "ana"
         {[ "admin" := JBool false; "plan" := JStr "pro" ]}]
  ∧ claims_of (final r) "ana" !! "admin" = Some (JBool false).
Proof. vm_compute. repeat split. Qed.

(** What [setAdminClaim(uid, false)] does to the key in general: a
    truthy [admin] goes, a falsy one stays as it is. *)
Lemma revoke_admin_key (uid : string) (w : World) :
  result (setAdminClaim uid false w) = Ok tt →
  claims_of (final (setAdminClaim uid false w)) uid !! "admin"
  = match claims_of w uid !! "admin" with
    | Some v => if truthy v then None else Some v
    | None => None
    end.
Proof.
  intros Hok. destruct (setAdminClaim_ok _ _ _ Hok) as [u Hu].
  rewrite (setAdminClaim_found _ _ _ _ Hu), (claims_of_found _ _ _ Hu).
  cbn -[next_claims]. rewrite claims_of_written. unfold next_claims, prop.
  destruct (default ∅ (customClaims u) !! "admin") as [v|] eqn:Hv; cbn.
  - destruct (truthy v); [apply lookup_delete_eq | exact Hv].
  - exact Hv.
Qed.

(** C4: a second [setAdminClaim(uid, isAdmin)] right after a first that
    returned also returns, and leaves the claims, and all of the world,
    as the first left them; for [isAdmin] true and for false. *)
Theorem setAdminClaim_idempotent (uid : string) (isAdmin : bool) (w : World) :
  result (setAdminClaim uid isAdmin w) = Ok tt →
  let once := setAdminClaim uid isAdmin w in
  let twice := setAdminClaim uid isAdmin (final once) in
  result twice = Ok tt
  ∧ claims_of (final twice) uid = claims_of (final once) uid
  ∧ final twice = final once.
Proof.
  intros Hok. destruct (setAdminClaim_ok _ _ _ Hok) as [u Hu].
  rewrite (setAdminClaim_found _ _ _ _ Hu). cbn zeta. cbn [final].
  set (next := next_claims isAdmin (default ∅ (customClaims u))).
  set (w1 := set_auth_users <[uid := mkUser (email u) (Some next)]> w).
  assert (Hu1 : auth_users w1 !! uid = Some (mkUser (email u) (Some next))).
  { subst w1. destruct w; cbn. apply lookup_insert_eq. }
  rewrite (setAdminClaim_found _ _ _ _ Hu1). cbn.
  assert (Hsame : set_auth_users
            <[uid := mkUser (email u) (Some (next_claims isAdmin next))]> w1 = w1).
  { apply set_auth_users_id. subst next. rewrite next_claims_idempotent.
    by apply insert_id. }
  rewrite Hsame. auto.
Qed.

Lemma setAdminClaim_idempotent_witness :
  result (setAdminClaim "ana" false ana_profile_admin) = Ok tt
  ∧ final (setAdminClaim "ana" false
             (final (setAdminClaim "ana" false ana_profile_admin)))
    = final (setAdminClaim "ana" false ana_profile_admin).
Proof.
  assert (H : result (setAdminClaim "ana" false ana_profile_admin) = Ok tt)
    by reflexivity.
  split; [exact H|].
  exact (proj2 (proj2 (setAdminClaim_idempotent "ana" false ana_profile_admin H))).
Defined.

(** C8: when the [isAdmin] fields of the profile before and after the
    update coerce to the same boolean, [onUserIsAdminUpdated] returns
    with no call at all to the outside, so with no read and no write of
    the credential store, and leaves the world as it was. *)
Theorem profile_update_same_flag_is_noop
    (uid : string) (before after : option dict) (w : World) :
  coerced_isAdmin before = coerced_isAdmin after →
  let r := onUserIsAdminUpdated uid before after w in
  result r = Ok tt
  ∧ trace r = []
  ∧ count is_credential_read (trace r) = 0%nat
  ∧ count is_credential_write (trace r) = 0%nat
  ∧ final r = w.
Proof.
  intros Hsame. unfold onUserIsAdminUpdated.
  rewrite !coerced_isAdmin_code, Hsame.
  destruct (coerced_isAdmin after); cbn; auto.
Qed.

Lemma profile_update_same_flag_is_noop_witness :
  coerced_isAdmin (Some {[ "isAdmin" := JBool true; "displayName" := JStr "Ana" ]})
    = coerced_isAdmin (Some {[ "isAdmin" := JNum 1 ]})
  ∧ final (onUserIsAdminUpdated "ana"
             (Some {[ "isAdmin" := JBool true; "displayName" := JStr "Ana" ]})
             (Some {[ "isAdmin" := JNum 1 ]}) ana_false_admin)
    = ana_false_admin.
Proof.
  assert (H : coerced_isAdmin
                (Some {[ "isAdmin" := JBool true; "displayName" := JStr "Ana" ]})
              = coerced_isAdmin (Some {[ "isAdmin" := JNum 1 ]}))
    by reflexivity.
  split; [exact H|].
  exact (proj2 (proj2 (proj2 (proj2
    (profile_update_same_flag_is_noop "ana" _ _ ana_false_admin H))))).
Defined.

(** ** The CORS layer *)

(** A request that is not a preflight goes to the handler as it is. *)
Lemma exported_runs_handler (handler : Request → M Response) (req : Request) :
  Exports.is_preflight req = false →
  Exports.onRequest_cors handler req = handler req.
Proof. unfold Exports.onRequest_cors. by intros ->. Qed.

(** A preflight is answered before the handler, whatever the handler. *)
Lemma exported_answers_preflight (handler : Request → M Response)
    (req : Request) (w : World) :
  Exports.is_preflight req = true →
  Exports.onRequest_cors handler req w = mkRun w [] (Ok Exports.preflight_answer).
Proof. unfold Exports.onRequest_cors. by intros ->. Qed.

Lemma post_is_no_preflight (req : Request) :
  method req = "POST" → Exports.is_preflight req = false.
Proof. unfold Exports.is_preflight. by intros ->. Qed.

(** So what is proved below of a handler for the requests whose method is
    POST holds as it stands of the function as exported. *)
Lemma exported_post_is_handler (req : Request) :
  method req = "POST" →
  Exports.upsertNewsWithAiSummary req = Functions.upsertNewsWithAiSummary req
  ∧ Exports.sendContactEmail req = Functions.sendContactEmail req
  ∧ Exports.syncAdminClaims req = Functions.syncAdminClaims req.
Proof.
  intros Hp%post_is_no_preflight.
  unfold Exports.upsertNewsWithAiSummary, Exports.sendContactEmail,
         Exports.syncAdminClaims.
  by rewrite !(exported_runs_handler _ _ Hp).
Qed.

(** And the function as exported does what the handler does or, for a
    preflight, nothing at all: what a handler never touches, the exported
    function never touches either. *)
Lemma exported_does_no_more (handler : Request → M Response) (req : Request)
    (w : World) :
  Exports.onRequest_cors handler req w = handler req w
  ∨ Exports.onRequest_cors handler req w = mkRun w [] (Ok Exports.preflight_answer).
Proof.
  unfold Exports.onRequest_cors. destruct (Exports.is_preflight req); auto.
Qed.

(** ** The HTTP proxies *)

Lemma handler_non_post_is_405 (req : Request) (w : World) :
  method req ≠ "POST" →
  answers_405_untouched (Functions.upsertNewsWithAiSummary req w) w
  ∧ answers_405_untouched (Functions.sendContactEmail req w) w.
Proof.
  intros Hm. apply String.eqb_neq in Hm.
  unfold answers_405_untouched, Functions.upsertNewsWithAiSummary,
         Functions.sendContactEmail.
  rewrite Hm. cbn. auto 10.
Qed.

(** C10 as amended: to a request whose method is neither POST nor
    OPTIONS, the exported [upsertNewsWithAiSummary] and [sendContactEmail]
    both answer 405 with the text Method Not Allowed, after no call at
    all to the outside: no [fetch], no write to the document store; the
    world is as it was.  A request whose method is OPTIONS does not reach
    the handlers: the CORS layer answers it 204 with no body, also after
    no call, and the world is as it was. *)
Theorem non_post_is_method_not_allowed (req : Request) (w : World) :
  method req ≠ "POST" →
  (Exports.is_preflight req = false →
   answers_405_untouched (Exports.upsertNewsWithAiSummary req w) w
   ∧ answers_405_untouched (Exports.sendContactEmail req w) w)
  ∧ (Exports.is_preflight req = true →
     answers_preflight_untouched (Exports.upsertNewsWithAiSummary req w) w
     ∧ answers_preflight_untouched (Exports.sendContactEmail req w) w).
Proof.
  intros Hm. split; intros Hp.
  - unfold Exports.upsertNewsWithAiSummary, Exports.sendContactEmail.
    rewrite !(exported_runs_handler _ _ Hp). by apply handler_non_post_is_405.
  - unfold Exports.upsertNewsWithAiSummary, Exports.sendContactEmail.
    rewrite !(exported_answers_preflight _ _ _ Hp).
    unfold answers_preflight_untouched. cbn. auto 10.
Qed.

Lemma non_post_is_method_not_allowed_witness :
  method (mkRequest "GET" None JUndefined) ≠ "POST"
  ∧ Exports.is_preflight (mkRequest "GET" None JUndefined) = false
  ∧ answers_405_untouched
      (Exports.upsertNewsWithAiSummary (mkRequest "GET" None JUndefined)
         ana_authorized)
      ana_authorized
  ∧ method preflight_request ≠ "POST"
  ∧ Exports.is_preflight preflight_request = true
  ∧ answers_preflight_untouched
      (Exports.sendContactEmail preflight_request ana_authorized) ana_authorized.
Proof.
  assert (H : method (mkRequest "GET" None JUndefined) ≠ "POST")
    by (simpl; discriminate).
  assert (H' : method preflight_request ≠ "POST") by (simpl; discriminate).
  split; [exact H|]. split; [reflexivity|].
  split; [exact (proj1 (proj1 (non_post_is_method_not_allowed
                                 (mkRequest "GET" None JUndefined) ana_authorized H)
                          eq_refl))|].
  split; [exact H'|]. split; [reflexivity|].
  exact (proj2 (proj2 (non_post_is_method_not_allowed preflight_request
                         ana_authorized H')
                  eq_refl)).
Defined.

(** C10 as stated fails on the preflight: its method is not POST, and
    the exported functions answer it 204, not 405. *)
Lemma preflight_is_not_405 :
  ¬ (method preflight_request ≠ "POST" →
     answers_405_untouched
       (Exports.upsertNewsWithAiSummary preflight_request ana_authorized)
       ana_authorized
     ∧ answers_405_untouched
         (Exports.sendContactEmail preflight_request ana_authorized)
         ana_authorized).
Proof.
  intros H.
  assert (Hm : method preflight_request ≠ "POST") by (simpl; discriminate).
  destruct (H Hm) as [[Hres _] _].
  unfold Exports.upsertNewsWithAiSummary in Hres.
  rewrite (exported_answers_preflight _ preflight_request _ eq_refl) in Hres.
  discriminate Hres.
Qed.

(** With POST the two handlers do reach the outside.  A well-formed news
    item, with no completion key configured, is stored with an empty
    summary and answered 200. *)
Example upsert_without_key_has_empty_summary :
  let r := upsertNewsWithAiSummary
             (mkRequest "POST" None
                (obj [("title", JStr "X"); ("url", JStr "http://y");
                      ("source", JStr "Z")]))
             ana_authorized in
  result r = Ok (mkResponse 200
                   (Json (obj [("ok", JBool true); ("id", JStr "doc-0");
                               ("summary", JStr EmptyString)])))
  ∧ count is_outbound_http (trace r) = 0%nat
  ∧ count is_document_write (trace r) = 1%nat
  ∧ firestore (final r) !! "news/doc-0"
    = Some (list_to_map
              [("title", JStr "X"); ("url", JStr "http://y");
               ("source", JStr "Z"); ("region", JStr "nacional");
               ("summary", JStr EmptyString);
               ("publishedAt", JStr "2024-01-01T00:00:00.000Z")]).
Proof. repeat split; vm_compute; reflexivity. Qed.

(** A contact form without [template_params] is answered 400 before any
    call goes out; a complete one is forwarded, and an unreachable mail
    service makes a 500. *)
Example contact_without_params_is_400 :
  let r := sendContactEmail
             (mkRequest "POST" None
                (obj [("service_id", JStr "s"); ("template_id", JStr "t");
                      ("user_id", JStr "u")]))
             ana_authorized in
  result r = Ok (mkResponse 400 (Json (obj [("error", JStr "Missing required fields")])))
  ∧ trace r = [].
Proof. repeat split; vm_compute; reflexivity. Qed.

Example contact_is_forwarded :
  let r := sendContactEmail
             (mkRequest "POST" None
                (obj [("service_id", JStr "s"); ("template_id", JStr "t");
                      ("user_id", JStr "u"); ("template_params", obj [])]))
             ana_authorized in
  result r = Ok (mkResponse 500 (Json (obj [("error", JStr "Internal Server Error")])))
  ∧ count is_outbound_http (trace r) = 1%nat.
Proof. repeat split; vm_compute; reflexivity. Qed.

(** ** The header pattern *)

Example bearer_match_token : bearer_match "Bearer abc.def" = Some "abc.def".
Proof. reflexivity. Qed.

Example bearer_match_any_case : bearer_match "bEaReR   abc" = Some "abc".
Proof. reflexivity. Qed.

Example bearer_match_empty_token : bearer_match "Bearer " = Some EmptyString.
Proof. reflexivity. Qed.

Example bearer_match_no_break_space :
  bearer_match empty_bearer_header = Some EmptyString.
Proof. reflexivity. Qed.

Example bearer_match_no_space : bearer_match "Bearerabc" = None.
Proof. reflexivity. Qed.

Example bearer_match_other_scheme : bearer_match "Basic abc" = None.
Proof. reflexivity. Qed.

Lemma append_String (c : ascii) (a b : string) :
  String c a +:+ b = String c (a +:+ b).
Proof. reflexivity. Qed.

Lemma append_Empty (b : string) : EmptyString +:+ b = b.
Proof. reflexivity. Qed.

Lemma toLowerCase_length (s : string) :
  String.length (toLowerCase s) = String.length s.
Proof. induction s as [|c s IH]; cbn; [done|]. by rewrite IH. Qed.

Lemma string_take_app (a b : string) :
  string_take (String.length a) (a +:+ b) = a.
Proof.
  induction a as [|c a IH]; cbn.
  - by destruct b.
  - rewrite append_String. cbn. by rewrite IH.
Qed.

Lemma string_drop_app (a b : string) :
  string_drop (String.length a) (a +:+ b) = b.
Proof.
  induction a as [|c a IH]; cbn; [done|]. rewrite append_String. exact IH.
Qed.

Lemma string_take_drop (n : nat) (s : string) :
  string_take n s +:+ string_drop n s = s.
Proof.
  revert s; induction n as [|n IH]; intros [|c s]; cbn; try done.
  rewrite append_String. by rewrite IH.
Qed.

Lemma trimStart_split (s : string) :
  ∃ spaces, s = spaces +:+ trimStart s ∧ string_forallb is_space spaces = true.
Proof.
  induction s as [|c s (spaces & Hs & Hsp)]; cbn.
  - by exists EmptyString.
  - destruct (is_space c) eqn:Hc.
    + exists (String c spaces). cbn. rewrite Hc, Hsp, append_String.
      split; [|done]. by rewrite <- Hs.
    + by exists EmptyString.
Qed.

Lemma trimStart_spaces (spaces s : string) :
  string_forallb is_space spaces = true →
  trimStart (spaces +:+ s) = trimStart s.
Proof.
  induction spaces as [|c spaces IH]; cbn; [done|].
  intros [Hc Hsp]%andb_prop. rewrite append_String. cbn. rewrite Hc.
  by apply IH.
Qed.

Lemma trimStart_forallb (p : ascii → bool) (s : string) :
  string_forallb p s = true → string_forallb p (trimStart s) = true.
Proof.
  induction s as [|c s IH]; cbn; [done|].
  intros H. destruct (is_space c); [|exact H].
  apply andb_prop in H as [_ H]. by apply IH.
Qed.

Lemma trimStart_idemp (s : string) : trimStart (trimStart s) = trimStart s.
Proof.
  induction s as [|c s IH]; cbn; [done|].
  destruct (is_space c) eqn:Hc; [exact IH|]. cbn. by rewrite Hc.
Qed.

Lemma string_forallb_app (p : ascii → bool) (a b : string) :
  string_forallb p a = true → string_forallb p b = true →
  string_forallb p (a +:+ b) = true.
Proof.
  induction a as [|c a IH]; cbn; [done|].
  intros [Hc Ha]%andb_prop Hb. rewrite append_String. cbn. rewrite Hc.
  by apply IH.
Qed.

Lemma append_assoc (a b c : string) : (a +:+ b) +:+ c = a +:+ (b +:+ c).
Proof.
  induction a as [|x a IH]; [done|]. rewrite !append_String. by rewrite IH.
Qed.

(** The matcher finds the token exactly when the header has the shape of
    the pattern, the white space taken whole. *)
Lemma bearer_match_pattern (header token : string) :
  bearer_match header = Some token ↔
  bearer_pattern header token ∧ trimStart token = token.
Proof.
  unfold bearer_match, bearer_pattern. split.
  - destruct (String.eqb _ _) eqn:Hword; [|done].
    apply String.eqb_eq in Hword.
    destruct (string_drop 6 header) as [|c r] eqn:Hrest; [done|].
    destruct (is_space c) eqn:Hc; [|done].
    destruct (string_forallb _ (trimStart r)) eqn:Hlt; [|done].
    intros [= <-]. split; [|apply trimStart_idemp].
    destruct (trimStart_split r) as (spaces & Hr & Hsp).
    exists (string_take 6 header), (String c spaces). repeat split.
    + rewrite <- (string_take_drop 6 header) at 1. rewrite Hrest.
      rewrite append_String. by rewrite <- Hr.
    + exact Hword.
    + done.
    + cbn. by rewrite Hc, Hsp.
    + exact Hlt.
  - intros [(word & spaces & -> & Hword & Hne & Hsp & Hlt) Htrim].
    assert (Hlen : String.length word = 6%nat).
    { by rewrite <- toLowerCase_length, Hword. }
    replace 6%nat with (String.length word) by exact Hlen.
    rewrite string_take_app, string_drop_app, Hword. cbn.
    destruct spaces as [|c spaces]; [done|]. cbn in Hsp.
    apply andb_prop in Hsp as [Hc Hsp]. rewrite append_String, Hc.
    rewrite (trimStart_spaces _ _ Hsp), Htrim, Hlt. reflexivity.
Qed.

(** A header of the shape of the pattern is matched, whatever the split
    of the white space. *)
Lemma bearer_pattern_match (header token : string) :
  bearer_pattern header token → bearer_match header = Some (trimStart token).
Proof.
  intros (word & spaces & -> & Hword & Hne & Hsp & Hlt).
  apply bearer_match_pattern. split; [|apply trimStart_idemp].
  destruct (trimStart_split token) as (more & Htok & Hmore).
  exists word, (spaces +:+ more). repeat split.
  - rewrite Htok at 1. by rewrite append_assoc.
  - exact Hword.
  - by destruct spaces.
  - by apply string_forallb_app.
  - by apply trimStart_forallb.
Qed.

Lemma no_bearer_no_match (req : Request) :
  ¬ has_bearer req →
  bearer_match (default EmptyString (authorization req)) = None.
Proof.
  intros Hno. destruct (authorization req) as [header|] eqn:Hh; cbn; [|done].
  destruct (bearer_match header) as [token|] eqn:Hm; [|done].
  exfalso. apply Hno. exists header, token. split; [exact Hh|].
  by apply bearer_match_pattern in Hm as [? _].
Qed.

(** ** sync-now *)

Ltac run_sync :=
  unfold syncAdminClaims, verifyIdToken, docGet;
  unfold mbind, M_bind, bind, try_catch, emit, world, modify, ret, throw,
         logger_info, logger_error;
  cbn -[setAdminClaim].

Lemma sync_unmatched (req : Request) (w : World) :
  bearer_match (default EmptyString (authorization req)) = None →
  syncAdminClaims req w =
    mkRun w []
      (Ok (mkResponse 401
             (Json (obj [("error", JStr "Missing Authorization: Bearer <ID_TOKEN>")])))).
Proof. intros Hm. run_sync. rewrite Hm. reflexivity. Qed.

Lemma sync_bad_token (req : Request) (w : World) (token : string) :
  bearer_match (default EmptyString (authorization req)) = Some token →
  id_tokens w !! token = None →
  syncAdminClaims req w =
    mkRun w
      [AuthVerifyIdToken token;
       Log Err "[syncAdminClaims] error" JUndefined
         (Some (AuthInvalidIdToken token))]
      (Ok (mkResponse 500 (Json (obj [("error", JStr "Internal Server Error")])))).
Proof. intros Hm Ht. run_sync. rewrite Hm; cbn. rewrite Ht. reflexivity. Qed.

(** [isAdmin] as [sync-now] computes it. *)
Lemma sync_isAdmin_code (w : World) (uid : string) :
  bool_decide (is_Some (firestore w !! ("admins/" +:+ uid)))
  || match firestore w !! ("users/" +:+ uid) with
     | Some d => is_true (prop d "isAdmin")
     | None => false
     end
  = authorization_exists w uid || profile_is_admin w uid.
Proof.
  unfold authorization_exists, profile_is_admin, prop. f_equal.
  destruct (firestore w !! ("users/" +:+ uid)) as [d|]; [|done].
  by destruct (d !! "isAdmin") as [[| |[|]| | | | | |]|].
Qed.

Lemma sync_verified (req : Request) (w : World) (token uid : string) (u : UserRecord) :
  bearer_match (default EmptyString (authorization req)) = Some token →
  id_tokens w !! token = Some uid →
  auth_users w !! uid = Some u →
  syncAdminClaims req w =
    let isAdmin := authorization_exists w uid || profile_is_admin w uid in
    let next := next_claims isAdmin (default ∅ (customClaims u)) in
    mkRun (set_auth_users <[uid := mkUser (email u) (Some next)]> w)
      [AuthVerifyIdToken token;
       DocGet ("admins/" +:+ uid);
       DocGet ("users/" +:+ uid);
       AuthGetUser uid;
       AuthSetCustomUserClaims uid next;
       Log Info "[setAdminClaim] Updated claims"
         (obj [("uid", JStr uid); ("isAdmin", JBool isAdmin)]) None]
      (Ok (mkResponse 200
             (Json (obj [("ok", JBool true); ("uid", JStr uid);
                         ("isAdmin", JBool isAdmin)])))).
Proof.
  intros Hm Ht Hu. run_sync. rewrite Hm; cbn -[setAdminClaim].
  rewrite Ht; cbn -[setAdminClaim].
  rewrite sync_isAdmin_code, (setAdminClaim_found _ _ _ _ Hu). reflexivity.
Qed.

Lemma sync_no_record_run (req : Request) (w : World) (token uid : string) :
  bearer_match (default EmptyString (authorization req)) = Some token →
  id_tokens w !! token = Some uid →
  auth_users w !! uid = None →
  syncAdminClaims req w =
    let isAdmin := authorization_exists w uid || profile_is_admin w uid in
    mkRun w
      [AuthVerifyIdToken token;
       DocGet ("admins/" +:+ uid);
       DocGet ("users/" +:+ uid);
       AuthGetUser uid;
       Log Err "[setAdminClaim] Failed to update claims"
         (obj [("uid", JStr uid); ("isAdmin", JBool isAdmin)])
         (Some (AuthUserNotFound uid));
       Log Err "[syncAdminClaims] error" JUndefined
         (Some (AuthUserNotFound uid))]
      (Ok (mkResponse 500 (Json (obj [("error", JStr "Internal Server Error")])))).
Proof.
  intros Hm Ht Hu. run_sync. rewrite Hm; cbn -[setAdminClaim].
  rewrite Ht; cbn -[setAdminClaim].
  rewrite sync_isAdmin_code, (setAdminClaim_missing _ _ _ Hu). reflexivity.
Qed.

Lemma sync_no_record (req : Request) (w : World) (token uid : string) :
  bearer_match (default EmptyString (authorization req)) = Some token →
  id_tokens w !! token = Some uid →
  auth_users w !! uid = None →
  final (syncAdminClaims req w) = w
  ∧ ∃ p, result (syncAdminClaims req w) = Ok (mkResponse 500 p).
Proof.
  intros Hm Ht Hu. rewrite (sync_no_record_run _ _ _ _ Hm Ht Hu). cbn. eauto.
Qed.

Lemma handler_unmatched_is_401 (req : Request) (w : World) :
  ¬ has_bearer req → answers_401_untouched (syncAdminClaims req w) w.
Proof.
  intros Hno. unfold answers_401_untouched.
  rewrite (sync_unmatched _ _ (no_bearer_no_match _ Hno)). cbn. auto 10.
Qed.

Lemma empty_token_pattern (header : string) :
  bearer_pattern header EmptyString →
  bearer_match header = Some EmptyString.
Proof. intros Hp. by apply bearer_pattern_match in Hp. Qed.

(** C6 as amended, for the exported [syncAdminClaims].  To a request
    that is not an OPTIONS preflight and has no Authorization header, or
    has one that is not of the shape of the pattern (the word Bearer in
    any case, white space, a token without line terminators that can be
    empty), it answers 401 with a message that says what is missing,
    after no call at all to the outside: no token verification, no read
    of the document store, no write to the credential store; the world is
    as it was.  A preflight is answered 204 by the CORS layer, also after
    no call.  A header with the word, white space and an empty token is
    of the shape of the pattern: the empty token goes to verification,
    and when it does not verify the answer is 500, after the verification
    and the error log. *)
Theorem missing_bearer_is_401 (req : Request) (w : World) :
  let r := Exports.syncAdminClaims req w in
  (Exports.is_preflight req = false → ¬ has_bearer req →
   answers_401_untouched r w)
  ∧ (Exports.is_preflight req = true → answers_preflight_untouched r w)
  ∧ (∀ header : string,
       Exports.is_preflight req = false →
       authorization req = Some header →
       bearer_pattern header EmptyString →
       id_tokens w !! EmptyString = None →
       result r = Ok (mkResponse 500 (Json (obj [("error", JStr "Internal Server Error")])))
       ∧ trace r = [AuthVerifyIdToken EmptyString;
                    Log Err "[syncAdminClaims] error" JUndefined
                      (Some (AuthInvalidIdToken EmptyString))]
       ∧ count is_token_verification (trace r) = 1%nat
       ∧ count is_credential_write (trace r) = 0%nat
       ∧ final r = w).
Proof.
  cbn zeta. unfold Exports.syncAdminClaims. split; [|split].
  - intros Hp Hno. rewrite (exported_runs_handler _ _ Hp).
    by apply handler_unmatched_is_401.
  - intros Hp. rewrite (exported_answers_preflight _ _ _ Hp).
    unfold answers_preflight_untouched. cbn. auto 10.
  - intros header Hp Hh Hpat Ht. rewrite (exported_runs_handler _ _ Hp).
    assert (Hm : bearer_match (default EmptyString (authorization req))
                 = Some EmptyString).
    { rewrite Hh. cbn. by apply empty_token_pattern. }
    rewrite (sync_bad_token _ _ _ Hm Ht). cbn. auto 10.
Qed.

Lemma basic_header_has_no_bearer :
  ¬ has_bearer (mkRequest "POST" (Some "Basic YW5hOnNlY3JldA==") JUndefined).
Proof.
  intros (header & token & [= <-] & Hp).
  apply bearer_pattern_match in Hp. discriminate Hp.
Qed.

Lemma bearer_empty_pattern : bearer_pattern empty_bearer_header EmptyString.
Proof.
  exists "Bearer", (String (Ascii.ascii_of_N 160) EmptyString).
  repeat split; done.
Qed.

Lemma missing_bearer_is_401_witness :
  Exports.is_preflight (mkRequest "POST" (Some "Basic YW5hOnNlY3JldA==") JUndefined)
    = false
  ∧ ¬ has_bearer (mkRequest "POST" (Some "Basic YW5hOnNlY3JldA==") JUndefined)
  ∧ answers_401_untouched
      (Exports.syncAdminClaims
         (mkRequest "POST" (Some "Basic YW5hOnNlY3JldA==") JUndefined)
         ana_authorized)
      ana_authorized
  ∧ Exports.is_preflight preflight_request = true
  ∧ answers_preflight_untouched
      (Exports.syncAdminClaims preflight_request ana_authorized) ana_authorized
  ∧ bearer_pattern empty_bearer_header EmptyString
  ∧ id_tokens ana_authorized !! EmptyString = None
  ∧ count is_token_verification
      (trace (Exports.syncAdminClaims empty_bearer_request ana_authorized))
    = 1%nat.
Proof.
  assert (Ht : id_tokens ana_authorized !! EmptyString = None) by reflexivity.
  split; [reflexivity|]. split; [exact basic_header_has_no_bearer|].
  split; [exact (proj1 (missing_bearer_is_401
                          (mkRequest "POST" (Some "Basic YW5hOnNlY3JldA==") JUndefined)
                          ana_authorized) eq_refl
                   basic_header_has_no_bearer)|].
  split; [reflexivity|].
  split; [exact (proj1 (proj2 (missing_bearer_is_401 preflight_request
                                 ana_authorized)) eq_refl)|].
  split; [exact bearer_empty_pattern|]. split; [exact Ht|].
  exact (proj1 (proj2 (proj2
           (proj2 (proj2 (missing_bearer_is_401 empty_bearer_request
                            ana_authorized))
              empty_bearer_header eq_refl eq_refl bearer_empty_pattern Ht)))).
Defined.

Lemma empty_bearer_has_no_token : ¬ has_bearer_token empty_bearer_request.
Proof.
  intros (header & token & [= <-] & Hp & Htok).
  apply bearer_pattern_match in Hp. cbn in Hp.
  injection Hp as Hp. by symmetry in Hp.
Qed.

(** C6 as stated fails twice.  The preflight of a browser has no
    Authorization header, and is answered 204, not 401.  And a header
    with the word Bearer, white space and nothing else carries no token,
    yet the code takes it for well formed: it verifies the empty token
    and answers 500. *)
Lemma preflight_and_empty_token_are_not_401 :
  ¬ (authorization preflight_request = None →
     ∃ p, result (Exports.syncAdminClaims preflight_request ana_authorized)
          = Ok (mkResponse 401 p))
  ∧ ¬ (¬ has_bearer_token empty_bearer_request →
       (∃ p, result (Exports.syncAdminClaims empty_bearer_request ana_authorized)
             = Ok (mkResponse 401 p))
       ∧ count is_token_verification
           (trace (Exports.syncAdminClaims empty_bearer_request ana_authorized))
         = 0%nat).
Proof.
  split.
  - intros H. destruct (H eq_refl) as [p Hp].
    unfold Exports.syncAdminClaims in Hp.
    rewrite (exported_answers_preflight _ preflight_request _ eq_refl) in Hp.
    discriminate Hp.
  - intros H. destruct (H empty_bearer_has_no_token) as [_ Hc].
    unfold Exports.syncAdminClaims in Hc.
    rewrite (exported_runs_handler _ empty_bearer_request eq_refl) in Hc.
    rewrite (sync_bad_token empty_bearer_request ana_authorized EmptyString
               eq_refl eq_refl) in Hc.
    discriminate Hc.
Qed.







Lemma bearer_rita_pattern : bearer_pattern "Bearer rita-token" "rita-token".
Proof. exists "Bearer", " ". repeat split; done. Qed.


(** ** The invariant, entry point by entry point *)

(** C1 as amended: when an entry point of the synchronizer has run to
    its end, the claim [admin] of the user it is about is truthy exactly
    when: for sync-now, the Authorization Document exists or the profile
    has [isAdmin === true], as read by the operation; for
    on-authorization-created, always; for on-authorization-deleted,
    never; for on-profile-updated, when the new [isAdmin] is truthy if
    the coerced flag changed, and when the claim was truthy before if it
    did not.  The three triggers make no read of the document store;
    sync-now makes two, of the Authorization Document and of the profile
    of that user. *)
Theorem claim_after_entry_point (op : SyncOp) (w : World) (uid : string) :
  completes op w →
  subject op w = Some uid →
  admin_claim (world_after op w) uid = claim_after op w uid
  ∧ filter (λ e, is_document_read e = true) (trace_after op w)
    = (if is_trigger op then []
       else [DocGet ("admins/" +:+ uid); DocGet ("users/" +:+ uid)]).
Proof.
  destruct op as [uid0|uid0|uid0 before after|req]; cbn.
  - intros Hok [= ->]. unfold onAdminDocCreated in *.
    destruct (setAdminClaim_ok _ _ _ Hok) as [u Hu].
    rewrite (setAdminClaim_found _ _ _ _ Hu). cbn -[next_claims].
    split; [|reflexivity].
    unfold admin_claim. rewrite claims_of_written. apply next_claims_truthy.
  - intros Hok [= ->]. unfold onAdminDocDeleted in *.
    destruct (setAdminClaim_ok _ _ _ Hok) as [u Hu].
    rewrite (setAdminClaim_found _ _ _ _ Hu). cbn -[next_claims].
    split; [|reflexivity].
    unfold admin_claim. rewrite claims_of_written. apply next_claims_truthy.
  - intros Hok [= ->]. unfold onUserIsAdminUpdated in *.
    rewrite !coerced_isAdmin_code in *.
    case_bool_decide as Hflag.
    + rewrite Hflag. by destruct (coerced_isAdmin after).
    + assert (Hne : negb (Bool.eqb (coerced_isAdmin before) (coerced_isAdmin after)) = true).
      { destruct (coerced_isAdmin before), (coerced_isAdmin after); done. }
      rewrite Hne in *.
      destruct (setAdminClaim_ok _ _ _ Hok) as [u Hu].
      rewrite (setAdminClaim_found _ _ _ _ Hu). cbn -[next_claims].
      split; [|reflexivity].
      unfold admin_claim. rewrite claims_of_written. apply next_claims_truthy.
  - intros [p Hok] Hsub.
    destruct (bearer_match _) as [token|] eqn:Hm; [|done]. cbn in Hsub.
    destruct (auth_users w !! uid) as [u|] eqn:Hu.
    + rewrite (sync_verified _ _ _ _ _ Hm Hsub Hu). cbn -[next_claims].
      split; [|reflexivity].
      unfold admin_claim. rewrite claims_of_written. apply next_claims_truthy.
    + destruct (sync_no_record _ _ _ _ Hm Hsub Hu) as [_ [q Hq]].
      rewrite Hq in Hok. discriminate Hok.
Qed.

Lemma claim_after_entry_point_witness :
  completes (OnProfileUpdated "ana" (Some {[ "isAdmin" := JBool true ]})
               (Some {[ "isAdmin" := JBool false ]})) ana_profile_admin
  ∧ subject (OnProfileUpdated "ana" (Some {[ "isAdmin" := JBool true ]})
               (Some {[ "isAdmin" := JBool false ]})) ana_profile_admin
    = Some "ana"
  ∧ admin_claim
      (world_after (OnProfileUpdated "ana" (Some {[ "isAdmin" := JBool true ]})
                      (Some {[ "isAdmin" := JBool false ]})) ana_profile_admin)
      "ana" = false
  ∧ filter (λ e, is_document_read e = true)
      (trace_after (OnProfileUpdated "ana" (Some {[ "isAdmin" := JBool true ]})
                      (Some {[ "isAdmin" := JBool false ]})) ana_profile_admin)
    = [].
Proof.
  assert (H : completes (OnProfileUpdated "ana" (Some {[ "isAdmin" := JBool true ]})
                           (Some {[ "isAdmin" := JBool false ]})) ana_profile_admin)
    by reflexivity.
  split; [exact H|]. split; [reflexivity|].
  exact (claim_after_entry_point _ ana_profile_admin "ana" H eq_refl).
Defined.

(** C1 as stated fails: [ana] has no Authorization Document, her profile
    says [isAdmin: true], and on-authorization-deleted runs to its end;
    the claim is then gone although one of the two sources holds. *)
Lemma revocation_overrides_profile_flag :
  ¬ (completes (OnAuthorizationDeleted "ana") ana_profile_admin →
     subject (OnAuthorizationDeleted "ana") ana_profile_admin = Some "ana" →
     (admin_claim (world_after (OnAuthorizationDeleted "ana") ana_profile_admin)
        "ana" = true
      ↔ authorization_exists ana_profile_admin "ana" = true
        ∨ profile_is_admin ana_profile_admin "ana" = true)).
Proof.
  intros H. specialize (H eq_refl eq_refl) as [_ H].
  assert (Hgone : admin_claim
            (world_after (OnAuthorizationDeleted "ana") ana_profile_admin) "ana"
          = false) by reflexivity.
  rewrite Hgone in H. discriminate H. right. reflexivity.
Qed.

(** ** The tag backfill *)

Section TagBackfillFacts.

Variable JSON_parse : string → option jsval.

Lemma tags_fallback_values (content : string) :
  tags_fallback JSON_parse content =
    match cleaned_values JSON_parse content with
    | Some values => keep_allowed values
    | None => []
    end.
Proof.
  unfold tags_fallback, cleaned_values.
  destruct (JSON_parse _) as [[| |b|n| |d|s|l|o]|]; try done.
  by destruct (forallb stringifies l).
Qed.

Lemma tags_of_content_values (content : string) :
  tags_of_content JSON_parse content =
    match response_values JSON_parse content with
    | Some values => keep_allowed values
    | None => []
    end.
Proof.
  unfold tags_of_content, response_values.
  destruct (JSON_parse content) as [[| |b|n| |d|s|l|o]|];
    cbn -[tags_fallback cleaned_values];
    rewrite ?tags_fallback_values; try done.
  unfold prop.
  destruct (o !! "tags") as [[| |b|n| |d|s|l|o']|];
    cbn -[tags_fallback cleaned_values]; try done.
  by destruct (forallb stringifies l).
Qed.


Lemma keep_allowed_in_vocabulary (values : list jsval) (t : string) :
  t ∈ keep_allowed values → t ∈ ALLOWED_TAGS.
Proof.
  unfold keep_allowed. rewrite list_elem_of_In, List.filter_In.
  intros [_ Ht]. unfold allowed in Ht. by apply bool_decide_eq_true in Ht.
Qed.

Ltac run_tags :=
  unfold fetch, docSetMerge, console_log, console_warn, console_error in *;
  unfold mbind, M_bind, bind, try_catch, emit, world, modify, ret, throw in *;
  cbn -[tags_request tags_prompt tags_field openai_url String_ stringifies].

(** The runs of [generateTagsForDoc]. *)
Lemma generateTagsForDoc_run (openaiKey model : string) (doc : QueryDoc) (w : World) :
  generateTagsForDoc JSON_parse openaiKey model doc w =
    if negb (truthy (or_empty_string (prop (doc_data doc) "title")))
       && negb (truthy (or_empty_string (prop (doc_data doc) "summary")))
    then mkRun w
           [Log Warn ("Skipping doc " +:+ doc_id doc
                      +:+ " because it has no title/summary") JUndefined None]
           (Ok None)
    else if negb (prompt_builds doc) then mkRun w [] (Throw TypeError)
    else
      let call := HttpFetch openai_url (Some ("Bearer " +:+ openaiKey))
                    (tags_request_of model doc) in
      match remote w openai_url (tags_request_of model doc) with
      | None => mkRun w [call] (Throw (FetchRejected openai_url))
      | Some resp =>
          if negb (fok resp)
          then mkRun w [call]
                 (Throw (Error ("OpenAI error: " +:+ pretty (fstatus resp)
                                +:+ " " +:+ fstatusText resp +:+ " "
                                +:+ default EmptyString (ftext resp))))
          else
            match tags_of_content JSON_parse (answer_text resp) with
            | [] =>
                mkRun w
                  [call;
                   Log Warn ("No valid tags generated for doc " +:+ doc_id doc)
                     JUndefined None]
                  (Ok None)
            | tag :: tags => mkRun w [call] (Ok (Some (tag :: tags)))
            end
      end.
Proof.
  unfold generateTagsForDoc, prompt_builds, tags_request_of, answer_text.
  destruct (negb (truthy (or_empty_string (prop (doc_data doc) "title")))
            && negb (truthy (or_empty_string (prop (doc_data doc) "summary")))).
  { reflexivity. }
  unfold ToString.
  destruct (stringifies (or_empty_string (prop (doc_data doc) "title")));
    [|reflexivity].
  destruct (stringifies (or_empty_string (prop (doc_data doc) "summary")));
    [|reflexivity].
  destruct (truthy (or_empty_string (prop (doc_data doc) "region")));
    [destruct (stringifies (or_empty_string (prop (doc_data doc) "region")));
       [|reflexivity]|];
    run_tags;
    (destruct (remote w openai_url _) as [resp|]; cbn; [|reflexivity]);
    (destruct (fok resp); cbn; [|reflexivity]);
    by destruct (tags_of_content JSON_parse _).
Qed.

(** [generateTagsForDoc] writes nothing and changes nothing; when it gives
    tags, they are those of the answer and there is at least one. *)
Lemma generateTagsForDoc_spec (openaiKey model : string) (doc : QueryDoc) (w : World) :
  let r := generateTagsForDoc JSON_parse openaiKey model doc w in
  final r = w
  ∧ Forall (λ e, is_document_write e = false) (trace r)
  ∧ ∀ tags, result r = Ok (Some tags) →
      tags ≠ []
      ∧ ∃ resp,
          remote w openai_url (tags_request_of model doc) = Some resp
          ∧ tags = tags_of_content JSON_parse (answer_text resp).
Proof.
  cbn zeta. rewrite generateTagsForDoc_run.
  destruct (negb _ && negb _).
  { split; [done|]. split; [by repeat constructor|]. by intros tags [=]. }
  destruct (negb (prompt_builds doc)).
  { split; [done|]. split; [by repeat constructor|]. by intros tags [=]. }
  cbn zeta.
  destruct (remote w openai_url _) as [resp|] eqn:Hresp; cbn.
  2:{ split; [done|]. split; [by repeat constructor|]. by intros tags [=]. }
  destruct (fok resp); cbn.
  2:{ split; [done|]. split; [by repeat constructor|]. by intros tags [=]. }
  destruct (tags_of_content JSON_parse _) as [|t ts] eqn:Htags; cbn.
  { split; [done|]. split; [by repeat constructor|]. by intros tags [=]. }
  split; [done|]. split; [by repeat constructor|].
  intros tags [= <-]. split; [done|]. exists resp. by rewrite Htags.
Qed.

Lemma no_write_filter (t : list Event) :
  Forall (λ e, is_document_write e = false) t →
  filter (λ e, is_document_write e = true) t = [].
Proof.
  intros Ht. induction Ht as [|e t He _ IH]; [done|].
  rewrite filter_cons_False; [exact IH|]. by rewrite He.
Qed.

(** A title that is shown turns into a string exactly when the title of
    the document does: the text shown in its place does. *)
Lemma shown_title_stringifies (doc : QueryDoc) :
  stringifies (shown_title doc) = title_prints doc.
Proof.
  unfold shown_title, title_prints.
  destruct (prop (doc_data doc) "title") as [| |[]|n| |d|s|l|o];
    cbn [truthy]; try done; by destruct (negb _).
Qed.

(** A document of the snapshot whose [tags] is a non-empty array is
    passed over. *)
Lemma process_doc_skips_tagged (openaiKey openaiModel : string)
    (doc : QueryDoc) (w : World) :
  lacks_tags doc = false →
  process_doc JSON_parse openaiKey openaiModel doc w
  = mkRun w [] (Ok (false, false)).
Proof.
  unfold lacks_tags, process_doc.
  by destruct (prop (doc_data doc) "tags") as [| |b|n| |d|s|[|x l]|o].
Qed.

(** The run of the loop body on a document that lacks tags, from that of
    [generateTagsForDoc]. *)
Lemma process_doc_run (openaiKey openaiModel : string) (doc : QueryDoc) (w : World) :
  lacks_tags doc = true →
  process_doc JSON_parse openaiKey openaiModel doc w =
    if title_prints doc then
      match generateTagsForDoc JSON_parse openaiKey openaiModel doc w with
      | mkRun w1 t1 (Ok (Some (tag :: tags))) =>
          mkRun (set_firestore
                   (λ fs, <["news/" +:+ doc_id doc
                            := tags_field (tag :: tags)
                               ∪ default ∅ (fs !! ("news/" +:+ doc_id doc))]> fs)
                   w1)
            (started doc :: t1
             ++ [DocSetMerge ("news/" +:+ doc_id doc) (tags_field (tag :: tags));
                 Log Info ("Updated doc " +:+ doc_id doc +:+ " with tags: "
                           +:+ join ", " (tag :: tags)) JUndefined None])
            (Ok (true, true))
      | mkRun w1 t1 (Ok _) => mkRun w1 (started doc :: t1) (Ok (true, false))
      | mkRun w1 t1 (Throw e) =>
          mkRun w1
            (started doc :: t1
             ++ [Log Err ("Error processing doc " +:+ doc_id doc +:+ ":")
                   JUndefined (Some e)])
            (Ok (true, false))
      end
    else mkRun w [] (Throw TypeError).
Proof.
  intros Hl. unfold lacks_tags in Hl.
  rewrite <- shown_title_stringifies. unfold process_doc, started, ToString.
  change (if truthy (prop (doc_data doc) "title")
          then prop (doc_data doc) "title" else JStr "sem título")
    with (shown_title doc).
  destruct (prop (doc_data doc) "tags") as [| |b|n| |d|s|[|x l]|o];
    try discriminate Hl;
    (destruct (stringifies (shown_title doc)); [|reflexivity]);
    run_tags;
    destruct (generateTagsForDoc JSON_parse openaiKey openaiModel doc w)
      as [w1 t1 [[[|tag tags]|]|e]];
    cbn -[tags_field String_]; rewrite ?app_nil_r; try reflexivity;
    by rewrite <- app_assoc.
Qed.

Lemma started_is_a_log (doc : QueryDoc) :
  is_document_write (started doc) = false
  ∧ is_outbound_http (started doc) = false
  ∧ is_error_log (started doc) = false.
Proof. done. Qed.

(** The writes of the loop body: none, or the one of the tags that
    [generateTagsForDoc] has given. *)
Lemma process_doc_writes (openaiKey openaiModel : string) (doc : QueryDoc) (w : World) :
  let r := process_doc JSON_parse openaiKey openaiModel doc w in
  let g := generateTagsForDoc JSON_parse openaiKey openaiModel doc w in
  filter (λ e, is_document_write e = true) (trace r) = []
  ∨ ∃ tags,
      result g = Ok (Some tags)
      ∧ result r = Ok (true, true)
      ∧ filter (λ e, is_document_write e = true) (trace r)
        = [DocSetMerge ("news/" +:+ doc_id doc) (tags_field tags)].
Proof.
  destruct (generateTagsForDoc_spec openaiKey openaiModel doc w)
    as (_ & Hpure%no_write_filter & _).
  cbn zeta. destruct (lacks_tags doc) eqn:Hl.
  2:{ left. by rewrite (process_doc_skips_tagged _ _ _ _ Hl). }
  rewrite (process_doc_run _ _ _ _ Hl).
  destruct (title_prints doc); [|by left].
  destruct (generateTagsForDoc JSON_parse openaiKey openaiModel doc w)
    as [w1 t1 [[[|tag tags]|]|e]];
    cbn -[tags_field filter] in *;
    rewrite filter_cons_False by done;
    rewrite ?filter_app, Hpure; cbn -[tags_field]; eauto.
Qed.


(** The loop body throws on a document that it takes up and whose title
    does not turn into a string, before any call, and on no other: a
    failure of the completion call is caught and logged. *)
Lemma process_doc_returns (openaiKey openaiModel : string) (doc : QueryDoc) (w : World) :
  (∃ updated : bool,
     result (process_doc JSON_parse openaiKey openaiModel doc w)
     = Ok (lacks_tags doc, updated))
  ∨ (lacks_tags doc = true ∧ title_prints doc = false
     ∧ process_doc JSON_parse openaiKey openaiModel doc w
       = mkRun w [] (Throw TypeError)).
Proof.
  destruct (lacks_tags doc) eqn:Hl.
  2:{ left. exists false. by rewrite (process_doc_skips_tagged _ _ _ _ Hl). }
  rewrite (process_doc_run _ _ _ _ Hl).
  destruct (title_prints doc); [left|by right].
  destruct (generateTagsForDoc JSON_parse openaiKey openaiModel doc w)
    as [w1 t1 [[[|tag tags]|]|e]]; by eexists.
Qed.

Lemma process_doc_write_shape
    (openaiKey openaiModel : string) (doc : QueryDoc) (w : World) (e : Event) :
  e ∈ trace (process_doc JSON_parse openaiKey openaiModel doc w) →
  is_document_write e = true →
  ∃ tags,
    e = DocSetMerge ("news/" +:+ doc_id doc) (tags_field tags)
    ∧ tags ≠ [] ∧ Forall (λ t, t ∈ ALLOWED_TAGS) tags.
Proof.
  intros Hin He.
  assert (Hw : e ∈ filter (λ e, is_document_write e = true)
                     (trace (process_doc JSON_parse openaiKey openaiModel doc w))).
  { by apply list_elem_of_filter. }
  destruct (process_doc_writes openaiKey openaiModel doc w)
    as [Hnone | (tags & Hg & _ & Hone)].
  { rewrite Hnone in Hw. by apply elem_of_nil in Hw. }
  rewrite Hone in Hw. apply list_elem_of_singleton in Hw as ->.
  destruct (generateTagsForDoc_spec openaiKey openaiModel doc w)
    as (_ & _ & Htags).
  destruct (Htags _ Hg) as (Hne & resp & _ & Heq).
  exists tags. split; [done|]. split; [done|].
  rewrite Heq, tags_of_content_values.
  destruct (response_values JSON_parse (answer_text resp)); [|constructor].
  apply Forall_forall. intros t. apply keep_allowed_in_vocabulary.
Qed.

(** The trace of the loop: that of its body on the first document, then,
    unless the body threw, that of the loop on the rest. *)
Lemma main_loop_trace (openaiKey openaiModel : string) (doc : QueryDoc)
    (rest : list QueryDoc) (processed updated : Z) (w : World) (e : Event) :
  e ∈ trace (main_loop JSON_parse openaiKey openaiModel (doc :: rest)
               processed updated w) →
  e ∈ trace (process_doc JSON_parse openaiKey openaiModel doc w)
  ∨ ∃ processed' updated' w',
      e ∈ trace (main_loop JSON_parse openaiKey openaiModel rest
                   processed' updated' w').
Proof.
  cbn [main_loop]. rewrite bind_run.
  destruct (result (process_doc JSON_parse openaiKey openaiModel doc w))
    as [[a b]|err]; cbn [trace]; [|by left].
  intros [Hin|Hin]%elem_of_app; [by left|right; eauto].
Qed.

(** All that a whole run of the script writes is a non-empty [tags]
    field, drawn from the vocabulary, on documents of its snapshot. *)
Lemma main_loop_writes (openaiKey openaiModel : string) (docs : list QueryDoc) :
  ∀ (processed updated : Z) (w : World) (e : Event),
    e ∈ trace (main_loop JSON_parse openaiKey openaiModel docs processed updated w) →
    is_document_write e = true →
    ∃ doc tags,
      doc ∈ docs
      ∧ e = DocSetMerge ("news/" +:+ doc_id doc) (tags_field tags)
      ∧ tags ≠ [] ∧ Forall (λ t, t ∈ ALLOWED_TAGS) tags.
Proof.
  induction docs as [|doc rest IH]; intros processed updated w e.
  - cbn. by intros ?%elem_of_nil.
  - intros [Hin | (p' & u' & w' & Hin)]%main_loop_trace Hw.
    + destruct (process_doc_write_shape _ _ _ _ _ Hin Hw) as (tags & ? & ? & ?).
      exists doc, tags. split; [by left|done].
    + destruct (IH _ _ _ _ Hin Hw) as (doc' & tags & ? & ? & ? & ?).
      exists doc', tags. split; [by right|done].
Qed.

Lemma env_run (name fallback : string) (w : World) :
  ∃ v, TagBackfill.env name fallback w = mkRun w [] (Ok v).
Proof. unfold TagBackfill.env, getenv. run_tags. by eexists. Qed.

Lemma main_writes (snap : list QueryDoc) (w : World) (e : Event) :
  e ∈ trace (main JSON_parse snap w) →
  is_document_write e = true →
  ∃ doc tags,
    doc ∈ snap
    ∧ e = DocSetMerge ("news/" +:+ doc_id doc) (tags_field tags)
    ∧ tags ≠ [] ∧ Forall (λ t, t ∈ ALLOWED_TAGS) tags.
Proof.
  unfold main. rewrite bind_run.
  destruct (env_run "OPENAI_API_KEY" EmptyString w) as [key ->]. cbn [result final trace].
  rewrite bind_run.
  destruct (env_run "OPENAI_MODEL" "gpt-4o-mini" w) as [model ->]. cbn [result final trace].
  destruct snap as [|doc rest].
  { cbn. intros [->|[]%elem_of_nil]%elem_of_cons. done. }
  rewrite bind_run.
  destruct (main_loop JSON_parse key model (doc :: rest) 0 0 w)
    as [w1 t1 [[p u]|err]] eqn:Hloop; cbn.
  - intros [Hin|Hin]%elem_of_app Hw.
    + apply (main_loop_writes key model (doc :: rest) 0 0 w e); [|done].
      by rewrite Hloop.
    + apply list_elem_of_singleton in Hin as ->. done.
  - intros Hin Hw.
    apply (main_loop_writes key model (doc :: rest) 0 0 w e); [|done].
    by rewrite Hloop.
Qed.

End TagBackfillFacts.

(** A fenced answer is unwrapped before it is parsed. *)
Example unfenced_block :
  unfenced ("Here: ```json {x} ``` and more") = "{x}".
Proof. reflexivity. Qed.

Example unfenced_plain : unfenced "{x}" = "{x}".
Proof. reflexivity. Qed.

Example remove_fences_all : remove_fences "```json [1] ```" = "json [1] ".
Proof. reflexivity. Qed.

Example strip_json_label_any_case : strip_json_label "JSON : [1]" = " [1]".
Proof. reflexivity. Qed.

(** The example of the specification: an unlisted tag is dropped. *)
Example keep_allowed_drops_unlisted :
  keep_allowed [JStr "auto"; JStr "vida"; JStr "desporto"] = ["auto"; "vida"].
Proof. reflexivity. Qed.

Example keep_allowed_normalizes :
  keep_allowed [JStr " Auto "; JStr "VIDA"; JNum 7; JNull; JStr "rc profissional"]
  = ["auto"; "vida"].
Proof. reflexivity. Qed.





(** * Further properties *)

(** ** envAny *)

(** X1: [envAny] gives the value of the first name that is set to a
    non-empty string, passing over names that are unset or empty, and the
    fallback when there is none. *)
Theorem envAny_first_set (env : gmap string string) (names : list string)
    (fallback : string) :
  (Forall (env_unset env) names ∧ envAny_in env names fallback = fallback)
  ∨ ∃ (before : list string) (n : string) (after : list string) (v : string),
      names = (before ++ n :: after)%list
      ∧ Forall (env_unset env) before
      ∧ env !! n = Some v ∧ v ≠ EmptyString
      ∧ envAny_in env names fallback = v.
Proof.
  induction names as [|n names IH]; cbn.
  - left. by split.
  - destruct (env !! n) as [v|] eqn:Hn; cbn.
    + destruct (String.eqb v EmptyString) eqn:Hv; cbn.
      * apply String.eqb_eq in Hv as ->.
        destruct IH as [[Hall Heq] | (before & m & after & v & -> & Hall & Hm & Hv & Heq)].
        -- left. split; [|done]. constructor; [|done].
           unfold env_unset. by rewrite Hn.
        -- right. exists (n :: before), m, after, v. repeat split; try done.
           constructor; [|done]. unfold env_unset. by rewrite Hn.
      * apply String.eqb_neq in Hv. right.
        exists [], n, names, v. repeat split; try done.
    + destruct IH as [[Hall Heq] | (before & m & after & v & -> & Hall & Hm & Hv & Heq)].
      * left. split; [|done]. constructor; [|done].
        unfold env_unset. by rewrite Hn.
      * right. exists (n :: before), m, after, v. repeat split; try done.
        constructor; [|done]. unfold env_unset. by rewrite Hn.
Qed.

(** ** htmlEscape *)

Lemma replaceAll_char_app (c : ascii) (replacement a b : string) :
  replaceAll_char c replacement (a +:+ b)
  = replaceAll_char c replacement a +:+ replaceAll_char c replacement b.
Proof.
  induction a as [|x a IH]; [done|]. rewrite append_String. cbn.
  destruct (Ascii.eqb x c).
  - by rewrite IH, append_assoc.
  - by rewrite IH, append_String.
Qed.

Lemma htmlEscape_app (a b : string) :
  htmlEscape (a +:+ b) = htmlEscape a +:+ htmlEscape b.
Proof. unfold htmlEscape. by rewrite !replaceAll_char_app. Qed.

Lemma htmlEscape_char (c : ascii) :
  htmlEscape (String c EmptyString) = escape_char c.
Proof.
  unfold htmlEscape, escape_char. cbn.
  destruct (Ascii.eqb c "&") eqn:Hamp; [reflexivity|].
  cbn. destruct (Ascii.eqb c "<") eqn:Hlt; [reflexivity|].
  cbn. destruct (Ascii.eqb c ">") eqn:Hgt; reflexivity.
Qed.

Lemma escape_char_no_angle (c : ascii) :
  string_forallb (λ x, negb (Ascii.eqb x "<") && negb (Ascii.eqb x ">"))
    (escape_char c) = true.
Proof.
  unfold escape_char.
  destruct (Ascii.eqb c "&"); [reflexivity|].
  destruct (Ascii.eqb c "<") eqn:Hlt; [reflexivity|].
  destruct (Ascii.eqb c ">") eqn:Hgt; [reflexivity|].
  cbn. by rewrite Hlt, Hgt.
Qed.

Lemma htmlEscape_is_escape_each (s : string) : htmlEscape s = escape_each s.
Proof.
  induction s as [|c s IH]; [done|].
  change (String c s) with (String c EmptyString +:+ s).
  rewrite htmlEscape_app, htmlEscape_char. cbn. by rewrite IH.
Qed.

Lemma escape_each_no_angle (s : string) :
  string_forallb (λ x, negb (Ascii.eqb x "<") && negb (Ascii.eqb x ">"))
    (escape_each s) = true.
Proof.
  induction s as [|c s IH]; [done|]. cbn.
  apply string_forallb_app; [apply escape_char_no_angle | exact IH].
Qed.

(** X2: the three passes of [htmlEscape] amount to escaping each
    character of the input once, so that the ampersands the later passes
    bring in are not escaped again; and the result has no angle bracket
    left. *)
Theorem htmlEscape_each_once (s : string) :
  htmlEscape s = escape_each s
  ∧ string_forallb (λ x, negb (Ascii.eqb x "<") && negb (Ascii.eqb x ">"))
      (htmlEscape s) = true.
Proof.
  split; [apply htmlEscape_is_escape_each|].
  rewrite htmlEscape_is_escape_each. apply escape_each_no_angle.
Qed.

Example htmlEscape_sample :
  htmlEscape "a<b>&c &amp;" = "a&lt;b&gt;&amp;c &amp;amp;".
Proof. reflexivity. Qed.

Lemma escape_each_inj (s1 s2 : string) :
  escape_each s1 = escape_each s2 → s1 = s2.
Proof.
  revert s2. induction s1 as [|c1 s1 IH]; intros [|c2 s2]; cbn.
  - done.
  - unfold escape_char.
    destruct (Ascii.eqb c2 "&"); [done|].
    destruct (Ascii.eqb c2 "<"); [done|].
    destruct (Ascii.eqb c2 ">"); done.
  - unfold escape_char.
    destruct (Ascii.eqb c1 "&"); [done|].
    destruct (Ascii.eqb c1 "<"); [done|].
    destruct (Ascii.eqb c1 ">"); done.
  - unfold escape_char.
    destruct (Ascii.eqb c1 "&") eqn:H1a; [apply Ascii.eqb_eq in H1a as ->|];
    [|destruct (Ascii.eqb c1 "<") eqn:H1l; [apply Ascii.eqb_eq in H1l as ->|];
      [|destruct (Ascii.eqb c1 ">") eqn:H1g; [apply Ascii.eqb_eq in H1g as ->|]]];
    (destruct (Ascii.eqb c2 "&") eqn:H2a; [apply Ascii.eqb_eq in H2a as ->|];
     [|destruct (Ascii.eqb c2 "<") eqn:H2l; [apply Ascii.eqb_eq in H2l as ->|];
       [|destruct (Ascii.eqb c2 ">") eqn:H2g; [apply Ascii.eqb_eq in H2g as ->|]]]);
    rewrite ?append_String, ?append_Empty;
    intros Heq; simplify_eq; try (f_equal; by apply IH);
    rewrite ?Ascii.eqb_refl in *; try done.
Qed.

(** X3: [htmlEscape] loses nothing: two strings with the same escaped
    form are the same string. *)
Theorem htmlEscape_injective (s1 s2 : string) :
  htmlEscape s1 = htmlEscape s2 → s1 = s2.
Proof.
  rewrite !htmlEscape_is_escape_each. apply escape_each_inj.
Qed.

Lemma htmlEscape_injective_witness :
  htmlEscape "a<b & c" = htmlEscape "a<b & c" ∧ "a<b & c" = "a<b & c".
Proof.
  assert (H : htmlEscape "a<b & c" = htmlEscape "a<b & c") by reflexivity.
  split; [exact H|]. exact (htmlEscape_injective _ _ H).
Defined.

(** ** setAdminClaim, beyond the claim it sets *)

(** X4: for a uid that the credential store does not know,
    [setAdminClaim] throws what [getUser] threw, after one error log that
    carries the failure; it attempts no write and the world is as it
    was. *)
Theorem setAdminClaim_unknown_user (uid : string) (isAdmin : bool) (w : World) :
  auth_users w !! uid = None →
  let r := setAdminClaim uid isAdmin w in
  result r = Throw (AuthUserNotFound uid)
  ∧ filter (λ e, is_error_log e = true) (trace r)
    = [Log Err "[setAdminClaim] Failed to update claims"
         (obj [("uid", JStr uid); ("isAdmin", JBool isAdmin)])
         (Some (AuthUserNotFound uid))]
  ∧ count is_credential_write (trace r) = 0%nat
  ∧ final r = w.
Proof.
  intros Hu. cbn zeta. rewrite (setAdminClaim_missing _ _ _ Hu). cbn. auto.
Qed.

Lemma setAdminClaim_unknown_user_witness :
  auth_users ana_authorized !! "bruno" = None
  ∧ result (setAdminClaim "bruno" true ana_authorized)
    = Throw (AuthUserNotFound "bruno").
Proof.
  assert (H : auth_users ana_authorized !! "bruno" = None) by reflexivity.
  split; [exact H|].
  exact (proj1 (setAdminClaim_unknown_user "bruno" true ana_authorized H)).
Defined.

(** X5: whatever its arguments and whether it succeeds or not,
    [setAdminClaim] leaves alone the records of all other users, the
    email of the record it writes, every claim of that record but
    [admin], the ID tokens, the documents and the environment. *)
Theorem setAdminClaim_frame (uid : string) (isAdmin : bool) (w : World) :
  let w' := final (setAdminClaim uid isAdmin w) in
  (∀ other : string, other ≠ uid → auth_users w' !! other = auth_users w !! other)
  ∧ email <$> auth_users w' !! uid = email <$> auth_users w !! uid
  ∧ (∀ k : string, k ≠ "admin" → claims_of w' uid !! k = claims_of w uid !! k)
  ∧ id_tokens w' = id_tokens w
  ∧ firestore w' = firestore w
  ∧ process_env w' = process_env w.
Proof.
  cbn zeta. destruct (auth_users w !! uid) as [u|] eqn:Hu.
  - rewrite (setAdminClaim_found _ _ _ _ Hu). cbn -[next_claims].
    rewrite claims_of_written, (claims_of_found _ _ _ Hu).
    split; [|split; [|split]].
    + intros other Hne. destruct w; cbn. by rewrite lookup_insert_ne.
    + destruct w; cbn in *. by rewrite lookup_insert_eq.
    + intros k Hk. by apply next_claims_other.
    + by destruct w.
  - rewrite (setAdminClaim_missing _ _ _ Hu). cbn. rewrite Hu. auto 10.
Qed.

(** X6: a call that succeeds reads the record once and then writes it
    once, even when the claim is already as asked; in that case the claims
    of the record are the same after as before. *)
Theorem setAdminClaim_writes_even_unchanged (uid : string) (isAdmin : bool) (w : World) :
  result (setAdminClaim uid isAdmin w) = Ok tt →
  let r := setAdminClaim uid isAdmin w in
  credential_calls (trace r)
    = [AuthGetUser uid;
       AuthSetCustomUserClaims uid (claims_of (final r) uid)]
  ∧ (claims_of w uid !! "admin"
       = (if isAdmin then Some (JBool true) else None) →
     claims_of (final r) uid = claims_of w uid).
Proof.
  intros Hok. destruct (setAdminClaim_ok _ _ _ Hok) as [u Hu]. cbn zeta.
  rewrite (setAdminClaim_found _ _ _ _ Hu), (claims_of_found _ _ _ Hu).
  cbn -[next_claims]. rewrite claims_of_written. split; [reflexivity|].
  intros Hadmin. unfold next_claims, prop. destruct isAdmin.
  - by apply insert_id.
  - by rewrite Hadmin.
Qed.

Lemma setAdminClaim_writes_even_unchanged_witness :
  result (setAdminClaim "ana" true ana_profile_admin) = Ok tt
  ∧ credential_calls (trace (setAdminClaim "ana" true ana_profile_admin))
    = [AuthGetUser "ana";
       AuthSetCustomUserClaims "ana"
         (claims_of (final (setAdminClaim "ana" true ana_profile_admin)) "ana")].
Proof.
  assert (H : result (setAdminClaim "ana" true ana_profile_admin) = Ok tt)
    by reflexivity.
  split; [exact H|].
  exact (proj1 (setAdminClaim_writes_even_unchanged "ana" true ana_profile_admin H)).
Defined.

(** ** syncAdminClaims, as a whole *)

Lemma handler_always_answers (req : Request) (w : World) :
  ∃ resp : Response,
    result (syncAdminClaims req w) = Ok resp
    ∧ (status resp = 200 ∨ status resp = 401 ∨ status resp = 500)
    ∧ (status resp ≠ 200 → final (syncAdminClaims req w) = w).
Proof.
  destruct (bearer_match (default EmptyString (authorization req)))
    as [token|] eqn:Hm.
  2:{ rewrite (sync_unmatched _ _ Hm). eexists. cbn. eauto. }
  destruct (id_tokens w !! token) as [uid|] eqn:Ht.
  2:{ rewrite (sync_bad_token _ _ _ Hm Ht). eexists. cbn. eauto. }
  destruct (auth_users w !! uid) as [u|] eqn:Hu.
  - rewrite (sync_verified _ _ _ _ _ Hm Ht Hu). eexists. cbn.
    split; [done|]. split; [by left|]. done.
  - destruct (sync_no_record _ _ _ _ Hm Ht Hu) as [Hfinal [p Hp]].
    rewrite Hp, Hfinal. eexists. cbn. eauto.
Qed.

(** X7: the exported [syncAdminClaims] always answers, never throws, and
    its status is 204 for an OPTIONS preflight, which the CORS layer
    answers, and 200, 401 or 500 for any other request, which the handler
    answers; unless the status is 200 the world is as it was. *)
Theorem syncAdminClaims_always_answers (req : Request) (w : World) :
  ∃ resp : Response,
    result (Exports.syncAdminClaims req w) = Ok resp
    ∧ (if Exports.is_preflight req then status resp = 204
       else status resp = 200 ∨ status resp = 401 ∨ status resp = 500)
    ∧ (status resp ≠ 200 → final (Exports.syncAdminClaims req w) = w).
Proof.
  unfold Exports.syncAdminClaims.
  destruct (Exports.is_preflight req) eqn:Hp.
  - rewrite (exported_answers_preflight _ _ _ Hp). eexists. cbn. eauto.
  - rewrite (exported_runs_handler _ _ Hp). apply handler_always_answers.
Qed.

(** X8: a request can change the record of one user only, the one its
    bearer token decodes to: every other record, the ID tokens and the
    documents are after any request as they were before. *)
Theorem syncAdminClaims_touches_own_record_only
    (req : Request) (w : World) (other : string) :
  subject (SyncNow req) w ≠ Some other →
  let w' := final (syncAdminClaims req w) in
  auth_users w' !! other = auth_users w !! other
  ∧ firestore w' = firestore w
  ∧ id_tokens w' = id_tokens w.
Proof.
  cbn. intros Hsub.
  destruct (bearer_match (default EmptyString (authorization req)))
    as [token|] eqn:Hm.
  2:{ by rewrite (sync_unmatched _ _ Hm). }
  cbn in Hsub.
  destruct (id_tokens w !! token) as [uid|] eqn:Ht.
  2:{ by rewrite (sync_bad_token _ _ _ Hm Ht). }
  destruct (auth_users w !! uid) as [u|] eqn:Hu.
  - rewrite (sync_verified _ _ _ _ _ Hm Ht Hu). cbn.
    destruct w; cbn in *. rewrite lookup_insert_ne; [done|]. congruence.
  - destruct (sync_no_record _ _ _ _ Hm Ht Hu) as [-> _]. done.
Qed.

Lemma syncAdminClaims_touches_own_record_only_witness :
  subject (SyncNow (mkRequest "POST" (Some "Bearer ana-token") JUndefined))
    ana_authorized ≠ Some "bruno"
  ∧ auth_users
      (final (syncAdminClaims
                (mkRequest "POST" (Some "Bearer ana-token") JUndefined)
                ana_authorized)) !! "bruno"
    = auth_users ana_authorized !! "bruno".
Proof.
  assert (H : subject (SyncNow (mkRequest "POST" (Some "Bearer ana-token") JUndefined))
                ana_authorized ≠ Some "bruno") by (vm_compute; discriminate).
  split; [exact H|].
  exact (proj1 (syncAdminClaims_touches_own_record_only _ ana_authorized "bruno" H)).
Defined.

(** ** upsertNewsWithAiSummary *)

Ltac run_http :=
  unfold envAny, fetch, docSetMerge, newDocId, logger_info, logger_error in *;
  unfold mbind, M_bind, bind, try_catch, emit, world, modify, ret, throw in *;
  cbn -[list_to_map summary_request openai_url emailjs_url trim choice_content
        envAny_in String_ pretty stringifies].

(** The runs of a POST request that has its three fields. *)
Lemma upsert_valid_run (req : Request) (w : World) :
  method req = "POST" →
  news_fields_given req = true →
  upsertNewsWithAiSummary req w =
    if String.eqb (openai_key w) EmptyString then stored_run req w EmptyString []
    else if negb (summary_prompt_builds req)
    then stored_run req w EmptyString [summary_failed TypeError]
    else
      match remote w openai_url
              (summary_request (openai_model w) (news_field req "title")
                 (news_field req "url")) with
      | None =>
          stored_run req w EmptyString
            [summary_call req w; summary_failed (FetchRejected openai_url)]
      | Some resp =>
          if fok resp
          then stored_run req w
                 (trim (choice_content (default (JObj ∅) (fjson resp))))
                 [summary_call req w]
          else stored_run req w EmptyString
                 [summary_call req w;
                  summary_failed
                    (Error ("OpenAI error: " +:+ pretty (fstatus resp)
                            +:+ " " +:+ fstatusText resp +:+ " "
                            +:+ default EmptyString (ftext resp)))]
      end.
Proof.
  intros Hm Hf. unfold news_fields_given in Hf.
  apply andb_prop in Hf as [[Ht Hu]%andb_prop Hs].
  unfold upsertNewsWithAiSummary. rewrite Hm.
  unfold stored_run, summary_call, summary_failed, news_document_of,
         summary_prompt_builds,
         news_field, news_region, openai_key, openai_model, with_news,
         news_stored, news_document, next_id, news_path in *.
  replace (String.eqb "POST" "POST") with true by reflexivity. cbn [negb].
  rewrite Ht, Hu, Hs. cbn [negb orb].
  unfold ToString. run_http.
  destruct (String.eqb (envAny_in (process_env w) ["OPENAI_API_KEY"] EmptyString)
              EmptyString) eqn:Hkey; cbn -[list_to_map summary_request openai_url
        trim choice_content envAny_in String_ pretty stringifies].
  { reflexivity. }
  destruct (stringifies (get (or_empty_object (body req)) "title"));
    cbn -[list_to_map summary_request openai_url
          trim choice_content envAny_in String_ pretty stringifies];
    [|reflexivity].
  destruct (stringifies (get (or_empty_object (body req)) "url"));
    cbn -[list_to_map summary_request openai_url
          trim choice_content envAny_in String_ pretty stringifies];
    [|reflexivity].
  unfold summary_request.
  destruct (remote w openai_url _) as [resp|]; cbn -[list_to_map openai_url
        trim choice_content envAny_in String_ pretty]; [|reflexivity].
  destruct (fok resp); cbn -[list_to_map openai_url
        trim choice_content envAny_in String_ pretty]; reflexivity.
Qed.

Lemma upsert_missing_field_is_400_run (req : Request) (w : World) :
  method req = "POST" →
  news_fields_given req = false →
  upsertNewsWithAiSummary req w
  = mkRun w []
      (Ok (mkResponse 400 (Json (obj [("error", JStr "Missing title, url or source")])))).
Proof.
  intros Hm Hf. unfold upsertNewsWithAiSummary, news_fields_given, news_field in *.
  rewrite Hm.
  replace (String.eqb "POST" "POST") with true by reflexivity. cbn [negb].
  assert (Hor : negb (truthy (get (or_empty_object (body req)) "title"))
                || negb (truthy (get (or_empty_object (body req)) "url"))
                || negb (truthy (get (or_empty_object (body req)) "source")) = true).
  { destruct (truthy (get _ "title")), (truthy (get _ "url")),
             (truthy (get _ "source")); done. }
  unfold try_catch. rewrite Hor. reflexivity.
Qed.

(** X9: a POST request that lacks one of [title], [url] and [source], or
    has it empty, null or otherwise falsy, is answered 400 before anything
    is called or stored. *)
Theorem upsert_missing_field_is_400 (req : Request) (w : World) :
  method req = "POST" →
  news_fields_given req = false →
  let r := upsertNewsWithAiSummary req w in
  result r = Ok (mkResponse 400 (Json (obj [("error", JStr "Missing title, url or source")])))
  ∧ trace r = []
  ∧ final r = w.
Proof.
  intros Hm Hf. cbn zeta. by rewrite (upsert_missing_field_is_400_run _ _ Hm Hf).
Qed.

Lemma upsert_missing_field_is_400_witness :
  method (mkRequest "POST" None (obj [("title", JStr "X"); ("url", JStr EmptyString)]))
    = "POST"
  ∧ news_fields_given
      (mkRequest "POST" None (obj [("title", JStr "X"); ("url", JStr EmptyString)]))
    = false
  ∧ trace (upsertNewsWithAiSummary
             (mkRequest "POST" None (obj [("title", JStr "X"); ("url", JStr EmptyString)]))
             failing_ai_world) = [].
Proof.
  split; [reflexivity|]. split; [reflexivity|].
  exact (proj1 (proj2
           (upsert_missing_field_is_400
              (mkRequest "POST" None (obj [("title", JStr "X"); ("url", JStr EmptyString)]))
              failing_ai_world eq_refl eq_refl))).
Defined.

(** X10: a failure on the way to the summary does not fail the request.
    When a key is configured and the prompt cannot be built, because the
    title or the url of the body does not turn into a string, or the
    completion call is rejected or answered outside 200-299, a valid POST
    request is still answered 200, with an empty summary, after one error
    log and one write, that of the news document with the empty summary.
    The call is made once when the prompt could be built, and not at all
    when it could not. *)
Theorem upsert_survives_ai_failure (req : Request) (w : World) :
  method req = "POST" →
  news_fields_given req = true →
  openai_key w ≠ EmptyString →
  (summary_prompt_builds req = true →
   match remote w openai_url
           (summary_request (openai_model w) (news_field req "title")
              (news_field req "url")) with
   | Some resp => fok resp = false
   | None => True
   end) →
  let r := upsertNewsWithAiSummary req w in
  result r = Ok (news_stored (next_id w) EmptyString)
  ∧ count is_outbound_http (trace r)
    = (if summary_prompt_builds req then 1 else 0)%nat
  ∧ count is_error_log (trace r) = 1%nat
  ∧ filter (λ e, is_document_write e = true) (trace r)
    = [DocSetMerge (news_path (next_id w)) (news_document_of req w EmptyString)].
Proof.
  intros Hm Hf Hkey Hfail. cbn zeta. rewrite (upsert_valid_run _ _ Hm Hf).
  apply String.eqb_neq in Hkey. rewrite Hkey.
  destruct (summary_prompt_builds req); cbn [negb].
  2:{ repeat split; reflexivity. }
  specialize (Hfail eq_refl).
  destruct (remote w openai_url _) as [resp|].
  - rewrite Hfail. repeat split; reflexivity.
  - repeat split; reflexivity.
Qed.

Lemma upsert_survives_ai_failure_witness :
  method news_request = "POST"
  ∧ news_fields_given news_request = true
  ∧ openai_key failing_ai_world ≠ EmptyString
  ∧ result (upsertNewsWithAiSummary news_request failing_ai_world)
    = Ok (news_stored "doc-0" EmptyString)
  ∧ news_fields_given odd_title_request = true
  ∧ summary_prompt_builds odd_title_request = false
  ∧ result (upsertNewsWithAiSummary odd_title_request failing_ai_world)
    = Ok (news_stored "doc-0" EmptyString)
  ∧ count is_outbound_http
      (trace (upsertNewsWithAiSummary odd_title_request failing_ai_world))
    = 0%nat.
Proof.
  assert (Hk : openai_key failing_ai_world ≠ EmptyString)
    by (vm_compute; discriminate).
  assert (Hodd : summary_prompt_builds odd_title_request = true →
                 match remote failing_ai_world openai_url
                         (summary_request (openai_model failing_ai_world)
                            (news_field odd_title_request "title")
                            (news_field odd_title_request "url")) with
                 | Some resp => fok resp = false
                 | None => True
                 end) by (intros _; reflexivity).
  split; [reflexivity|]. split; [reflexivity|]. split; [exact Hk|].
  split; [exact (proj1 (upsert_survives_ai_failure news_request failing_ai_world
                          eq_refl eq_refl Hk (λ _, eq_refl)))|].
  split; [reflexivity|]. split; [reflexivity|].
  destruct (upsert_survives_ai_failure odd_title_request failing_ai_world
              eq_refl eq_refl Hk Hodd) as (H1 & H2 & _).
  split; [exact H1 | exact H2].
Defined.

(** X11: with no completion key configured, set or left empty, a valid
    POST request makes no outbound call at all: the item is stored with
    an empty summary and answered 200. *)
Theorem upsert_without_key_calls_nothing (req : Request) (w : World) :
  method req = "POST" →
  news_fields_given req = true →
  openai_key w = EmptyString →
  let r := upsertNewsWithAiSummary req w in
  result r = Ok (news_stored (next_id w) EmptyString)
  ∧ trace r
    = [DocSetMerge (news_path (next_id w)) (news_document_of req w EmptyString)]
  ∧ count is_outbound_http (trace r) = 0%nat.
Proof.
  intros Hm Hf Hkey. cbn zeta. rewrite (upsert_valid_run _ _ Hm Hf).
  rewrite Hkey. repeat split; reflexivity.
Qed.

Lemma upsert_without_key_calls_nothing_witness :
  method news_request = "POST"
  ∧ news_fields_given news_request = true
  ∧ openai_key ana_authorized = EmptyString
  ∧ count is_outbound_http
      (trace (upsertNewsWithAiSummary news_request ana_authorized)) = 0%nat.
Proof.
  split; [reflexivity|]. split; [reflexivity|]. split; [reflexivity|].
  exact (proj2 (proj2 (upsert_without_key_calls_nothing news_request ana_authorized
                         eq_refl eq_refl eq_refl))).
Defined.

(** X12: what is answered is what is stored.  Whenever a POST request is
    answered 200, the answer carries an identifier and a summary, there
    has been one write, to the news document of that identifier, and the
    document written has that summary, the title, url and source of the
    request, its region or [nacional] when it gives none, and the time
    of the call; the identifier is the fresh one of the store. *)
Theorem upsert_answers_what_it_stores (req : Request) (w : World) (resp : Response) :
  method req = "POST" →
  result (upsertNewsWithAiSummary req w) = Ok resp →
  status resp = 200 →
  ∃ summary : string,
    resp = news_stored (next_id w) summary
    ∧ filter (λ e, is_document_write e = true)
        (trace (upsertNewsWithAiSummary req w))
      = [DocSetMerge (news_path (next_id w)) (news_document_of req w summary)]
    ∧ final (upsertNewsWithAiSummary req w)
      = with_news w (news_document_of req w summary).
Proof.
  intros Hm Hres Hst.
  destruct (news_fields_given req) eqn:Hf.
  2:{ rewrite (upsert_missing_field_is_400_run req w Hm Hf) in Hres.
      injection Hres as <-. discriminate Hst. }
  rewrite (upsert_valid_run _ _ Hm Hf) in Hres |- *.
  destruct (String.eqb (openai_key w) EmptyString).
  { injection Hres as <-. eexists. repeat split; reflexivity. }
  destruct (negb (summary_prompt_builds req)).
  { injection Hres as <-. eexists. repeat split; reflexivity. }
  destruct (remote w openai_url _) as [r|].
  2:{ injection Hres as <-. eexists. repeat split; reflexivity. }
  destruct (fok r); injection Hres as <-; eexists; repeat split; reflexivity.
Qed.

Lemma upsert_answers_what_it_stores_witness :
  method news_request = "POST"
  ∧ result (upsertNewsWithAiSummary news_request ana_authorized)
    = Ok (news_stored "doc-0" EmptyString)
  ∧ status (news_stored "doc-0" EmptyString) = 200
  ∧ ∃ summary : string,
      news_stored "doc-0" EmptyString = news_stored (next_id ana_authorized) summary.
Proof.
  split; [reflexivity|]. split; [reflexivity|]. split; [reflexivity|].
  destruct (upsert_answers_what_it_stores news_request ana_authorized
              (news_stored "doc-0" EmptyString) eq_refl eq_refl eq_refl)
    as (summary & H & _).
  exists summary. exact H.
Defined.

(** ** sendContactEmail *)

Lemma contact_invalid_run (req : Request) (w : World) :
  method req = "POST" →
  contact_fields_given req = false →
  sendContactEmail req w
  = mkRun w [] (Ok (mkResponse 400 (Json (obj [("error", JStr "Missing required fields")])))).
Proof.
  intros Hm Hf. unfold sendContactEmail, contact_fields_given, contact_field in *.
  rewrite Hm.
  replace (String.eqb "POST" "POST") with true by reflexivity. cbn [negb].
  assert (Hor : negb (truthy (get (or_empty_object (body req)) "service_id"))
                || negb (truthy (get (or_empty_object (body req)) "template_id"))
                || negb (truthy (get (or_empty_object (body req)) "user_id"))
                || negb (truthy (get (or_empty_object (body req)) "template_params"))
                || negb (typeof_object (get (or_empty_object (body req)) "template_params"))
                = true).
  { destruct (truthy (get _ "service_id")), (truthy (get _ "template_id")),
             (truthy (get _ "user_id")), (truthy (get _ "template_params")),
             (typeof_object (get _ "template_params")); done. }
  unfold try_catch. rewrite Hor. reflexivity.
Qed.

Lemma contact_valid_run (req : Request) (w : World) :
  method req = "POST" →
  contact_fields_given req = true →
  let call := HttpFetch emailjs_url None (contact_body req) in
  sendContactEmail req w =
    match remote w emailjs_url (contact_body req) with
    | None =>
        mkRun w
          [call;
           Log Err "[sendContactEmail] Unexpected error" JUndefined
             (Some (FetchRejected emailjs_url))]
          (Ok (mkResponse 500 (Json (obj [("error", JStr "Internal Server Error")]))))
    | Some r =>
        let txt := default EmptyString (ftext r) in
        if fok r
        then mkRun w [call] (Ok (mkResponse 200 (Json (obj [("ok", JBool true)]))))
        else mkRun w
               [call;
                Log Err "[sendContactEmail] EmailJS error"
                  (obj [("status", JNum (fstatus r));
                        ("statusText", JStr (fstatusText r));
                        ("body", JStr txt)]) None]
               (Ok (mkResponse (fstatus r)
                      (Send (if negb (String.eqb txt EmptyString) then txt
                             else fstatusText r))))
    end.
Proof.
  intros Hm Hf. unfold contact_fields_given in Hf.
  apply andb_prop in Hf as [[[[H1 H2]%andb_prop H3]%andb_prop H4]%andb_prop H5].
  unfold sendContactEmail, contact_body, contact_field in *. rewrite Hm.
  replace (String.eqb "POST" "POST") with true by reflexivity. cbn [negb].
  rewrite H1, H2, H3, H4, H5. cbn [negb orb].
  run_http.
  destruct (remote w emailjs_url _) as [r|]; cbn -[emailjs_url]; [|reflexivity].
  destruct (fok r); cbn -[emailjs_url]; reflexivity.
Qed.

(** X13: a POST contact form that lacks one of [service_id],
    [template_id], [user_id] and [template_params], or whose
    [template_params] is not an object, is answered 400 and nothing goes
    out to the mail service. *)
Theorem contact_missing_field_is_400 (req : Request) (w : World) :
  method req = "POST" →
  contact_fields_given req = false →
  let r := sendContactEmail req w in
  result r = Ok (mkResponse 400 (Json (obj [("error", JStr "Missing required fields")])))
  ∧ count is_outbound_http (trace r) = 0%nat
  ∧ trace r = [].
Proof.
  intros Hm Hf. cbn zeta. by rewrite (contact_invalid_run _ _ Hm Hf).
Qed.

Lemma contact_missing_field_is_400_witness :
  method contact_text_params = "POST"
  ∧ contact_fields_given contact_text_params = false
  ∧ trace (sendContactEmail contact_text_params refusing_mail_world) = [].
Proof.
  split; [reflexivity|]. split; [reflexivity|].
  exact (proj2 (proj2 (contact_missing_field_is_400 contact_text_params
                         refusing_mail_world eq_refl eq_refl))).
Defined.

(** X14: a valid POST contact form makes one call, to the mail service,
    with the four fields and nothing else of the body.  An answer of the
    service in 200-299 becomes 200 with [{ ok: true }]; any other answer
    is relayed with its own status and its text, or its status text when
    the text is empty or cannot be read; a call that is rejected becomes
    500. *)
Theorem contact_relays_upstream (req : Request) (w : World) :
  method req = "POST" →
  contact_fields_given req = true →
  let r := sendContactEmail req w in
  filter (λ e, is_outbound_http e = true) (trace r)
    = [HttpFetch emailjs_url None (contact_body req)]
  ∧ result r
    = Ok match remote w emailjs_url (contact_body req) with
         | None => mkResponse 500 (Json (obj [("error", JStr "Internal Server Error")]))
         | Some up =>
             if fok up then mkResponse 200 (Json (obj [("ok", JBool true)]))
             else mkResponse (fstatus up)
                    (Send match ftext up with
                          | Some (String c txt) => String c txt
                          | _ => fstatusText up
                          end)
         end.
Proof.
  intros Hm Hf. cbn zeta. rewrite (contact_valid_run _ _ Hm Hf). cbn zeta.
  destruct (remote w emailjs_url _) as [up|]; [|by split].
  destruct (fok up); [by split|]. split; [done|].
  cbn. by destruct (ftext up) as [[|c txt]|].
Qed.

Lemma contact_relays_upstream_witness :
  method contact_request = "POST"
  ∧ contact_fields_given contact_request = true
  ∧ result (sendContactEmail contact_request refusing_mail_world)
    = Ok (mkResponse 412 (Send "domain not allowed"))
  ∧ filter (λ e, is_outbound_http e = true)
      (trace (sendContactEmail contact_request refusing_mail_world))
    = [HttpFetch emailjs_url None
         (obj [("service_id", JStr "s"); ("template_id", JStr "t");
               ("user_id", JStr "u");
               ("template_params", obj [("message", JStr "hello")])])].
Proof.
  split; [reflexivity|]. split; [reflexivity|].
  destruct (contact_relays_upstream contact_request refusing_mail_world
              eq_refl eq_refl) as [Hcall Hres].
  split; [exact Hres | exact Hcall].
Defined.

(** X15: the contact proxy keeps no state: whatever the request, the
    world is after it as before, and the trace has no call to the
    credential store or to the document store. *)
Theorem contact_keeps_no_state (req : Request) (w : World) :
  let r := sendContactEmail req w in
  final r = w
  ∧ Forall (λ e, is_credential_read e || is_credential_write e
                 || is_token_verification e || is_document_read e
                 || is_document_write e = false) (trace r).
Proof.
  cbn zeta. destruct (String.eqb (method req) "POST") eqn:Hm.
  2:{ unfold sendContactEmail. rewrite Hm. cbn. by split. }
  apply String.eqb_eq in Hm.
  destruct (contact_fields_given req) eqn:Hf.
  2:{ rewrite (contact_invalid_run _ _ Hm Hf). by split. }
  rewrite (contact_valid_run _ _ Hm Hf). cbn zeta.
  destruct (remote w emailjs_url _) as [up|].
  - destruct (fok up); cbn; split; by repeat constructor.
  - cbn. split; by repeat constructor.
Qed.

(** ** The cleaning of the model's answer *)

Lemma remove_fences_fence (r : string) :
  remove_fences (fence +:+ r) = remove_fences r.
Proof. reflexivity. Qed.

Lemma starts_with_cons (a b : ascii) (p s : string) :
  starts_with (String a p) (String b s) = Ascii.eqb a b && starts_with p s.
Proof. reflexivity. Qed.

Lemma remove_fences_not_backtick (c : ascii) (r : string) :
  Ascii.eqb "`" c = false →
  remove_fences (String c r) = String c (remove_fences r).
Proof.
  destruct c as [[] [] [] [] [] [] [] []]; intros H; try reflexivity;
    discriminate H.
Qed.

Lemma remove_fences_other (c : ascii) (r : string) :
  starts_with fence (String c r) = false →
  remove_fences (String c r) = String c (remove_fences r).
Proof.
  unfold fence. rewrite starts_with_cons.
  destruct (Ascii.eqb "`" c) eqn:Hc; [|intros _; by apply remove_fences_not_backtick].
  apply Ascii.eqb_eq in Hc as <-. cbn [andb].
  destruct r as [|d r]; [reflexivity|]. rewrite starts_with_cons.
  destruct (Ascii.eqb "`" d) eqn:Hd.
  2:{ intros _. destruct d as [[] [] [] [] [] [] [] []]; try reflexivity;
        discriminate Hd. }
  apply Ascii.eqb_eq in Hd as <-. cbn [andb].
  destruct r as [|e r]; [reflexivity|]. rewrite starts_with_cons.
  destruct (Ascii.eqb "`" e) eqn:He; [discriminate|].
  intros _. destruct e as [[] [] [] [] [] [] [] []]; try reflexivity;
    discriminate He.
Qed.

Lemma starts_with_fence_split (s : string) :
  starts_with fence s = true → s = fence +:+ string_drop 3 s.
Proof.
  unfold fence.
  destruct s as [|a [|b [|c s]]]; cbn [starts_with];
    rewrite ?andb_false_r; try done.
  intros [Ha [Hb [Hc _]%andb_prop]%andb_prop]%andb_prop.
  apply Ascii.eqb_eq in Ha as <-. apply Ascii.eqb_eq in Hb as <-.
  apply Ascii.eqb_eq in Hc as <-. reflexivity.
Qed.

(** Induction along the way [remove_fences] reads a string. *)
Lemma fence_ind (P : string → Prop) :
  P EmptyString →
  (∀ r, P r → P (fence +:+ r)) →
  (∀ c r, starts_with fence (String c r) = false → P r → P (String c r)) →
  ∀ s, P s.
Proof.
  intros Hnil Hfence Hother s.
  assert (H : ∀ n s, (String.length s ≤ n)%nat → P s).
  { clear s. induction n as [|n IH]; intros [|c r] Hlen; cbn in Hlen;
      try done; try lia.
    destruct (starts_with fence (String c r)) eqn:Hs.
    - rewrite (starts_with_fence_split _ Hs). apply Hfence, IH.
      destruct r as [|b [|d r]]; cbn in *; try lia;
        rewrite ?andb_false_r in Hs; done.
    - apply Hother; [done|]. apply IH. lia. }
  by apply (H (String.length s)).
Qed.

Lemma remove_fences_leading_backtick (t : string) :
  starts_with "`" (remove_fences t) = true → starts_with "`" t = true.
Proof.
  destruct t as [|c r]; [done|].
  destruct (starts_with fence (String c r)) eqn:Hs.
  - intros _. unfold fence in Hs. rewrite starts_with_cons in Hs |- *.
    apply andb_prop in Hs as [-> _]. done.
  - rewrite (remove_fences_other _ _ Hs), !starts_with_cons.
    by intros [-> _]%andb_prop.
Qed.

Lemma remove_fences_leading_two (t : string) :
  starts_with "``" (remove_fences t) = true → starts_with "``" t = true.
Proof.
  destruct t as [|c r]; [done|].
  destruct (starts_with fence (String c r)) eqn:Hs.
  - intros _. unfold fence in Hs.
    destruct r as [|d r]; [by rewrite starts_with_cons, andb_false_r in Hs|].
    rewrite !starts_with_cons in Hs |- *.
    apply andb_prop in Hs as [-> [-> _]%andb_prop]. done.
  - rewrite (remove_fences_other _ _ Hs), !starts_with_cons.
    intros [-> Hr]%andb_prop. cbn [andb].
    by apply remove_fences_leading_backtick.
Qed.

Lemma remove_fences_keeps_no_fence (c : ascii) (r : string) :
  starts_with fence (String c r) = false →
  starts_with fence (String c (remove_fences r)) = false.
Proof.
  intros Hs. destruct (starts_with fence (String c (remove_fences r))) eqn:Hs'; [|done].
  unfold fence in *. rewrite starts_with_cons in Hs, Hs'.
  apply andb_prop in Hs' as [Hc Hr]. rewrite Hc in Hs. cbn [andb] in Hs.
  apply remove_fences_leading_two in Hr. congruence.
Qed.

(** X16: [remove_fences] leaves no fence behind, so that in the fallback
    cleaning the second global replacement of fences finds nothing to
    replace. *)
Theorem remove_fences_once_is_enough (s : string) :
  split_at_first fence (remove_fences s) = None
  ∧ remove_fences (remove_fences s) = remove_fences s.
Proof.
  induction s as [| r IH | c r Hs IH] using fence_ind.
  - by split.
  - by rewrite remove_fences_fence.
  - rewrite (remove_fences_other _ _ Hs).
    pose proof (remove_fences_keeps_no_fence _ _ Hs) as Hs'.
    destruct IH as [IH1 IH2]. split.
    + cbn [split_at_first]. rewrite Hs', IH1. reflexivity.
    + rewrite (remove_fences_other _ _ Hs'). by rewrite IH2.
Qed.

Lemma split_at_first_cons (p : string) (c : ascii) (r : string) :
  split_at_first p (String c r) =
    if starts_with p (String c r)
    then Some (EmptyString, string_drop (String.length p) (String c r))
    else match split_at_first p r with
         | Some (before, after) => Some (String c before, after)
         | None => None
         end.
Proof. reflexivity. Qed.

Lemma split_at_first_fence (a b : string) :
  no_backtick a = true →
  split_at_first fence (a +:+ fence +:+ b) = Some (a, b).
Proof.
  unfold no_backtick. induction a as [|c a IH]; [done|].
  cbn [string_forallb]. intros [Hc Ha]%andb_prop.
  rewrite append_String, split_at_first_cons.
  unfold fence at 1. rewrite starts_with_cons.
  apply negb_true_iff in Hc. rewrite Ascii.eqb_sym, Hc. cbn [andb].
  by rewrite (IH Ha).
Qed.

Lemma letters_no_backtick (s : string) :
  string_forallb is_letter s = true → no_backtick s = true.
Proof.
  unfold no_backtick. induction s as [|c s IH]; [done|]. cbn [string_forallb].
  intros [Hc Hs]%andb_prop. rewrite (IH Hs), andb_true_r.
  destruct (Ascii.eqb c "`") eqn:Hb; [|done].
  apply Ascii.eqb_eq in Hb as ->. discriminate Hc.
Qed.

Lemma drop_letters_app (lang rest : string) :
  string_forallb is_letter lang = true →
  no_leading_letter rest = true →
  drop_letters (lang +:+ rest) = rest.
Proof.
  intros Hl Hr. induction lang as [|c lang IH].
  - rewrite append_Empty. destruct rest as [|c r]; [done|].
    cbn in Hr |- *. apply negb_true_iff in Hr. by rewrite Hr.
  - cbn [string_forallb] in Hl. apply andb_prop in Hl as [Hc Hl].
    rewrite append_String. cbn [drop_letters]. rewrite Hc. by apply IH.
Qed.

Lemma trimStart_before_fence (a b : string) :
  trimStart (a +:+ fence +:+ b) = trimStart a +:+ fence +:+ b.
Proof.
  induction a as [|c a IH]; [done|]. rewrite append_String. cbn [trimStart].
  destruct (is_space c); [exact IH|]. by rewrite append_String.
Qed.

Lemma strip_close_fence_cons (c : ascii) (r : string) :
  strip_close_fence (String c r) =
    if starts_with fence (String c r)
       && string_forallb is_space (string_drop 3 (String c r))
    then EmptyString
    else String c (strip_close_fence r).
Proof. reflexivity. Qed.

Lemma strip_close_fence_end (z : string) :
  no_backtick z = true → strip_close_fence (z +:+ fence) = z.
Proof.
  unfold no_backtick. induction z as [|c z IH]; [done|].
  cbn [string_forallb]. intros [Hc Hz]%andb_prop.
  rewrite append_String, strip_close_fence_cons.
  unfold fence at 1. rewrite starts_with_cons.
  apply negb_true_iff in Hc. rewrite Ascii.eqb_sym, Hc. cbn [andb].
  by rewrite (IH Hz).
Qed.

(** X17: a fenced block is unwrapped to what it holds.  When the answer
    has a fence, a language tag of letters, a body without backticks that
    does not begin with a letter, and a closing fence, with no backtick
    before the block and anything after it, [unfenced] gives the body,
    trimmed. *)
Theorem unfenced_block_body (before lang inner after : string) :
  no_backtick before = true →
  string_forallb is_letter lang = true →
  no_backtick inner = true →
  no_leading_letter inner = true →
  unfenced (before +:+ fence +:+ lang +:+ inner +:+ fence +:+ after) = trim inner.
Proof.
  intros Hb Hl Hi Hn. unfold unfenced, fence_match.
  rewrite (split_at_first_fence _ _ Hb).
  rewrite <- append_assoc.
  assert (Hli : no_backtick (lang +:+ inner) = true).
  { unfold no_backtick. apply string_forallb_app; [|exact Hi].
    by apply letters_no_backtick. }
  rewrite (split_at_first_fence _ _ Hli).
  unfold strip_open_fence.
  replace (starts_with fence (fence +:+ (lang +:+ inner) +:+ fence)) with true
    by reflexivity.
  replace (string_drop 3 (fence +:+ (lang +:+ inner) +:+ fence))
    with ((lang +:+ inner) +:+ fence) by reflexivity.
  rewrite append_assoc, drop_letters_app; [|exact Hl|].
  2:{ destruct inner as [|c r]; [reflexivity|]. exact Hn. }
  rewrite <- (append_Empty fence) at 1.
  replace (inner +:+ EmptyString +:+ fence) with (inner +:+ fence +:+ EmptyString).
  2:{ clear. induction inner as [|c r IH]; [reflexivity|].
      by rewrite !append_String, IH. }
  rewrite trimStart_before_fence.
  replace (trimStart inner +:+ fence +:+ EmptyString) with (trimStart inner +:+ fence).
  2:{ generalize (trimStart inner). clear. intros s.
      induction s as [|c r IH]; [reflexivity|]. by rewrite !append_String, IH. }
  rewrite strip_close_fence_end.
  - unfold trim. by rewrite trimStart_idemp.
  - unfold no_backtick in *. by apply trimStart_forallb.
Qed.

Lemma unfenced_block_body_witness :
  no_backtick "Aqui tens: " = true
  ∧ string_forallb is_letter "json" = true
  ∧ unfenced fenced_sample = "{x}".
Proof.
  split; [reflexivity|]. split; [reflexivity|].
  exact (unfenced_block_body "Aqui tens: " "json"
           (String (Ascii.ascii_of_N 10) EmptyString +:+ "{x}"
            +:+ String (Ascii.ascii_of_N 10) EmptyString)
           " e mais nada." eq_refl eq_refl eq_refl eq_refl).
Defined.

(** ** The vocabulary and the loop of the backfill *)

Lemma vocabulary_normal :
  Forall (λ t, normalize (JStr t) = t ∧ allowed t = true) ALLOWED_TAGS.
Proof. repeat constructor. Qed.

(** X18: the vocabulary is in the form that the filter compares with: an
    answer made of vocabulary tags only is kept whole, in its order and
    with its repetitions. *)
Theorem keep_allowed_vocabulary_tags (tags : list string) :
  Forall (λ t, t ∈ ALLOWED_TAGS) tags →
  keep_allowed (JStr <$> tags) = tags.
Proof.
  intros Hall. induction Hall as [|t tags Ht _ IH]; [done|].
  pose proof vocabulary_normal as Hv. rewrite Forall_forall in Hv.
  destruct (Hv _ Ht) as [Hn Ha].
  unfold keep_allowed in *. cbn [fmap list_fmap List.map List.filter].
  rewrite Hn, Ha. by rewrite IH.
Qed.

Lemma keep_allowed_vocabulary_tags_witness :
  Forall (λ t, t ∈ ALLOWED_TAGS) ["vida"; "auto"; "vida"]
  ∧ keep_allowed (JStr <$> ["vida"; "auto"; "vida"]) = ["vida"; "auto"; "vida"].
Proof.
  assert (H : Forall (λ t, t ∈ ALLOWED_TAGS) ["vida"; "auto"; "vida"]).
  { repeat constructor; by apply bool_decide_unpack. }
  split; [exact H|]. exact (keep_allowed_vocabulary_tags _ H).
Defined.

Lemma count_cons_false (p : Event → bool) (e : Event) (t : list Event) :
  p e = false → count p (e :: t) = count p t.
Proof. intros He. unfold count. rewrite filter_cons_False; [done|]. by rewrite He. Qed.

Lemma count_cons_true (p : Event → bool) (e : Event) (t : list Event) :
  p e = true → count p (e :: t) = S (count p t).
Proof. intros He. unfold count. by rewrite filter_cons_True. Qed.

Lemma count_app (p : Event → bool) (t1 t2 : list Event) :
  count p (t1 ++ t2) = (count p t1 + count p t2)%nat.
Proof. unfold count. by rewrite filter_app, length_app. Qed.

Section BackfillRuns.

Variable JSON_parse : string → option jsval.

(** A falsy value is a primitive value, and turns into a string. *)
Lemma falsy_stringifies (v : jsval) : truthy v = false → stringifies v = true.
Proof. by destruct v. Qed.

(** The runs of [generateTagsForDoc] that end without tags. *)
Lemma generateTagsForDoc_blank (openaiKey model : string) (doc : QueryDoc) (w : World) :
  truthy (prop (doc_data doc) "title") = false →
  truthy (prop (doc_data doc) "summary") = false →
  generateTagsForDoc JSON_parse openaiKey model doc w
  = mkRun w
      [Log Warn ("Skipping doc " +:+ doc_id doc
                 +:+ " because it has no title/summary") JUndefined None]
      (Ok None).
Proof.
  intros Ht Hs. unfold generateTagsForDoc, or_empty_string. rewrite Ht, Hs.
  reflexivity.
Qed.

(** When the completion call fails, or cannot be made because the prompt
    cannot be built, [generateTagsForDoc] throws, having logged no error
    and written nothing. *)
Lemma generateTagsForDoc_failure (openaiKey model : string) (doc : QueryDoc) (w : World) :
  truthy (prop (doc_data doc) "title") || truthy (prop (doc_data doc) "summary")
    = true →
  (prompt_builds doc = true →
   match remote w openai_url (tags_request_of model doc) with
   | Some resp => fok resp = false
   | None => True
   end) →
  ∃ e t, generateTagsForDoc JSON_parse openaiKey model doc w = mkRun w t (Throw e)
         ∧ count is_error_log t = 0%nat
         ∧ count is_document_write t = 0%nat.
Proof.
  intros Hts Hfail. rewrite generateTagsForDoc_run.
  assert (Hg : negb (truthy (or_empty_string (prop (doc_data doc) "title")))
               && negb (truthy (or_empty_string (prop (doc_data doc) "summary")))
               = false).
  { unfold or_empty_string.
    destruct (truthy (prop (doc_data doc) "title")) eqn:Ht; [by rewrite Ht|].
    destruct (truthy (prop (doc_data doc) "summary")) eqn:Hs; [|done].
    rewrite Hs. by rewrite andb_false_r. }
  rewrite Hg.
  destruct (prompt_builds doc); cbn [negb]; [|by eexists _, _]. cbn zeta.
  specialize (Hfail eq_refl).
  destruct (remote w openai_url _) as [resp|].
  - rewrite Hfail. cbn [negb]. by eexists _, _.
  - by eexists _, _.
Qed.

(** X20: a document with neither title nor summary is not sent to the
    model: the loop body logs a warning, calls nothing, writes nothing,
    and counts the document as processed but not updated. *)
Theorem process_doc_blank_is_not_sent (openaiKey openaiModel : string)
    (doc : QueryDoc) (w : World) :
  lacks_tags doc = true →
  truthy (prop (doc_data doc) "title") = false →
  truthy (prop (doc_data doc) "summary") = false →
  let r := process_doc JSON_parse openaiKey openaiModel doc w in
  result r = Ok (true, false)
  ∧ count is_outbound_http (trace r) = 0%nat
  ∧ count is_document_write (trace r) = 0%nat
  ∧ final r = w.
Proof.
  intros Hl Ht Hs. cbn zeta.
  rewrite (process_doc_run JSON_parse openaiKey openaiModel doc w Hl).
  unfold title_prints. rewrite (falsy_stringifies _ Ht).
  rewrite (generateTagsForDoc_blank _ _ _ _ Ht Hs). cbn [result trace final].
  rewrite !(count_cons_false _ (started doc)) by done. done.
Qed.

(** X21: a failure of the completion call is not fatal to the batch.
    For a document whose title turns into a string, so that the line
    which announces it is printed, when the call is rejected, or answered
    outside 200-299, or cannot be made because the summary or the region
    does not turn into a string, the loop body does not throw: it logs
    the error, writes nothing, leaves the world as it was, and counts the
    document as processed but not updated. *)
Theorem process_doc_survives_ai_failure (openaiKey openaiModel : string)
    (doc : QueryDoc) (w : World) :
  lacks_tags doc = true →
  title_prints doc = true →
  truthy (prop (doc_data doc) "title") || truthy (prop (doc_data doc) "summary")
    = true →
  (prompt_builds doc = true →
   match remote w openai_url (tags_request_of openaiModel doc) with
   | Some resp => fok resp = false
   | None => True
   end) →
  let r := process_doc JSON_parse openaiKey openaiModel doc w in
  result r = Ok (true, false)
  ∧ count is_error_log (trace r) = 1%nat
  ∧ count is_document_write (trace r) = 0%nat
  ∧ final r = w.
Proof.
  intros Hl Hp Hts Hfail. cbn zeta.
  rewrite (process_doc_run JSON_parse openaiKey openaiModel doc w Hl), Hp.
  destruct (generateTagsForDoc_failure openaiKey openaiModel doc w Hts Hfail)
    as (e & t & -> & Herr & Hwr).
  cbn [result trace final].
  rewrite !(count_cons_false _ (started doc)) by done.
  rewrite !count_app, Herr, Hwr. done.
Qed.

(** Where the title does not turn into a string the loop body throws
    before anything is called or written. *)
Lemma process_doc_title_throws (openaiKey openaiModel : string)
    (doc : QueryDoc) (w : World) :
  lacks_tags doc = true →
  title_prints doc = false →
  process_doc JSON_parse openaiKey openaiModel doc w
  = mkRun w [] (Throw TypeError).
Proof.
  intros Hl Hp.
  by rewrite (process_doc_run JSON_parse openaiKey openaiModel doc w Hl), Hp.
Qed.

End BackfillRuns.

Section BackfillWhole.

Variable JSON_parse : string → option jsval.

(** What the loop body reports, and what it has written by then; it
    throws only on a title that does not turn into a string, and then it
    has done nothing. *)
Lemma process_doc_flags (openaiKey openaiModel : string) (doc : QueryDoc) (w : World) :
  (∃ updated : bool,
     result (process_doc JSON_parse openaiKey openaiModel doc w)
       = Ok (lacks_tags doc, updated)
     ∧ count is_document_write
         (trace (process_doc JSON_parse openaiKey openaiModel doc w))
       = (if updated then 1 else 0)%nat
     ∧ (updated = true → lacks_tags doc = true))
  ∨ (lacks_tags doc = true ∧ title_prints doc = false
     ∧ process_doc JSON_parse openaiKey openaiModel doc w
       = mkRun w [] (Throw TypeError)).
Proof.
  destruct (lacks_tags doc) eqn:Hl.
  2:{ left. exists false.
      by rewrite (process_doc_skips_tagged JSON_parse _ _ _ _ Hl). }
  destruct (title_prints doc) eqn:Hp.
  2:{ right. by rewrite (process_doc_title_throws JSON_parse _ _ _ _ Hl Hp). }
  left. rewrite (process_doc_run JSON_parse openaiKey openaiModel doc w Hl), Hp.
  destruct (generateTagsForDoc_spec JSON_parse openaiKey openaiModel doc w)
    as (_ & Hpure%no_write_filter & _).
  assert (Hzero : ∀ t, filter (λ e, is_document_write e = true) t = [] →
                       count is_document_write t = 0%nat).
  { intros t Ht. unfold count. by rewrite Ht. }
  destruct (generateTagsForDoc JSON_parse openaiKey openaiModel doc w)
    as [w1 t1 [[[|tag tags]|]|e]]; cbn [trace] in Hpure; cbn [result trace].
  - exists false. rewrite count_cons_false, (Hzero _ Hpure); done.
  - exists true. rewrite count_cons_false, count_app, (Hzero _ Hpure) by done.
    done.
  - exists false. rewrite count_cons_false, (Hzero _ Hpure); done.
  - exists false. rewrite count_cons_false, count_app, (Hzero _ Hpure) by done.
    done.
Qed.

(** X22: the counters that the script reports are right.  On a snapshot
    where the title of every document that lacks tags turns into a
    string, so that each document taken up can be announced, the loop
    does not throw; it adds to [processed] the number of documents of the
    snapshot that lack tags and to [updated] the number of writes it has
    made, and it updates no more documents than it processes. *)
Theorem main_loop_counts (openaiKey openaiModel : string) (docs : list QueryDoc) :
  Forall (λ doc, lacks_tags doc = true → title_prints doc = true) docs →
  ∀ (processed updated : Z) (w : World),
    ∃ processed' updated' : Z,
      result (main_loop JSON_parse openaiKey openaiModel docs processed updated w)
        = Ok (processed', updated')
      ∧ processed'
        = processed + Z.of_nat (length (filter (λ d, lacks_tags d = true) docs))
      ∧ updated'
        = updated
          + Z.of_nat (count is_document_write
                        (trace (main_loop JSON_parse openaiKey openaiModel docs
                                  processed updated w)))
      ∧ updated' - updated ≤ processed' - processed.
Proof.
  intros Hall. induction Hall as [|doc rest Hp _ IH]; intros processed updated w.
  - exists processed, updated. cbn. repeat split; lia.
  - cbn [main_loop]. rewrite bind_run.
    destruct (process_doc_flags openaiKey openaiModel doc w)
      as [(b & Hres & Hcount & Himp) | (Hl & Hno & _)];
      [|specialize (Hp Hl); congruence].
    rewrite Hres. cbn [result trace final].
    destruct (IH (if lacks_tags doc then processed + 1 else processed)
                 (if b then updated + 1 else updated)
                 (final (process_doc JSON_parse openaiKey openaiModel doc w)))
      as (p' & u' & Hr & Hp' & Hu & Hle).
    exists p', u'. split; [exact Hr|].
    rewrite count_app, Hcount.
    destruct (lacks_tags doc) eqn:Hl.
    + rewrite filter_cons_True by done. cbn [length].
      destruct b; repeat split; lia.
    + rewrite filter_cons_False by (by rewrite Hl).
      destruct b; [by specialize (Himp eq_refl)|]. repeat split; lia.
Qed.

(** The world after the loop body. *)
Lemma process_doc_world (openaiKey openaiModel : string) (doc : QueryDoc) (w : World) :
  final (process_doc JSON_parse openaiKey openaiModel doc w) = w
  ∨ ∃ tags,
      final (process_doc JSON_parse openaiKey openaiModel doc w)
      = set_firestore
          (λ fs, <["news/" +:+ doc_id doc
                   := tags_field tags ∪ default ∅ (fs !! ("news/" +:+ doc_id doc))]> fs)
          w.
Proof.
  destruct (lacks_tags doc) eqn:Hl.
  2:{ left. by rewrite (process_doc_skips_tagged JSON_parse _ _ _ _ Hl). }
  rewrite (process_doc_run JSON_parse openaiKey openaiModel doc w Hl).
  destruct (title_prints doc); [|by left].
  destruct (generateTagsForDoc_spec JSON_parse openaiKey openaiModel doc w)
    as (Hfinal & _ & _).
  destruct (generateTagsForDoc JSON_parse openaiKey openaiModel doc w)
    as [w1 t1 [[[|tag tags]|]|e]]; cbn [final] in *; subst w1; eauto.
Qed.

Lemma tags_write_frame (w : World) (path : string) (tags : list string)
    (other k : string) :
  k ≠ "tags" →
  firestore
    (set_firestore
       (λ fs, <[path := tags_field tags ∪ default ∅ (fs !! path)]> fs) w)
    !! other ≫= (λ d, d !! k)
  = firestore w !! other ≫= (λ d, d !! k).
Proof.
  intros Hk. destruct w as [us ts fs env rm ids n now]; cbn.
  destruct (decide (path = other)) as [->|Hne].
  - rewrite lookup_insert_eq. cbn.
    rewrite lookup_union_r; [|unfold tags_field; by rewrite lookup_singleton_ne].
    by destruct (fs !! other).
  - by rewrite lookup_insert_ne.
Qed.

(** The loop body leaves alone the credential store and every field but
    [tags]. *)
Lemma process_doc_sets_only_tags (openaiKey openaiModel : string)
    (doc : QueryDoc) (w : World) :
  let w' := final (process_doc JSON_parse openaiKey openaiModel doc w) in
  auth_users w' = auth_users w
  ∧ ∀ path k : string,
      k ≠ "tags" →
      firestore w' !! path ≫= (λ d, d !! k)
      = firestore w !! path ≫= (λ d, d !! k).
Proof.
  cbn zeta.
  destruct (process_doc_world openaiKey openaiModel doc w) as [-> | [tags ->]].
  - by split.
  - split; [by destruct w|]. intros path k Hk. by apply tags_write_frame.
Qed.

(** X23: the backfill only ever sets [tags].  After the whole loop every
    field other than [tags] of every document is as it was, a document
    that was not there has not got any such field, and the credential
    store is untouched. *)
Theorem main_loop_sets_only_tags (openaiKey openaiModel : string)
    (docs : list QueryDoc) :
  ∀ (processed updated : Z) (w : World),
    let w' := final (main_loop JSON_parse openaiKey openaiModel docs
                       processed updated w) in
    auth_users w' = auth_users w
    ∧ ∀ path k : string,
        k ≠ "tags" →
        firestore w' !! path ≫= (λ d, d !! k)
        = firestore w !! path ≫= (λ d, d !! k).
Proof.
  induction docs as [|doc rest IH]; intros processed updated w; cbn zeta.
  - by split.
  - cbn [main_loop]. rewrite bind_run.
    destruct (process_doc_sets_only_tags openaiKey openaiModel doc w)
      as [Hu Hf].
    destruct (result (process_doc JSON_parse openaiKey openaiModel doc w))
      as [[a b]|err]; cbn [final]; [|by split].
    specialize (IH (if a then processed + 1 else processed)
                   (if b then updated + 1 else updated)
                   (final (process_doc JSON_parse openaiKey openaiModel doc w))).
    cbn zeta in IH. destruct IH as [IHu IHf]. split.
    + by rewrite IHu.
    + intros path k Hk. by rewrite (IHf path k Hk), (Hf path k Hk).
Qed.

(** X19: all that a run of the script writes is a [tags] field, not
    empty and drawn from the vocabulary, on documents of its snapshot
    that had no tags; a document with tags is never written again. *)
Theorem main_writes_only_untagged (snap : list QueryDoc) (w : World) (e : Event) :
  e ∈ trace (main JSON_parse snap w) →
  is_document_write e = true →
  ∃ doc tags,
    doc ∈ snap ∧ lacks_tags doc = true
    ∧ e = DocSetMerge ("news/" +:+ doc_id doc) (tags_field tags)
    ∧ tags ≠ [] ∧ Forall (λ t, t ∈ ALLOWED_TAGS) tags.
Proof.
  intros Hin Hw.
  assert (Hloop : ∀ key model docs p u w0,
            e ∈ trace (main_loop JSON_parse key model docs p u w0) →
            ∃ doc tags,
              doc ∈ docs ∧ lacks_tags doc = true
              ∧ e = DocSetMerge ("news/" +:+ doc_id doc) (tags_field tags)
              ∧ tags ≠ [] ∧ Forall (λ t, t ∈ ALLOWED_TAGS) tags).
  { intros key model docs. induction docs as [|doc rest IH]; intros p u w0.
    - cbn. by intros ?%elem_of_nil.
    - intros [Hd | (p' & u' & w' & Hr)]%main_loop_trace.
      + destruct (lacks_tags doc) eqn:Hl.
        2:{ rewrite (process_doc_skips_tagged JSON_parse key model doc w0 Hl) in Hd.
            by apply elem_of_nil in Hd. }
        destruct (process_doc_write_shape JSON_parse _ _ _ _ _ Hd Hw)
          as (tags & ? & ? & ?).
        exists doc, tags. split; [by left|done].
      + destruct (IH _ _ _ Hr) as (doc' & tags & ? & ? & ? & ? & ?).
        exists doc', tags. split; [by right|done]. }
  unfold main in Hin. rewrite bind_run in Hin.
  destruct (env_run "OPENAI_API_KEY" EmptyString w) as [key Hkey].
  rewrite Hkey in Hin. cbn [result final trace] in Hin.
  rewrite bind_run in Hin.
  destruct (env_run "OPENAI_MODEL" "gpt-4o-mini" w) as [model Hmodel].
  rewrite Hmodel in Hin. cbn [result final trace] in Hin.
  destruct snap as [|doc rest].
  { cbn in Hin. apply list_elem_of_singleton in Hin as ->. done. }
  rewrite bind_run in Hin.
  destruct (main_loop JSON_parse key model (doc :: rest) 0 0 w)
    as [w1 t1 [[p u]|err]] eqn:Hrun; cbn in Hin.
  - apply elem_of_app in Hin as [Hin|Hin].
    + apply (Hloop key model (doc :: rest) 0 0 w). by rewrite Hrun.
    + apply list_elem_of_singleton in Hin as ->. done.
  - apply (Hloop key model (doc :: rest) 0 0 w). by rewrite Hrun.
Qed.

(** X24: an answer that is a bare array and parses at the first attempt
    gives no tags, whatever it holds: the script looks for a [tags]
    property, and takes a bare array only in the fallback, after a parse
    that failed.  Nothing is written for such an answer. *)
Theorem bare_array_answer_is_not_used (openaiKey openaiModel : string)
    (doc : QueryDoc) (w : World) (resp : FetchResponse) (values : list jsval) :
  remote w openai_url (tags_request_of openaiModel doc) = Some resp →
  JSON_parse (answer_text resp) = Some (JArr values) →
  count is_document_write
    (trace (process_doc JSON_parse openaiKey openaiModel doc w)) = 0%nat.
Proof.
  intros Hresp Hparse. unfold count.
  destruct (process_doc_writes JSON_parse openaiKey openaiModel doc w)
    as [-> | (tags & Hg & _)]; [done|]. exfalso.
  destruct (generateTagsForDoc_spec JSON_parse openaiKey openaiModel doc w)
    as (_ & _ & Htags).
  destruct (Htags _ Hg) as (Hne & resp' & Hresp' & Heq).
  rewrite Hresp in Hresp'. injection Hresp' as <-.
  apply Hne. rewrite Heq. unfold tags_of_content. by rewrite Hparse.
Qed.

End BackfillWhole.

Lemma main_one_tag_written :
  DocSetMerge "news/n1" (tags_field ["auto"])
    ∈ trace (main parse_one_tag [news_n1; news_tagged] one_tag_world).
Proof.
  eapply (list_elem_of_filter (λ e, is_document_write e = true)).
  assert (H : filter (λ e, is_document_write e = true)
                (trace (main parse_one_tag [news_n1; news_tagged] one_tag_world))
              = [DocSetMerge "news/n1" (tags_field ["auto"])])
    by (vm_compute; reflexivity).
  rewrite H. by apply list_elem_of_singleton.
Qed.

Lemma main_writes_only_untagged_witness :
  DocSetMerge "news/n1" (tags_field ["auto"])
    ∈ trace (main parse_one_tag [news_n1; news_tagged] one_tag_world)
  ∧ ∃ doc tags,
      doc ∈ [news_n1; news_tagged] ∧ lacks_tags doc = true
      ∧ DocSetMerge "news/n1" (tags_field ["auto"])
        = DocSetMerge ("news/" +:+ doc_id doc) (tags_field tags).
Proof.
  split; [exact main_one_tag_written|].
  destruct (main_writes_only_untagged parse_one_tag _ one_tag_world _
              main_one_tag_written eq_refl)
    as (doc & tags & H1 & H2 & H3 & _).
  exists doc, tags. auto.
Defined.

Lemma process_doc_blank_is_not_sent_witness :
  lacks_tags news_blank = true
  ∧ truthy (prop (doc_data news_blank) "title") = false
  ∧ truthy (prop (doc_data news_blank) "summary") = false
  ∧ count is_outbound_http
      (trace (process_doc parse_one_tag "sk-test" "gpt-4o-mini" news_blank
                one_tag_world)) = 0%nat.
Proof.
  split; [reflexivity|]. split; [reflexivity|]. split; [reflexivity|].
  exact (proj1 (proj2 (process_doc_blank_is_not_sent parse_one_tag "sk-test"
                         "gpt-4o-mini" news_blank one_tag_world
                         eq_refl eq_refl eq_refl))).
Defined.

Lemma process_doc_survives_ai_failure_witness :
  lacks_tags news_n1 = true
  ∧ title_prints news_n1 = true
  ∧ result (process_doc parse_one_tag "sk-test" "gpt-4o-mini" news_n1
              broken_ai_world) = Ok (true, false)
  ∧ final (process_doc parse_one_tag "sk-test" "gpt-4o-mini" news_n1
             broken_ai_world) = broken_ai_world.
Proof.
  split; [reflexivity|]. split; [reflexivity|].
  destruct (process_doc_survives_ai_failure parse_one_tag "sk-test" "gpt-4o-mini"
              news_n1 broken_ai_world eq_refl eq_refl eq_refl (λ _, eq_refl))
    as (H1 & _ & _ & H4).
  split; [exact H1 | exact H4].
Defined.

Lemma main_loop_counts_witness :
  Forall (λ doc, lacks_tags doc = true → title_prints doc = true)
    [news_n1; news_tagged; news_blank]
  ∧ ∃ processed updated : Z,
      result (main_loop parse_one_tag "sk-test" "gpt-4o-mini"
                [news_n1; news_tagged; news_blank] 0 0 one_tag_world)
      = Ok (processed, updated)
      ∧ processed = 2.
Proof.
  assert (H : Forall (λ doc, lacks_tags doc = true → title_prints doc = true)
                [news_n1; news_tagged; news_blank])
    by (repeat constructor).
  split; [exact H|].
  destruct (main_loop_counts parse_one_tag "sk-test" "gpt-4o-mini"
              [news_n1; news_tagged; news_blank] H 0 0 one_tag_world)
    as (p & u & Hr & Hp & _).
  exists p, u. split; [exact Hr | exact Hp].
Defined.

(** The loop is cut short, and [main] throws, on a document without tags
    whose title does not turn into a string: the documents after it are
    not processed. *)
Example main_loop_stops_on_odd_title :
  let r := main_loop parse_one_tag "sk-test" "gpt-4o-mini"
             [news_odd_title; news_n1] 0 0 one_tag_world in
  result r = Throw TypeError ∧ trace r = [] ∧ final r = one_tag_world.
Proof. repeat split; vm_compute; reflexivity. Qed.

Lemma bare_array_answer_is_not_used_witness :
  parse_bare_array
    (answer_text
       (mkFetch 200 "OK" None
          (Some (obj [("choices",
                       JArr [obj [("message",
                                   obj [("role", JStr "assistant");
                                        ("content", JStr one_tag_answer)])]])]))))
    = Some (JArr [JStr "auto"; JStr "vida"])
  ∧ count is_document_write
      (trace (process_doc parse_bare_array "sk-test" "gpt-4o-mini" news_n1
                one_tag_world)) = 0%nat.
Proof.
  split; [reflexivity|].
  exact (bare_array_answer_is_not_used parse_bare_array "sk-test" "gpt-4o-mini"
           news_n1 one_tag_world _ _ eq_refl eq_refl).
Defined.

(** ** The trigger on the first message of a chat *)

Ltac run_notifier :=
  unfold docGet, docUpdate, fetch, logger_info, logger_error in *;
  unfold mbind, M_bind, bind, try_catch, emit, world, modify, ret, throw in *;
  cbn -[emailjs_url notification_body emailjsCfg notificationsEnabled
        notified_mark pretty String_ stringifies filter].

Lemma notify_idle_run (message : option dict) (chatId : string) (w : World) :
  first_user_message message chatId w = false →
  ∃ t, notifyOnFirstUserMessage message chatId w = mkRun w t (Ok tt)
       ∧ (t = [] ∨ t = [DocGet (chat_path chatId)]).
Proof.
  unfold first_user_message, notifyOnFirstUserMessage, chat_path.
  destruct message as [data|]; [|intros _; exists []; by split; [|left]].
  destruct (is_not_user (prop data "authorRole")); cbn [negb andb].
  { intros _. exists []. by split; [|left]. }
  run_notifier.
  destruct (firestore w !! ("chats/" +:+ chatId)) as [chat|]; cbn.
  - intros Hn%negb_false_iff. rewrite Hn. cbn. eexists. split; [done|by right].
  - intros _. eexists. split; [done|by right].
Qed.

Lemma notify_acting_run (data : dict) (chatId : string) (w : World) (chat : dict) :
  is_not_user (prop data "authorRole") = false →
  firestore w !! chat_path chatId = Some chat →
  truthy (prop chat "firstNotified") = false →
  stringifies (message_text data) = true →
  stringifies (chat_name chat) = true →
  let body :=
    notification_body (emailjsCfg (process_env w))
      (chat_name chat) (String_ (message_text data)) in
  ∃ sending : list Event,
    notifyOnFirstUserMessage (Some data) chatId w
    = mkRun (set_firestore <[chat_path chatId := notified_mark ∪ chat]> w)
        (DocGet (chat_path chatId) :: sending
         ++ [DocSetMerge (chat_path chatId) notified_mark])
        (Ok tt)
    ∧ Forall (λ e, is_document_write e = false) sending
    ∧ filter (λ e, is_outbound_http e = true) sending
      = (if notifier_sends (process_env w)
         then [HttpFetch emailjs_url None body] else [])
    ∧ (match remote w emailjs_url body with
       | Some res => fok res = false
       | None => True
       end →
       notifier_sends (process_env w) = true →
       count is_error_log sending = 1%nat).
Proof.
  intros Hu Hc Hn Htext Hname. cbn zeta.
  unfold notifyOnFirstUserMessage, chat_path, message_text, chat_name,
         ToString in *.
  rewrite Hu. run_notifier. rewrite Hc. cbn -[emailjs_url notification_body
        emailjsCfg notificationsEnabled notified_mark pretty String_
        stringifies filter].
  rewrite Hn. cbn -[emailjs_url notification_body emailjsCfg
        notificationsEnabled notified_mark pretty String_ stringifies filter].
  rewrite Htext. cbn -[emailjs_url notification_body emailjsCfg
        notificationsEnabled notified_mark pretty String_ stringifies filter].
  rewrite Hname. cbn -[emailjs_url notification_body emailjsCfg
        notificationsEnabled notified_mark pretty String_ stringifies filter].
  unfold notifier_sends.
  destruct (negb (notificationsEnabled (process_env w))
            || String.eqb (adminTo (emailjsCfg (process_env w))) EmptyString
            || String.eqb (serviceId (emailjsCfg (process_env w))) EmptyString
            || String.eqb (templateId (emailjsCfg (process_env w))) EmptyString
            || String.eqb (publicKey (emailjsCfg (process_env w))) EmptyString);
    cbn -[emailjs_url notification_body emailjsCfg notificationsEnabled
          notified_mark pretty String_ stringifies filter].
  { rewrite Hc. eexists [_]. split; [reflexivity|].
    split; [by repeat constructor|]. split; [reflexivity|]. done. }
  destruct (remote w emailjs_url _) as [res|];
    cbn -[emailjs_url notification_body emailjsCfg notificationsEnabled
          notified_mark pretty String_ stringifies filter].
  - destruct (fok res);
      cbn -[emailjs_url notification_body emailjsCfg notificationsEnabled
            notified_mark pretty String_ stringifies filter];
      rewrite Hc; eexists [_; _]; (split; [reflexivity|]);
      (split; [by repeat constructor|]); (split; [reflexivity|]); done.
  - rewrite Hc. eexists [_; _]. split; [reflexivity|].
    split; [by repeat constructor|]. split; [reflexivity|]. done.
Qed.

(** Where the text of the message or the name of the chat does not turn
    into a string the trigger throws once it has read the chat: no mail
    goes out and the chat is not marked. *)
Lemma notify_throwing_run (data : dict) (chatId : string) (w : World) (chat : dict) :
  is_not_user (prop data "authorRole") = false →
  firestore w !! chat_path chatId = Some chat →
  truthy (prop chat "firstNotified") = false →
  stringifies (message_text data) && stringifies (chat_name chat) = false →
  notifyOnFirstUserMessage (Some data) chatId w
  = mkRun w [DocGet (chat_path chatId)] (Throw TypeError).
Proof.
  intros Hu Hc Hn Hno.
  unfold notifyOnFirstUserMessage, chat_path, message_text, chat_name,
         ToString in *.
  rewrite Hu. run_notifier. rewrite Hc. cbn -[emailjs_url notification_body
        emailjsCfg notificationsEnabled notified_mark pretty String_
        stringifies filter].
  rewrite Hn. cbn -[emailjs_url notification_body emailjsCfg
        notificationsEnabled notified_mark pretty String_ stringifies filter].
  destruct (stringifies (or_string (prop data "text") EmptyString));
    cbn -[emailjs_url notification_body emailjsCfg
          notificationsEnabled notified_mark pretty String_ stringifies filter];
    [|reflexivity].
  cbn [andb] in Hno. rewrite Hno. reflexivity.
Qed.

(** One run of the trigger makes one call to the mail service at most. *)
Lemma notify_one_call_at_most (message : option dict) (chatId : string) (w : World) :
  (count is_outbound_http (trace (notifyOnFirstUserMessage message chatId w))
   ≤ 1)%nat.
Proof.
  destruct (first_user_message message chatId w) eqn:Hf.
  - unfold first_user_message in Hf. destruct message as [data|]; [|done].
    destruct (firestore w !! chat_path chatId) as [chat|] eqn:Hc;
      [|by rewrite andb_false_r in Hf].
    apply andb_prop in Hf as [Hu%negb_true_iff Hn%negb_true_iff].
    destruct (stringifies (message_text data) && stringifies (chat_name chat))
      eqn:Hs.
    + apply andb_prop in Hs as [Htext Hname].
      destruct (notify_acting_run data chatId w chat Hu Hc Hn Htext Hname)
        as (sending & -> & _ & Hsend & _).
      cbn [trace]. rewrite count_cons_false by done. rewrite count_app.
      rewrite (count_cons_false _ (DocSetMerge _ _)) by done.
      unfold count at 1. rewrite Hsend.
      destruct (notifier_sends (process_env w)); cbn; lia.
    + rewrite (notify_throwing_run data chatId w chat Hu Hc Hn Hs). cbn [trace].
      rewrite count_cons_false by done.
      change (count is_outbound_http []) with 0%nat. lia.
  - destruct (notify_idle_run _ _ _ Hf) as (t & -> & [-> | ->]); cbn [trace];
      [|rewrite (count_cons_false _ (DocGet _)) by done];
      change (count is_outbound_http []) with 0%nat; lia.
Qed.

(** X25: the trigger acts on nothing but a message of a user in a chat
    that exists and is not yet marked as notified.  On any other event it
    returns after at most one read of the chat: no mail goes out, nothing
    is written and the world is as it was. *)
Theorem notify_ignores_other_events (message : option dict) (chatId : string)
    (w : World) :
  first_user_message message chatId w = false →
  let r := notifyOnFirstUserMessage message chatId w in
  result r = Ok tt
  ∧ count is_outbound_http (trace r) = 0%nat
  ∧ count is_document_write (trace r) = 0%nat
  ∧ final r = w
  ∧ (count is_document_read (trace r) ≤ 1)%nat.
Proof.
  intros Hidle. cbn zeta.
  destruct (notify_idle_run _ _ _ Hidle) as (t & -> & [-> | ->]);
    cbn [result trace final]; (repeat (split; [by cbn|])).
  - change (count is_document_read []) with 0%nat. lia.
  - rewrite count_cons_true by done.
    change (count is_document_read []) with 0%nat. lia.
Qed.

Lemma notify_ignores_other_events_witness :
  first_user_message (Some {[ "authorRole" := JStr "admin"; "text" := JStr "Oi" ]})
    "c1" chat_world = false
  ∧ final (notifyOnFirstUserMessage
             (Some {[ "authorRole" := JStr "admin"; "text" := JStr "Oi" ]})
             "c1" chat_world) = chat_world.
Proof.
  split; [reflexivity|].
  exact (proj1 (proj2 (proj2 (proj2
    (notify_ignores_other_events
       (Some {[ "authorRole" := JStr "admin"; "text" := JStr "Oi" ]})
       "c1" chat_world eq_refl))))).
Defined.

(** X26: on the first message of a user the chat is marked as notified,
    whatever becomes of the mail.  When the text of the message and the
    name of the chat turn into strings, the trigger does not throw; it
    sends one mail if notifications are enabled and configured and none
    otherwise; a mail that is rejected or refused is logged as an error;
    and in every case the one write sets [firstNotified] to true on the
    chat, whose other fields stay.  When the text or the name does not
    turn into a string, the trigger throws before that: no mail goes out
    and the chat is left as it was, not marked. *)
Theorem notify_marks_chat (data : dict) (chatId : string) (w : World) (chat : dict) :
  first_user_message (Some data) chatId w = true →
  firestore w !! chat_path chatId = Some chat →
  let r := notifyOnFirstUserMessage (Some data) chatId w in
  (stringifies (message_text data) = true →
   stringifies (chat_name chat) = true →
   result r = Ok tt
   ∧ count is_outbound_http (trace r)
     = (if notifier_sends (process_env w) then 1 else 0)%nat
   ∧ filter (λ e, is_document_write e = true) (trace r)
     = [DocSetMerge (chat_path chatId) notified_mark]
   ∧ firestore (final r) !! chat_path chatId = Some (notified_mark ∪ chat)
   ∧ (∀ k : string, k ≠ "firstNotified" →
        (notified_mark ∪ chat) !! k = chat !! k))
  ∧ (stringifies (message_text data) && stringifies (chat_name chat) = false →
     result r = Throw TypeError
     ∧ trace r = [DocGet (chat_path chatId)]
     ∧ final r = w).
Proof.
  unfold first_user_message. intros Hfirst Hc. rewrite Hc in Hfirst.
  apply andb_prop in Hfirst as [Hu%negb_true_iff Hn%negb_true_iff]. cbn zeta.
  split.
  - intros Htext Hname.
    destruct (notify_acting_run data chatId w chat Hu Hc Hn Htext Hname)
      as (sending & -> & Hpure%no_write_filter & Hsend & _).
    cbn [result trace final]. split; [done|]. split; [|split; [|split]].
    + rewrite count_cons_false by done. rewrite count_app.
      rewrite (count_cons_false _ (DocSetMerge _ _)) by done.
      unfold count at 1. rewrite Hsend.
      by destruct (notifier_sends (process_env w)).
    + rewrite filter_cons_False by done. rewrite filter_app, Hpure. done.
    + destruct w; cbn. by rewrite lookup_insert_eq.
    + intros k Hk. apply lookup_union_r. unfold notified_mark.
      by rewrite lookup_singleton_ne.
  - intros Hno. by rewrite (notify_throwing_run data chatId w chat Hu Hc Hn Hno).
Qed.

Lemma notify_marks_chat_witness :
  first_user_message user_message "c1" chat_world = true
  ∧ result (notifyOnFirstUserMessage user_message "c1" chat_world) = Ok tt
  ∧ count is_outbound_http
      (trace (notifyOnFirstUserMessage user_message "c1" chat_world)) = 1%nat
  ∧ firestore (final (notifyOnFirstUserMessage user_message "c1" chat_world))
      !! "chats/c1"
    = Some (notified_mark
            ∪ {[ "name" := JStr "Rui"; "email" := JStr "rui@example.org" ]})
  ∧ first_user_message odd_text_message "c1" chat_world = true
  ∧ result (notifyOnFirstUserMessage odd_text_message "c1" chat_world)
    = Throw TypeError
  ∧ final (notifyOnFirstUserMessage odd_text_message "c1" chat_world)
    = chat_world.
Proof.
  assert (Hf : first_user_message user_message "c1" chat_world = true)
    by reflexivity.
  assert (Hf' : first_user_message odd_text_message "c1" chat_world = true)
    by reflexivity.
  assert (Hc : firestore chat_world !! chat_path "c1"
               = Some {[ "name" := JStr "Rui"; "email" := JStr "rui@example.org" ]})
    by reflexivity.
  split; [exact Hf|].
  destruct (proj1 (notify_marks_chat
                     {[ "authorRole" := JStr "user"; "text" := JStr "Bom dia" ]}
                     "c1" chat_world _ Hf Hc) eq_refl eq_refl)
    as (H1 & H2 & _ & H4 & _).
  split; [exact H1|]. split; [exact H2|]. split; [exact H4|].
  split; [exact Hf'|].
  destruct (proj2 (notify_marks_chat
                     {[ "authorRole" := JStr "user";
                        "text" := obj [("toString", JNum 1)] ]}
                     "c1" chat_world _ Hf' Hc) eq_refl)
    as (H5 & _ & H7).
  split; [exact H5 | exact H7].
Defined.

(** X27: at most one mail per chat.  Of two events on the same chat that
    the trigger handles one after the other, whatever their messages, at
    most one makes a call to the mail service. *)
Theorem notify_at_most_once (first second : option dict) (chatId : string)
    (w : World) :
  let r1 := notifyOnFirstUserMessage first chatId w in
  let r2 := notifyOnFirstUserMessage second chatId (final r1) in
  (count is_outbound_http (trace r1) + count is_outbound_http (trace r2) ≤ 1)%nat.
Proof.
  cbn zeta.
  destruct (first_user_message first chatId w) eqn:Hf.
  - unfold first_user_message in Hf. destruct first as [data|]; [|done].
    destruct (firestore w !! chat_path chatId) as [chat|] eqn:Hc;
      [|by rewrite andb_false_r in Hf].
    apply andb_prop in Hf as [Hu%negb_true_iff Hn%negb_true_iff].
    destruct (stringifies (message_text data) && stringifies (chat_name chat))
      eqn:Hs.
    2:{ rewrite (notify_throwing_run data chatId w chat Hu Hc Hn Hs).
        cbn [trace final]. rewrite count_cons_false by done.
        change (count is_outbound_http []) with 0%nat.
        pose proof (notify_one_call_at_most second chatId w). lia. }
    apply andb_prop in Hs as [Htext Hname].
    destruct (notify_acting_run data chatId w chat Hu Hc Hn Htext Hname)
      as (sending & Hrun & _ & Hsend & _).
    rewrite Hrun. cbn [trace final].
    assert (Hidle : first_user_message second chatId
                      (set_firestore <[chat_path chatId := notified_mark ∪ chat]> w)
                    = false).
    { unfold first_user_message. destruct second as [data2|]; [|done].
      destruct w; cbn. rewrite lookup_insert_eq.
      unfold prop, notified_mark.
      rewrite (lookup_union_Some_l _ _ _ (JBool true))
        by apply lookup_singleton_eq.
      cbn. by rewrite andb_false_r. }
    assert (Hfirst : (count is_outbound_http
                        (DocGet (chat_path chatId) :: sending
                         ++ [DocSetMerge (chat_path chatId) notified_mark])
                      ≤ 1)%nat).
    { rewrite count_cons_false by done. rewrite count_app.
      rewrite (count_cons_false _ (DocSetMerge _ _)) by done.
      unfold count at 1. rewrite Hsend.
      destruct (notifier_sends (process_env w)); cbn; lia. }
    set (n1 := count is_outbound_http
                 (DocGet (chat_path chatId) :: sending
                  ++ [DocSetMerge (chat_path chatId) notified_mark])) in *.
    destruct (notify_idle_run _ _ _ Hidle) as (t & -> & [-> | ->]);
      cbn [trace]; [|rewrite (count_cons_false _ (DocGet _)) by done];
      change (count is_outbound_http []) with 0%nat; lia.
  - destruct (notify_idle_run _ _ _ Hf) as (t & Hrun & Ht).
    rewrite Hrun. cbn [trace final].
    pose proof (notify_one_call_at_most second chatId w).
    destruct Ht as [-> | ->];
      [|rewrite (count_cons_false _ (DocGet _)) by done];
      change (count is_outbound_http []) with 0%nat; lia.
Qed.

(** ** The script that stores one news item *)

Ltac run_script :=
  unfold TagBackfill.env, getenv, fetch, docSetMerge, newDocId in *;
  unfold mbind, M_bind, bind, try_catch, emit, world, modify, ret, throw in *;
  cbn -[list_to_map summary_request openai_url trim choice_content
        envAny_in String_ pretty dquote].

Lemma script_valid_run (title url source : string) (region : option string)
    (w : World) :
  cli_args_given title url source region = true →
  NewsScript.main (cli_args title url source region) w =
    if String.eqb (openai_key w) EmptyString
    then script_stored title url source region w EmptyString []
    else
      match remote w openai_url
              (summary_request (openai_model w) (JStr title) (JStr url)) with
      | None => script_gave_up title url w (FetchRejected openai_url)
      | Some resp =>
          if fok resp
          then script_stored title url source region w
                 (trim (choice_content (default (JObj ∅) (fjson resp))))
                 [cli_call title url w]
          else script_gave_up title url w
                 (Error ("OpenAI error: " +:+ pretty (fstatus resp)
                         +:+ " " +:+ fstatusText resp +:+ " "
                         +:+ default EmptyString (ftext resp)))
      end.
Proof.
  unfold cli_args_given.
  intros [[[Ht%negb_true_iff Hu%negb_true_iff]%andb_prop
             Hs%negb_true_iff]%andb_prop Hr]%andb_prop.
  unfold NewsScript.main, NewsScript.main_body, NewsScript.arg, cli_args,
         script_stored, script_gave_up, cli_call, cli_document, news_document,
         with_news, next_id, news_path, openai_key, openai_model.
  assert (Hregion : (if NewsScript.arg_missing
                          (([title; url; source]
                            ++ match region with Some r => [r] | None => [] end)%list !! 3%nat)
                     then "nacional"
                     else default EmptyString
                            (([title; url; source]
                              ++ match region with Some r => [r] | None => [] end)%list !! 3%nat))
                    = default "nacional" region).
  { destruct region as [r|]; cbn in *; [|done].
    apply negb_true_iff in Hr. by rewrite Hr. }
  rewrite Hregion.
  change (([title; url; source]
           ++ match region with Some r => [r] | None => [] end)%list !! 0%nat)
    with (Some title).
  change (([title; url; source]
           ++ match region with Some r => [r] | None => [] end)%list !! 1%nat)
    with (Some url).
  change (([title; url; source]
           ++ match region with Some r => [r] | None => [] end)%list !! 2%nat)
    with (Some source).
  cbn [NewsScript.arg_missing default]. rewrite Ht, Hu, Hs. cbn [orb].
  run_script.
  change (envAny_in (process_env w) ["OPENAI_API_KEY"] EmptyString)
    with (if negb (String.eqb (default EmptyString (process_env w !! "OPENAI_API_KEY"))
                     EmptyString)
          then default EmptyString (process_env w !! "OPENAI_API_KEY")
          else EmptyString).
  change (envAny_in (process_env w) ["OPENAI_MODEL"] "gpt-4o-mini")
    with (if negb (String.eqb (default EmptyString (process_env w !! "OPENAI_MODEL"))
                     EmptyString)
          then default EmptyString (process_env w !! "OPENAI_MODEL")
          else "gpt-4o-mini").
  set (key := if negb _ then default EmptyString (process_env w !! "OPENAI_API_KEY")
              else EmptyString).
  set (model := if negb _ then default EmptyString (process_env w !! "OPENAI_MODEL")
                else "gpt-4o-mini").
  destruct (String.eqb key EmptyString);
    cbn -[list_to_map summary_request openai_url trim choice_content
          String_ pretty dquote]; [reflexivity|].
  change (summary_request model (JStr title) (JStr url))
    with (obj [("model", JStr model);
               ("messages",
                JArr [obj [("role", JStr "system");
                           ("content", JStr "Escreves sempre em português de Portugal.")];
                      obj [("role", JStr "user");
                           ("content",
                            JStr ("Redige um resumo curto (2-3 frases, em português de Portugal) para esta notícia, de forma neutra e informativa, sem copiar texto literal. Título: "
                                  +:+ dquote +:+ title +:+ dquote
                                  +:+ ". URL: " +:+ url +:+ "."))]]);
               ("temperature", JDecimal "0.4")]).
  destruct (remote w openai_url _) as [resp|];
    cbn -[list_to_map openai_url trim choice_content String_ pretty dquote];
    [|reflexivity].
  destruct (fok resp);
    cbn -[list_to_map openai_url trim choice_content String_ pretty dquote];
    reflexivity.
Qed.

(** X28: [main] of the script refuses to run without a title, a url and
    a source: if one of the three arguments is missing or empty it prints
    its usage and exits with code 1, having called and written nothing. *)
Theorem script_usage_error (argv : list string) (w : World) :
  NewsScript.arg_missing (argv !! 0%nat) || NewsScript.arg_missing (argv !! 1%nat)
  || NewsScript.arg_missing (argv !! 2%nat) = true →
  let r := NewsScript.main argv w in
  result r = Ok (NewsScript.Exit 1)
  ∧ count is_error_log (trace r) = 1%nat
  ∧ count is_outbound_http (trace r) = 0%nat
  ∧ count is_document_write (trace r) = 0%nat
  ∧ final r = w.
Proof.
  intros Hmiss. unfold NewsScript.main, NewsScript.main_body, NewsScript.arg.
  rewrite Hmiss. run_script. auto.
Qed.

Lemma script_usage_error_witness :
  NewsScript.arg_missing (["Titulo"; "http://y"] !! 0%nat)
  || NewsScript.arg_missing (["Titulo"; "http://y"] !! 1%nat)
  || NewsScript.arg_missing (["Titulo"; "http://y"] !! 2%nat) = true
  ∧ result (NewsScript.main ["Titulo"; "http://y"] summary_world)
    = Ok (NewsScript.Exit 1).
Proof.
  split; [reflexivity|].
  exact (proj1 (script_usage_error ["Titulo"; "http://y"] summary_world eq_refl)).
Defined.

(** X29: unlike the endpoint, [main] of the script does not store an
    item whose summary could not be had.  With a key configured, when the completion
    call is rejected or answered outside 200-299 the script logs the
    error and exits with code 1; nothing is written and the world is as
    it was. *)
Theorem script_gives_up_on_ai_failure (title url source : string)
    (region : option string) (w : World) :
  cli_args_given title url source region = true →
  openai_key w ≠ EmptyString →
  match remote w openai_url
          (summary_request (openai_model w) (JStr title) (JStr url)) with
  | Some resp => fok resp = false
  | None => True
  end →
  let r := NewsScript.main (cli_args title url source region) w in
  result r = Ok (NewsScript.Exit 1)
  ∧ count is_outbound_http (trace r) = 1%nat
  ∧ count is_error_log (trace r) = 1%nat
  ∧ count is_document_write (trace r) = 0%nat
  ∧ final r = w.
Proof.
  intros Hargs Hkey%String.eqb_neq Hfail. cbn zeta.
  rewrite (script_valid_run _ _ _ _ _ Hargs), Hkey.
  destruct (remote w openai_url _) as [resp|].
  - rewrite Hfail. repeat split; reflexivity.
  - repeat split; reflexivity.
Qed.

Lemma script_gives_up_on_ai_failure_witness :
  cli_args_given "X" "http://y" "Z" None = true
  ∧ openai_key failing_ai_world ≠ EmptyString
  ∧ result (NewsScript.main (cli_args "X" "http://y" "Z" None) failing_ai_world)
    = Ok (NewsScript.Exit 1)
  ∧ final (NewsScript.main (cli_args "X" "http://y" "Z" None) failing_ai_world)
    = failing_ai_world.
Proof.
  assert (Hk : openai_key failing_ai_world ≠ EmptyString)
    by (vm_compute; discriminate).
  split; [reflexivity|]. split; [exact Hk|].
  destruct (script_gives_up_on_ai_failure "X" "http://y" "Z" None failing_ai_world
              eq_refl Hk eq_refl) as (H1 & _ & _ & _ & H5).
  split; [exact H1 | exact H5].
Defined.

Lemma cli_request_fields (title url source : string) (region : option string) :
  news_field (cli_request title url source region) "title" = JStr title
  ∧ news_field (cli_request title url source region) "url" = JStr url
  ∧ news_field (cli_request title url source region) "source" = JStr source
  ∧ news_region (cli_request title url source region)
    = JStr (default "nacional" region).
Proof.
  unfold news_region, news_field, cli_request, get, prop. cbn [body or_empty_object].
  destruct region as [r|]; cbn [default];
    rewrite ?(lookup_insert_ne _ "region") by done;
    rewrite ?lookup_insert_eq;
    rewrite ?(lookup_insert_ne _ "title") by done;
    rewrite ?lookup_insert_eq;
    rewrite ?(lookup_insert_ne _ "url") by done;
    rewrite ?lookup_insert_eq, ?lookup_insert_ne, ?lookup_empty by done;
    done.
Qed.

(** X30: when the summary can be had, [main] of the script stores what
    the endpoint would store.  For arguments that are all there and a
    completion call that is answered in 200-299, the script run on them
    and the endpoint run on a POST request of the same title, url, source
    and region make the same write and leave the same world. *)
Theorem script_stores_like_endpoint (title url source : string)
    (region : option string) (w : World) (resp : FetchResponse) :
  cli_args_given title url source region = true →
  remote w openai_url (summary_request (openai_model w) (JStr title) (JStr url))
    = Some resp →
  fok resp = true →
  let script := NewsScript.main (cli_args title url source region) w in
  let endpoint :=
    upsertNewsWithAiSummary (cli_request title url source region) w in
  result script = Ok NewsScript.Finished
  ∧ filter (λ e, is_document_write e = true) (trace script)
    = filter (λ e, is_document_write e = true) (trace endpoint)
  ∧ final script = final endpoint.
Proof.
  intros Hargs Hresp Hok. cbn zeta.
  destruct (cli_request_fields title url source region) as (Ht & Hu & Hs & Hr).
  assert (Hgiven : news_fields_given (cli_request title url source region) = true).
  { unfold news_fields_given. rewrite Ht, Hu, Hs. unfold cli_args_given in Hargs.
    apply andb_prop in Hargs as [[[H1 H2]%andb_prop H3]%andb_prop _].
    cbn [truthy]. by rewrite H1, H2, H3. }
  rewrite (script_valid_run _ _ _ _ _ Hargs).
  rewrite (upsert_valid_run (cli_request title url source region) w eq_refl Hgiven).
  unfold stored_run, script_stored, summary_call, cli_call, news_document_of,
         cli_document, summary_prompt_builds.
  rewrite Ht, Hu, Hs, Hr.
  destruct (String.eqb (openai_key w) EmptyString); [repeat split; reflexivity|].
  cbn [stringifies andb negb].
  rewrite Hresp, Hok. repeat split; reflexivity.
Qed.

Lemma script_stores_like_endpoint_witness :
  cli_args_given "X" "http://y" "Z" (Some "local") = true
  ∧ result (NewsScript.main (cli_args "X" "http://y" "Z" (Some "local")) summary_world)
    = Ok NewsScript.Finished
  ∧ final (NewsScript.main (cli_args "X" "http://y" "Z" (Some "local")) summary_world)
    = final (upsertNewsWithAiSummary (cli_request "X" "http://y" "Z" (Some "local"))
               summary_world).
Proof.
  split; [reflexivity|].
  destruct (script_stores_like_endpoint "X" "http://y" "Z" (Some "local")
              summary_world _ eq_refl eq_refl eq_refl) as (H1 & _ & H3).
  split; [exact H1 | exact H3].
Defined.
